(** * qrefine: weight factors, weight scaling and composite targets

    A shallow embedding of [calculator.py] (the module that "handles the
    weight factors and scaling"), of [create_calculator] of [qr.py], of the
    restraints of [restraints.py] and of the atom placement of
    [completion.py], together with the statements of the specification that
    concern them.

    Conventions of the embedding.
    - Python floats are idealised as real numbers ([R]): arithmetic is exact,
      there is no rounding, no infinity and no NaN.  Float division raises
      [ZeroDivisionError] on a zero divisor, as in Python.  A computed value
      therefore stands for the float up to rounding, and a comparison of
      computed values is decided as on the machine only away from equality:
      the statements keep clear of the thresholds, and the outlier
      selection, where rounding decides, is embedded a second time on
      binary64 floats ([binary64]).
    - A method that mutates [self] or global state is a function in the
      monad [M S], a state monad in which the state survives a raised
      exception (as the heap does in Python).
    - The [weights] object is shared between the driver and the site
      calculator; it lives in a store and is named by a reference.
    - The cctbx collaborators (restraints manager, fmodel target functor,
      random perturbation) are the fields of the class [cctbx]. *)

From Stdlib Require Import Reals Lra List String Bool ZArith Lia.
From Stdlib Require PrimFloat.
Import ListNotations.
Local Open Scope R_scope.

(* ===================================================================== *)
(** * Python values, exceptions and effects *)
(* ===================================================================== *)

Module py.

(** The exceptions that the module, or a collaborator it calls, raises. *)
Inductive exn : Type :=
| RuntimeError (msg : string)
| AssertionError
| TypeError (msg : string)
| ZeroDivisionError
| NameError (name : string)
| Foreign (cls : string).   (* an exception class of a collaborator *)

Definition class_name (e : exn) : string :=
  match e with
  | RuntimeError _ => "RuntimeError"
  | AssertionError => "AssertionError"
  | TypeError _ => "TypeError"
  | ZeroDivisionError => "ZeroDivisionError"
  | NameError _ => "NameError"
  | Foreign cls => cls
  end.

(** A pure computation that may raise. *)
Inductive result (A : Type) : Type :=
| Ok (a : A)
| Err (e : exn).
Arguments Ok {A} a.
Arguments Err {A} e.

Definition rbind {A B} (r : result A) (k : A -> result B) : result B :=
  match r with
  | Ok a => k a
  | Err e => Err e
  end.

Definition rmap {A B} (f : A -> B) (r : result A) : result B :=
  rbind r (fun a => Ok (f a)).

(** A computation over a mutable state [S]: it returns or raises, and in
    both cases leaves a state behind. *)
Inductive outcome (S A : Type) : Type :=
| Return (a : A) (s : S)
| Raise (e : exn) (s : S).
Arguments Return {S A} a s.
Arguments Raise {S A} e s.

Definition M (S A : Type) : Type := S -> outcome S A.

Definition ret {S A} (a : A) : M S A := fun s => Return a s.

Definition bind {S A B} (c : M S A) (k : A -> M S B) : M S B :=
  fun s =>
    match c s with
    | Return a s' => k a s'
    | Raise e s' => Raise e s'
    end.

Definition raise {S A} (e : exn) : M S A := fun s => Raise e s.

Definition get {S} : M S S := fun s => Return s s.

Definition put {S} (s : S) : M S unit := fun _ => Return tt s.

Definition modify {S} (f : S -> S) : M S unit := fun s => Return tt (f s).

Definition lift {S A} (r : result A) : M S A :=
  match r with
  | Ok a => ret a
  | Err e => raise e
  end.

(** [STOP()], the builtin that libtbx installs: it prints the place of the
    call and calls [sys.exit(0)], which raises [SystemExit]. *)
Definition STOP {S A} : M S A := raise (Foreign "SystemExit").

(** The state left behind, whichever way the computation ended. *)
Definition final_state {S A} (o : outcome S A) : S :=
  match o with
  | Return _ s => s
  | Raise _ s => s
  end.

Definition returned {S A} (o : outcome S A) : option A :=
  match o with
  | Return a _ => Some a
  | Raise _ _ => None
  end.

Definition raised {S A} (o : outcome S A) : option exn :=
  match o with
  | Return _ _ => None
  | Raise e _ => Some e
  end.

(** ** Floats, idealised as reals *)

Definition lt (x y : R) : bool := if Rlt_dec x y then true else false.
Definition gt (x y : R) : bool := if Rgt_dec x y then true else false.
Definition ne (x y : R) : bool := if Req_dec_T x y then false else true.

(** [x / y] on floats. *)
Definition div (x y : R) : result R :=
  if Req_dec_T y 0 then Err ZeroDivisionError else Ok (x / y).

(** An attribute used as an operand of [*]: it has to hold a float. *)
Definition float_operand (a : option R) : result R :=
  match a with
  | Some a => Ok a
  | None => Err (TypeError "unsupported operand type(s) for *")
  end.

(** [round(x, ndigits)] of Python 2: the closest multiple of
    [10 ** -ndigits], a tie going away from zero. *)
Definition round_half_away (x : R) : Z :=
  if Rle_dec 0 x
  then Int_part (x + 1 / 2)
  else (- Int_part (- x + 1 / 2))%Z.

Definition round (x : R) (ndigits : nat) : R :=
  IZR (round_half_away (x * 10 ^ ndigits)) / 10 ^ ndigits.

(** Truth value of what a method returns: [None] and [False] are both
    false. *)
Definition truthy (v : option bool) : bool :=
  match v with
  | Some b => b
  | None => false
  end.

End py.

Import py.

Declare Scope py_scope.
Delimit Scope py_scope with py.
Notation "x <- c ;; k" := (py.bind c (fun x => k))
(at level 61, c at next level, right associativity) : py_scope.
Notation "c ;;; k" := (py.bind c (fun _ => k))
(at level 61, right associativity) : py_scope.
Notation "' pat <- c ;; k" := (py.bind c (fun x => match x with pat => k end))
(at level 61, pat pattern, c at next level, right associativity) : py_scope.

(* ===================================================================== *)
(** * scitbx.array_family.flex *)
(* ===================================================================== *)

Module flex.

Definition vec3 : Type := (R * R * R)%type.
Definition double : Type := list R.
Definition vec3_double : Type := list vec3.
Definition bool : Type := list Datatypes.bool.

Definition dot1 (v : vec3) : R :=
  let '(x, y, z) := v in x * x + y * y + z * z.

(** [a.dot()]: the dot product of every element with itself. *)
Definition dot (a : vec3_double) : double := map dot1 a.

(** [flex.sqrt(a)], element-wise. *)
Definition sqrt (a : double) : double := map R_sqrt.sqrt a.

Definition sum (a : double) : R := fold_right Rplus 0 a.

(** [flex.mean(a)]; it refuses an empty array. *)
Definition mean (a : double) : result R :=
  match a with
  | [] => Err (RuntimeError "mean() argument is an empty array")
  | _ => Ok (sum a / INR (List.length a))
  end.

(** [a.norm()] of a [vec3_double]: the 2-norm of all its components. *)
Definition norm (a : vec3_double) : R := R_sqrt.sqrt (sum (dot a)).

(** [a > t], element-wise. *)
Definition gt (a : double) (t : R) : bool := map (fun d => py.gt d t) a.

(** [~sel]. *)
Definition not (sel : bool) : bool := map negb sel.

(** [a.select(sel)], for a selection as long as the array. *)
Definition select {A} (a : list A) (sel : bool) : list A :=
  map fst (filter snd (combine a sel)).

(** [a.as_double()]: the components, atom after atom. *)
Definition as_double (a : vec3_double) : double :=
  flat_map (fun v : vec3 => let '(x, y, z) := v in [x; y; z]) a.

(** [flex.vec3_double(d)] from a flat array: consecutive triples. *)
Fixpoint vec3_double_of (d : double) : result vec3_double :=
  match d with
  | [] => Ok []
  | x :: y :: z :: d' => rbind (vec3_double_of d') (fun a => Ok ((x, y, z) :: a))
  | _ => Err (RuntimeError "size of array not a multiple of 3")
  end.

(** [a * c], a [vec3_double] times a float. *)
Definition mul (a : vec3_double) (c : R) : vec3_double :=
  map (fun v : vec3 => let '(x, y, z) := v in (x * c, y * c, z * c)) a.

(** [c * a], a float times a [vec3_double]. *)
Definition rmul (c : R) (a : vec3_double) : vec3_double :=
  map (fun v : vec3 => let '(x, y, z) := v in (c * x, c * y, c * z)) a.

Definition add1 (u v : vec3) : vec3 :=
  let '(x, y, z) := u in let '(x', y', z') := v in (x + x', y + y', z + z').

(** [a + b], element-wise; the sizes must agree. *)
Fixpoint add (a b : vec3_double) : result vec3_double :=
  match a, b with
  | [], [] => Ok []
  | u :: a', v :: b' => rbind (add a' b') (fun c => Ok (add1 u v :: c))
  | _, _ => Err (RuntimeError "array sizes differ")
  end.

End flex.

(* ===================================================================== *)
(** * The cctbx collaborators *)
(* ===================================================================== *)

(** One scatterer of an [xray.structure]: its Cartesian site and whether it
    is a hydrogen or deuterium atom. *)
Record scatterer : Type := {
  site : flex.vec3;
  hd : Datatypes.bool
}.

Definition xray_structure : Type := list scatterer.

Definition hd_selection (xrs : xray_structure) : flex.bool := map hd xrs.

Definition sites_cart (xrs : xray_structure) : flex.vec3_double := map site xrs.

(** [xrs.set_sites_cart(sites_cart)]: one site per scatterer; cctbx asserts
    that the sizes agree.  The sites are kept as they are given: cctbx keeps
    them as fractional coordinates, so that the sites read back are the
    sites written up to the rounding of the two conversions. *)
Fixpoint set_sites_cart (xrs : xray_structure) (sites : flex.vec3_double)
  : result xray_structure :=
  match xrs, sites with
  | [], [] => Ok []
  | sc :: xrs', v :: sites' =>
      rbind (set_sites_cart xrs' sites')
            (fun r => Ok ({| site := v; hd := hd sc |} :: r))
  | _, _ => Err AssertionError
  end.

(** [deep_copy] and [deep_copy_scatterers]: on values a copy is the value;
    what matters is that the later updates go to the copy. *)
Definition deep_copy {A : Type} (a : A) : A := a.

(** What the module asks of cctbx.  A restraints manager gives a target
    and gradients at given sites, can be restricted to a selection, and
    reports bond deviations [(min, max, rms)]; an fmodel holds reflection
    data from which R-factors and the data target follow; the global random
    generators are seeded and consumed by the shake. *)
Class cctbx : Type := {
  restraints : Type;
  rm_select : restraints -> flex.bool -> restraints;
  rm_bond_deviations :
    restraints -> flex.vec3_double -> result (R * R * R);
  rm_target_and_gradients :
    restraints -> flex.vec3_double -> result (R * flex.vec3_double);
  reflections : Type;
  compute_r_work : reflections -> xray_structure -> R;
  compute_r_free : reflections -> xray_structure -> R;
  (* target_work() and gradients_wrt_atomic_parameters(site=True).packed() *)
  compute_target_and_gradients :
    reflections -> xray_structure -> result (R * flex.double);
  random_state : Type;
  seeded : Z -> random_state;
  shake :
    random_state * random_state -> xray_structure -> R ->
    xray_structure * (random_state * random_state)
}.

Section Fmodel.
Context {C : cctbx}.

Record f_model : Type := {
  fm_xray_structure : xray_structure;
  fm_data : reflections
}.

Definition r_work (fm : f_model) : R :=
  compute_r_work (fm_data fm) (fm_xray_structure fm).

Definition r_free (fm : f_model) : R :=
  compute_r_free (fm_data fm) (fm_xray_structure fm).

(** [fmodel.update_xray_structure(xray_structure=xrs, update_f_calc=True)] *)
Definition update_xray_structure (fm : f_model) (xrs : xray_structure) : f_model :=
  {| fm_xray_structure := xrs; fm_data := fm_data fm |}.

(** [fmodel.target_functor()(compute_gradients=True)] *)
Definition target_functor (fm : f_model) : result (R * flex.double) :=
  compute_target_and_gradients (fm_data fm) (fm_xray_structure fm).

Record geometry_rmsd_manager : Type := {
  geometry : restraints
}.

(** [get_bonds_rmsd(restraints_manager, xrs)] *)
Definition get_bonds_rmsd (rm : restraints) (xrs : xray_structure)
  : result R :=
  let hd_sel := hd_selection xrs in
  rbind
    (rm_bond_deviations
       (rm_select rm (flex.not hd_sel))
       (flex.select (sites_cart xrs) (flex.not hd_sel)))
    (fun bond_deviations => Ok (snd bond_deviations)).

End Fmodel.

(* ===================================================================== *)
(** * class weights *)
(* ===================================================================== *)

Module weights.

(** The attributes of a [weights] object.  [restraints_weight] and
    [data_weight] default to [None]. *)
Record t : Type := {
  shake_sites : Datatypes.bool;
  restraints_weight : option R;
  data_weight : option R;
  restraints_weight_scale : R;
  weight_was_provided : Datatypes.bool;
  restraints_weight_scales : flex.double;
  r_frees : list R;
  r_works : list R
}.

Definition __init__ (shake_sites : Datatypes.bool)
  (restraints_weight data_weight : option R) (restraints_weight_scale : R) : t :=
  {| shake_sites := shake_sites;
     restraints_weight := restraints_weight;
     data_weight := data_weight;
     restraints_weight_scale := restraints_weight_scale;
     weight_was_provided :=
       match data_weight with Some _ => true | None => false end;
     restraints_weight_scales := [restraints_weight_scale];
     r_frees := [];
     r_works := [] |}.

Definition set_data_weight (v : option R) (w : t) : t :=
  {| shake_sites := shake_sites w;
     restraints_weight := restraints_weight w;
     data_weight := v;
     restraints_weight_scale := restraints_weight_scale w;
     weight_was_provided := weight_was_provided w;
     restraints_weight_scales := restraints_weight_scales w;
     r_frees := r_frees w;
     r_works := r_works w |}.

Definition set_restraints_weight_scale (v : R) (w : t) : t :=
  {| shake_sites := shake_sites w;
     restraints_weight := restraints_weight w;
     data_weight := data_weight w;
     restraints_weight_scale := v;
     weight_was_provided := weight_was_provided w;
     restraints_weight_scales := restraints_weight_scales w;
     r_frees := r_frees w;
     r_works := r_works w |}.

Definition set_restraints_weight_scales (v : flex.double) (w : t) : t :=
  {| shake_sites := shake_sites w;
     restraints_weight := restraints_weight w;
     data_weight := data_weight w;
     restraints_weight_scale := restraints_weight_scale w;
     weight_was_provided := weight_was_provided w;
     restraints_weight_scales := v;
     r_frees := r_frees w;
     r_works := r_works w |}.

Definition set_r_frees (v : list R) (w : t) : t :=
  {| shake_sites := shake_sites w;
     restraints_weight := restraints_weight w;
     data_weight := data_weight w;
     restraints_weight_scale := restraints_weight_scale w;
     weight_was_provided := weight_was_provided w;
     restraints_weight_scales := restraints_weight_scales w;
     r_frees := v;
     r_works := r_works w |}.

Definition set_r_works (v : list R) (w : t) : t :=
  {| shake_sites := shake_sites w;
     restraints_weight := restraints_weight w;
     data_weight := data_weight w;
     restraints_weight_scale := restraints_weight_scale w;
     weight_was_provided := weight_was_provided w;
     restraints_weight_scales := restraints_weight_scales w;
     r_frees := r_frees w;
     r_works := v |}.

(** A reference to a [weights] object. *)
Definition ref : Type := nat.

Section Methods.
Context {C : cctbx}.

(** The mutable state the methods run in: the [weights] objects, the state
    of Python's [random] and of flex's random generator, and the files
    written by [easy_pickle.dump]. *)
Record store : Type := {
  objects : ref -> t;
  random : random_state;
  flex_random : random_state;
  pickles : list (string * flex.double)
}.

Definition deref (self : ref) : M store t :=
  fun s => Return (objects s self) s.

(** Assignment to attributes of the object [self] refers to. *)
Definition update (self : ref) (f : t -> t) : M store unit :=
  fun s =>
    Return tt
      {| objects := fun r => if Nat.eqb r self then f (objects s r) else objects s r;
         random := random s;
         flex_random := flex_random s;
         pickles := pickles s |}.

(** [random.seed(n)] *)
Definition random_seed (n : Z) : M store unit :=
  fun s =>
    Return tt
      {| objects := objects s; random := seeded n;
         flex_random := flex_random s; pickles := pickles s |}.

(** [flex.set_random_seed(n)] *)
Definition flex_set_random_seed (n : Z) : M store unit :=
  fun s =>
    Return tt
      {| objects := objects s; random := random s;
         flex_random := seeded n; pickles := pickles s |}.

(** [xrs.shake_sites_in_place(mean_distance=d)], on the global generators;
    cctbx refuses an empty structure, which is not modelled. *)
Definition shake_sites_in_place (xrs : xray_structure) (mean_distance : R)
  : M store xray_structure :=
  fun s =>
    let '(xrs', (g, fg)) := shake (random s, flex_random s) xrs mean_distance in
    Return xrs'
      {| objects := objects s; random := g; flex_random := fg;
         pickles := pickles s |}.

Local Open Scope py_scope.

(** [self.restraints_weight_scale *= scale] *)
Definition imul_restraints_weight_scale (self : ref) (scale : R) : M store unit :=
  update self (fun w => set_restraints_weight_scale (restraints_weight_scale w * scale) w).

(** [self.restraints_weight_scale /= scale] *)
Definition idiv_restraints_weight_scale (self : ref) (scale : R) : M store unit :=
  w <- deref self ;;
  v <- lift (py.div (restraints_weight_scale w) scale) ;;
  update self (set_restraints_weight_scale v).

Definition scale_restraints_weight (self : ref) : M store unit :=
  w <- deref self ;;
  if weight_was_provided w then ret tt
  else imul_restraints_weight_scale self 4.

Definition adjust_restraints_weight_scale (self : ref) (fmodel : f_model)
  (geometry_rmsd_manager : geometry_rmsd_manager) (max_bond_rmsd scale : R)
  : M store (option Datatypes.bool) :=
  let adjusted := None in
  w <- deref self ;;
  if weight_was_provided w then ret adjusted
  else
    let rw := r_work fmodel in
    let rf := r_free fmodel in
    cctbx_rm_bonds_rmsd <-
      lift (get_bonds_rmsd (geometry geometry_rmsd_manager)
                           (fm_xray_structure fmodel)) ;;
    let adjusted := false in
    adjusted <-
      (if py.gt cctbx_rm_bonds_rmsd max_bond_rmsd
       then imul_restraints_weight_scale self scale ;;; ret true
       else ret adjusted) ;;
    adjusted <-
      (if negb adjusted && py.lt rf rw
       then idiv_restraints_weight_scale self scale ;;; ret true
       else ret adjusted) ;;
    adjusted <-
      (if negb adjusted && py.lt cctbx_rm_bonds_rmsd max_bond_rmsd
          && py.gt rf rw && py.lt (Rabs (rf - rw) * 100) 5
       then idiv_restraints_weight_scale self scale ;;; ret true
       else ret adjusted) ;;
    adjusted <-
      (if negb adjusted && py.lt cctbx_rm_bonds_rmsd max_bond_rmsd
          && py.gt rf rw && py.gt (Rabs (rf - rw) * 100) 5
       then imul_restraints_weight_scale self scale ;;; ret true
       else ret adjusted) ;;
    update self (fun w => set_r_frees (r_frees w ++ [py.round rf 4]) w) ;;;
    update self (fun w => set_r_works (r_works w ++ [py.round rw 4]) w) ;;;
    ret (Some adjusted).

Definition add_restraints_weight_scale_to_restraints_weight_scales (self : ref)
  : M store unit :=
  w <- deref self ;;
  if weight_was_provided w then ret tt
  else
    update self (fun w =>
      set_restraints_weight_scales
        (restraints_weight_scales w ++ [restraints_weight_scale w]) w).

(** The selection computed under "filter out large contributions": the
    atoms whose gradient is longer than six times the mean length.  The
    method computes it once for [gx] and once for [gc]. *)
Definition large_contributions (g : flex.vec3_double) : result flex.bool :=
  let g_d := flex.sqrt (flex.dot g) in
  rbind (flex.mean g_d) (fun mean => Ok (flex.gt g_d (mean * 6))).

Definition compute_weight (self : ref) (fmodel : f_model) (rm : restraints)
  : M store unit :=
  w <- deref self ;;
  if weight_was_provided w then ret tt
  else
    random_seed 1 ;;;
    flex_set_random_seed 1 ;;;
    let fmodel_dc := deep_copy fmodel in
    let xrs := deep_copy (fm_xray_structure fmodel_dc) in
    xrs <- (if shake_sites w then shake_sites_in_place xrs (2 / 10)
            else ret xrs) ;;
    let fmodel_dc := update_xray_structure fmodel_dc xrs in
    tgx <- lift (target_functor fmodel_dc) ;;
    gx <- lift (flex.vec3_double_of (snd tgx)) ;;
    ' (tc, gc) <- lift (rm_target_and_gradients rm (sites_cart xrs)) ;;
    let x := flex.norm gc in
    let y := flex.norm gx in
    sel <- lift (large_contributions gx) ;;
    let y := flex.norm (flex.select gx (flex.not sel)) in
    sel <- lift (large_contributions gc) ;;
    let x := flex.norm (flex.select gc (flex.not sel)) in
    if py.ne y 0
    then
      v <- lift (py.div x y) ;;
      update self (set_data_weight (Some v))
    else update self (set_data_weight (Some 1)).

(** The configuration at which [compute_weight] takes the gradients: the
    copy of the model's structure, shaken (when [shake_sites] is set) with
    both random generators freshly seeded with 1. *)
Definition perturbed (w : t) (fmodel : f_model) : xray_structure :=
  if shake_sites w
  then fst (shake (seeded 1, seeded 1) (fm_xray_structure fmodel) (2 / 10))
  else fm_xray_structure fmodel.

End Methods.
End weights.

(* ===================================================================== *)
(** * The outlier selection on binary64 floats *)
(* ===================================================================== *)

(** The lines of [compute_weight] under "filter out large contributions"
    once more, on the machine's binary64 floats with their rounding instead
    of the reals: the scaling of a gradient array, the norms
    [flex.sqrt(g.dot())], their mean (the sum from the first element on,
    divided by the size) and the comparison with six times the mean. *)
Module binary64.
Import PrimFloat.

Definition vec3 : Type := (float * float * float)%type.
Definition double : Type := list float.
Definition vec3_double : Type := list vec3.

Definition dot1 (v : vec3) : float :=
  let '(x, y, z) := v in (x * x + y * y + z * z)%float.

(** [c * g] *)
Definition rmul (c : float) (g : vec3_double) : vec3_double :=
  map (fun v : vec3 => let '(x, y, z) := v in (c * x, c * y, c * z)%float) g.

Definition sum (a : double) : float := fold_left add a 0%float.

(** [a.size()] as a float. *)
Definition size (a : double) : float :=
  fold_left (fun n _ => (n + 1)%float) a 0%float.

Definition mean (a : double) : result float :=
  match a with
  | [] => Err (RuntimeError "mean() argument is an empty array")
  | _ => Ok (sum a / size a)%float
  end.

Definition large_contributions (g : vec3_double) : result flex.bool :=
  let g_d := map (fun v => sqrt (dot1 v)) g in
  rbind (mean g_d) (fun mean => Ok (map (fun d => ltb (mean * 6)%float d) g_d)).

(** A gradient of length 6 among ten of length 0.5, and the float closest
    to 0.3. *)
Definition one_long_gradient : vec3_double :=
  (6, 0, 0)%float :: repeat (0.5, 0, 0)%float 10.

Definition three_tenths : float := 0x1.3333333333333p-2%float.

End binary64.

(* ===================================================================== *)
(** * class sites(calculator) *)
(* ===================================================================== *)

Module sites.
Section Methods.
Context {C : cctbx}.

(** [self.x] holds a flat [flex.double] after [initialize] and a
    [flex.vec3_double] after [update]. *)
Inductive coordinates : Type :=
| Flat (d : flex.double)
| Vec3 (a : flex.vec3_double).

(** The attributes of a [sites] calculator.  [x_target_functor] is the
    target functor of [fmodel] and is read off that attribute. *)
Record t : Type := {
  fmodel : f_model;
  restraints_manager : restraints;
  weights : weights.ref;
  dump_gradients : option string;
  x : option coordinates;
  not_hd_selection : option flex.bool
}.

Definition set_fmodel (v : f_model) (o : t) : t :=
  {| fmodel := v;
     restraints_manager := restraints_manager o;
     weights := weights o;
     dump_gradients := dump_gradients o;
     x := x o;
     not_hd_selection := not_hd_selection o |}.

Definition set_x (v : option coordinates) (o : t) : t :=
  {| fmodel := fmodel o;
     restraints_manager := restraints_manager o;
     weights := weights o;
     dump_gradients := dump_gradients o;
     x := v;
     not_hd_selection := not_hd_selection o |}.

Definition set_not_hd_selection (v : option flex.bool) (o : t) : t :=
  {| fmodel := fmodel o;
     restraints_manager := restraints_manager o;
     weights := weights o;
     dump_gradients := dump_gradients o;
     x := x o;
     not_hd_selection := v |}.

(** A method runs on its object and on the store that holds the [weights]
    object the calculator refers to. *)
Definition state : Type := (t * weights.store)%type.

Definition this : M state t := fun s => Return (fst s) s.

Definition assign (f : t -> t) : M state unit :=
  fun s => Return tt (f (fst s), snd s).

Definition in_store {A} (c : M weights.store A) : M state A :=
  fun s =>
    match c (snd s) with
    | Return a m => Return a (fst s, m)
    | Raise e m => Raise e (fst s, m)
    end.

Local Open Scope py_scope.

Definition initialize (fmodel' : f_model) : M state unit :=
  self <- this ;;
  assign (set_not_hd_selection
            (Some (flex.not (hd_selection (fm_xray_structure (fmodel self)))))) ;;;
  assign (set_fmodel fmodel') ;;;
  assign (set_x (Some (Flat (flex.as_double
                               (sites_cart (fm_xray_structure fmodel')))))).

Definition __init__ (fmodel : f_model) (restraints_manager : restraints)
  (weights : weights.ref) (dump_gradients : option string)
  : M weights.store t :=
  fun m =>
    let self :=
      {| fmodel := fmodel;
         restraints_manager := restraints_manager;
         weights := weights;
         dump_gradients := dump_gradients;
         x := None;
         not_hd_selection := None |} in
    match initialize fmodel (self, m) with
    | Return _ s => Return (fst s) (snd s)
    | Raise e s => Raise e (snd s)
    end.

Definition calculate_weight : M state unit :=
  self <- this ;;
  in_store (weights.compute_weight (weights self) (fmodel self)
                                   (restraints_manager self)).

Definition update_restraints_weight_scale (restraints_weight_scale : R)
  : M state unit :=
  self <- this ;;
  in_store (weights.update (weights self)
              (weights.set_restraints_weight_scale restraints_weight_scale)).

Definition update (x : flex.double) : M state unit :=
  a <- lift (flex.vec3_double_of x) ;;
  assign (set_x (Some (Vec3 a))) ;;;
  self <- this ;;
  xrs <- lift (set_sites_cart (fm_xray_structure (fmodel self)) a) ;;
  assign (set_fmodel {| fm_xray_structure := xrs;
                        fm_data := fm_data (fmodel self) |}) ;;;
  self <- this ;;
  assign (set_fmodel (update_xray_structure (fmodel self)
                        (fm_xray_structure (fmodel self)))).

(** [self.x] as the [sites_cart] argument of the restraints manager. *)
Definition sites_cart_of_x (x : option coordinates) : result flex.vec3_double :=
  match x with
  | Some (Vec3 a) => Ok a
  | _ => Err (TypeError "sites_cart: flex.vec3_double expected")
  end.

Definition self_x : M state flex.vec3_double :=
  self <- this ;;
  lift (sites_cart_of_x (x self)).

(** [easy_pickle.dump(file_name, obj)] *)
Definition easy_pickle_dump (file_name : string) (obj : flex.double)
  : M weights.store unit :=
  fun m =>
    Return tt
      {| weights.objects := weights.objects m;
         weights.random := weights.random m;
         weights.flex_random := weights.flex_random m;
         weights.pickles := weights.pickles m ++ [(file_name, obj)] |}.

Definition target_and_gradients (x : flex.double) : M state (R * flex.double) :=
  update x ;;;
  sites_cart <- self_x ;;
  self <- this ;;
  ' (rt, rg) <- lift (rm_target_and_gradients (restraints_manager self) sites_cart) ;;
  tgx <- lift (target_functor (fmodel self)) ;;
  let dt := fst tgx in
  dg <- lift (flex.vec3_double_of (snd tgx)) ;;
  w <- in_store (weights.deref (weights self)) ;;
  data_weight <- lift (py.float_operand (weights.data_weight w)) ;;
  restraints_weight <- lift (py.float_operand (weights.restraints_weight w)) ;;
  let t := dt * data_weight +
           restraints_weight * rt * weights.restraints_weight_scale w in
  g <- lift (flex.add
               (flex.mul dg data_weight)
               (flex.mul (flex.rmul restraints_weight rg)
                         (weights.restraints_weight_scale w))) ;;
  match dump_gradients self with
  | Some name =>
      in_store (easy_pickle_dump (name ++ "_dg") (flex.as_double dg)) ;;;
      in_store (easy_pickle_dump (name ++ "_rg") (flex.as_double rg)) ;;;
      in_store (easy_pickle_dump (name ++ "_g") (flex.as_double g)) ;;;
      py.STOP
  | None => ret (t, flex.as_double g)
  end.

End Methods.
End sites.

(* ===================================================================== *)
(** * class adp(calculator) *)
(* ===================================================================== *)

Module adp.
Section Methods.
Context {C : cctbx}.

Record t : Type := {
  fmodel : f_model;
  restraints_manager : restraints;
  restraints_weight : option R;
  data_weight : option R;
  restraints_weight_scale : option R;
  x : option flex.double
}.

Definition set_data_weight (v : option R) (o : t) : t :=
  {| fmodel := fmodel o;
     restraints_manager := restraints_manager o;
     restraints_weight := restraints_weight o;
     data_weight := v;
     restraints_weight_scale := restraints_weight_scale o;
     x := x o |}.

Local Open Scope py_scope.

(** The statements after [raise] are kept: [compute_weight] is a method of
    [weights], not a name of the module, so evaluating the call would be a
    [NameError]. *)
Definition calculate_weight : M t unit :=
  raise (A := unit) (RuntimeError "Not implemented.") ;;;
  v <- raise (A := option R) (NameError "compute_weight") ;;
  modify (set_data_weight v).

End Methods.
End adp.

(* ===================================================================== *)
(** * Sequences of calls on a weights object *)
(* ===================================================================== *)

Section Calls.
Context {C : cctbx}.

(** A call of one of the methods of [weights] that assign to its
    attributes. *)
Inductive call : Type :=
| call_compute_weight (fmodel : f_model) (rm : restraints)
| call_adjust_restraints_weight_scale (fmodel : f_model)
    (geometry_rmsd_manager : geometry_rmsd_manager) (max_bond_rmsd scale : R)
| call_scale_restraints_weight
| call_add_restraints_weight_scale_to_restraints_weight_scales.

Local Open Scope py_scope.

Definition perform (self : weights.ref) (c : call) : M weights.store unit :=
  match c with
  | call_compute_weight fmodel rm => weights.compute_weight self fmodel rm
  | call_adjust_restraints_weight_scale fmodel grm max_bond_rmsd scale =>
      weights.adjust_restraints_weight_scale self fmodel grm max_bond_rmsd scale ;;;
      ret tt
  | call_scale_restraints_weight => weights.scale_restraints_weight self
  | call_add_restraints_weight_scale_to_restraints_weight_scales =>
      weights.add_restraints_weight_scale_to_restraints_weight_scales self
  end.

Fixpoint perform_all (self : weights.ref) (cs : list call) : M weights.store unit :=
  match cs with
  | [] => ret tt
  | c :: cs' => perform self c ;;; perform_all self cs'
  end.

End Calls.

(* ===================================================================== *)
(** * Scripted collaborators *)
(* ===================================================================== *)

(** Collaborators whose answers are given as data: a restraints manager is
    the pair of its two evaluators, the reflection data carry the R-factors
    and the data target, and the random state is a counter that the shake
    turns into a displacement along the first axis. *)
Module scripted.

Record manager : Type := {
  bond_deviations : flex.vec3_double -> result (R * R * R);
  target_and_gradients : flex.vec3_double -> result (R * flex.vec3_double)
}.

Record data : Type := {
  r_work : R;
  r_free : R;
  target : xray_structure -> result (R * flex.double)
}.

Definition displace (d : R) (sc : scatterer) : scatterer :=
  let '(x, y, z) := site sc in {| site := (x + d, y, z); hd := hd sc |}.

Definition collaborators : cctbx :=
  {| restraints := manager;
     rm_select := fun rm _ => rm;
     rm_bond_deviations := bond_deviations;
     rm_target_and_gradients := target_and_gradients;
     reflections := data;
     compute_r_work := fun d _ => r_work d;
     compute_r_free := fun d _ => r_free d;
     compute_target_and_gradients := target;
     random_state := Z;
     seeded := fun n => n;
     shake := fun g xrs mean_distance =>
       (map (displace (mean_distance * IZR (fst g + snd g))) xrs,
        (fst g + 1, snd g + 1)%Z) |}.

(** A restraints manager that knows no bond and no restraint: zero target,
    zero gradients, zero deviations. *)
Definition no_restraints : manager :=
  {| bond_deviations := fun _ => Ok (0, 0, 0);
     target_and_gradients := fun sites => Ok (0, map (fun _ => (0, 0, 0)) sites) |}.

(** Reflection data with the given R-factors whose target has the gradient
    [(1, 0, 0)] at every atom. *)
Definition unit_gradients (rw rf : R) : data :=
  {| r_work := rw;
     r_free := rf;
     target := fun xrs => Ok (0, flex.as_double (map (fun _ => (1, 0, 0)) xrs)) |}.


(** A restraints manager reporting the bond rmsd [b] and the gradient
    [(0, 1, 0)] at every atom. *)
Definition with_bond_rmsd (b : R) : manager :=
  {| bond_deviations := fun _ => Ok (0, b, b);
     target_and_gradients := fun sites => Ok (1, map (fun _ => (0, 1, 0)) sites) |}.

Definition carbon (x y z : R) : scatterer := {| site := (x, y, z); hd := false |}.
Definition hydrogen (x y z : R) : scatterer := {| site := (x, y, z); hd := true |}.

(** A store with the given [weights] object at every reference. *)
Definition store_of (w : weights.t) : weights.store (C := collaborators) :=
  @weights.Build_store collaborators (fun _ => w) 0%Z 0%Z [].

(** The same, with the random generators in the states [g] and [fg]. *)
Definition store_with_random (w : weights.t) (g fg : Z) : weights.store :=
  @weights.Build_store collaborators (fun _ => w) g fg [].

Definition model (xrs : xray_structure) (d : data) : f_model :=
  @Build_f_model collaborators xrs d.

Definition rmsd_manager (rm : manager) : geometry_rmsd_manager :=
  @Build_geometry_rmsd_manager collaborators rm.

(** A site calculator as [__init__] leaves it, before [initialize]. *)
Definition calculator (fm : f_model) (rm : manager) (w : weights.ref)
  (dump_gradients : option string) : sites.t :=
  @sites.Build_t collaborators fm rm w dump_gradients None None.

End scripted.

(* ===================================================================== *)
(** * The life of a weights object *)
(* ===================================================================== *)

(** [continues w w']: the object [w'] is a later state of [w].  The
    configuration given to the constructor is the same, and the three
    histories of [w] are prefixes of those of [w'], the R-factor histories
    having grown by the same number of entries. *)
Definition continues (w w' : weights.t) : Prop :=
  weights.shake_sites w' = weights.shake_sites w
  /\ weights.restraints_weight w' = weights.restraints_weight w
  /\ weights.weight_was_provided w' = weights.weight_was_provided w
  /\ exists (fs ws : list R) (ss : flex.double),
       weights.r_frees w' = weights.r_frees w ++ fs
       /\ weights.r_works w' = weights.r_works w ++ ws
       /\ List.length fs = List.length ws
       /\ weights.restraints_weight_scales w'
          = weights.restraints_weight_scales w ++ ss.

(* ===================================================================== *)
(** * class sites_opt(calculator) *)
(* ===================================================================== *)

Module sites_opt.
Section Methods.
Context {C : cctbx}.

Local Notation "'structure'" := xray_structure (only parsing).

(** The attributes of a [sites_opt] calculator: the coordinate-only
    optimisation has a structure and a restraints manager, no fmodel and no
    weights. *)
Record t : Type := {
  dump_gradients : option string;
  restraints_manager : restraints;
  x : option flex.double;
  xray_structure : structure;
  not_hd_selection : option flex.bool
}.

Definition set_x (v : option flex.double) (o : t) : t :=
  {| dump_gradients := dump_gradients o;
     restraints_manager := restraints_manager o;
     x := v;
     xray_structure := xray_structure o;
     not_hd_selection := not_hd_selection o |}.

Definition set_xray_structure (v : structure) (o : t) : t :=
  {| dump_gradients := dump_gradients o;
     restraints_manager := restraints_manager o;
     x := x o;
     xray_structure := v;
     not_hd_selection := not_hd_selection o |}.

Definition set_not_hd_selection (v : option flex.bool) (o : t) : t :=
  {| dump_gradients := dump_gradients o;
     restraints_manager := restraints_manager o;
     x := x o;
     xray_structure := xray_structure o;
     not_hd_selection := v |}.

(** A method runs on its object and on the store, where the files written
    by [easy_pickle.dump] are kept. *)
Definition state : Type := (t * weights.store)%type.

Definition this : M state t := fun s => Return (fst s) s.

Definition assign (f : t -> t) : M state unit :=
  fun s => Return tt (f (fst s), snd s).

Definition in_store {A} (c : M weights.store A) : M state A :=
  fun s =>
    match c (snd s) with
    | Return a m => Return a (fst s, m)
    | Raise e m => Raise e (fst s, m)
    end.

Local Open Scope py_scope.

(** [initialize(self, xray_structure=None)]: the argument is not used, the
    attributes are read off [self.xray_structure]. *)
Definition initialize (xray_structure' : option structure) : M state unit :=
  self <- this ;;
  assign (set_not_hd_selection
            (Some (flex.not (hd_selection (xray_structure self))))) ;;;
  self <- this ;;
  assign (set_x (Some (flex.as_double (sites_cart (xray_structure self))))).

Definition __init__ (restraints_manager : restraints)
  (xray_structure : structure) (dump_gradients : option string)
  : M weights.store t :=
  fun m =>
    let self :=
      {| dump_gradients := dump_gradients;
         restraints_manager := restraints_manager;
         x := None;
         xray_structure := xray_structure;
         not_hd_selection := None |} in
    match initialize (Some xray_structure) (self, m) with
    | Return _ s => Return (fst s) (snd s)
    | Raise e s => Raise e (snd s)
    end.

Definition update (x : flex.double) : M state unit :=
  assign (set_x (Some x)).

(** [flex.vec3_double(self.x)] *)
Definition vec3_double_of_x (x : option flex.double) : result flex.vec3_double :=
  match x with
  | Some d => flex.vec3_double_of d
  | None => Err (TypeError "flex.vec3_double: flex.double expected")
  end.

Definition self_sites : M state flex.vec3_double :=
  self <- this ;;
  lift (vec3_double_of_x (x self)).

(** [easy_pickle.dump(file_name, g)] of a [vec3_double]; the file keeps the
    components of [g]. *)
Definition easy_pickle_dump (file_name : string) (g : flex.vec3_double)
  : M weights.store unit :=
  fun m =>
    Return tt
      {| weights.objects := weights.objects m;
         weights.random := weights.random m;
         weights.flex_random := weights.flex_random m;
         weights.pickles := weights.pickles m ++ [(file_name, flex.as_double g)] |}.

Definition target_and_gradients (x : flex.double) : M state (R * flex.double) :=
  update x ;;;
  sites_cart <- self_sites ;;
  self <- this ;;
  ' (f, g) <- lift (rm_target_and_gradients (restraints_manager self) sites_cart) ;;
  match dump_gradients self with
  | Some name =>
      in_store (easy_pickle_dump name g) ;;;
      py.STOP
  | None => ret (f, flex.as_double g)
  end.

Definition update_xray_structure : M state unit :=
  sites_cart <- self_sites ;;
  self <- this ;;
  xrs <- lift (set_sites_cart (xray_structure self) sites_cart) ;;
  assign (set_xray_structure xrs).

End Methods.
End sites_opt.

(* ===================================================================== *)
(** * States reached by the calculators *)
(* ===================================================================== *)

(** The state in which an evaluation at [x] leaves the calculator: [x] as
    sites in [self.x] and in the structure of the fmodel. *)
Definition evaluated {C : cctbx} (self : sites.t) (a : flex.vec3_double)
  (xrs : xray_structure) : sites.t :=
  sites.set_fmodel (update_xray_structure (sites.fmodel self) xrs)
    (sites.set_x (Some (sites.Vec3 a)) self).

(* ===================================================================== *)
(** * qr.create_calculator *)
(* ===================================================================== *)

Module qr.
Section Methods.
Context {C : cctbx}.

(** The parameters [create_calculator] reads: the scope [refine] and
    [dump_gradients]. *)
Record refine_params : Type := {
  shake_sites : Datatypes.bool;
  data_weight : option R;
  restraints_weight_scale : R;
  refine_sites : Datatypes.bool;
  refine_adp : Datatypes.bool;
  mode : string
}.

Record params : Type := {
  refine : refine_params;
  dump_gradients : option string
}.

(** What the function returns: one of the calculators. *)
Inductive calculator_object : Type :=
| Sites (o : sites.t)
| Sites_opt (o : sites_opt.t)
| Adp (o : adp.t).

Local Open Scope py_scope.

(** [calculator.weights(...)]: a new object, at the reference [fresh] that
    no other object has. *)
Definition new_weights (fresh : weights.ref) (w : weights.t)
  : M weights.store weights.ref :=
  weights.update fresh (fun _ => w) ;;; ret fresh.

(** [calculator.sites(fmodel=..., ...)]; with no fmodel the first
    statement of [initialize] reads an attribute of [None]. *)
Definition new_sites (fmodel : option f_model) (restraints_manager : restraints)
  (weights : weights.ref) (dump_gradients : option string)
  : M weights.store sites.t :=
  match fmodel with
  | Some fm => sites.__init__ fm restraints_manager weights dump_gradients
  | None => raise (Foreign "AttributeError")
  end.

(** [calculator.adp(fmodel=..., restraints_manager=..., weights=...)]:
    [adp.__init__] has no parameter [weights]. *)
Definition new_adp_with_weights (fmodel : option f_model)
  (restraints_manager : restraints) (weights : weights.ref)
  : M weights.store adp.t :=
  raise (TypeError "__init__() got an unexpected keyword argument 'weights'").

(** [create_calculator(weights, params, restraints_manager, fmodel, model)];
    [model] stands for [model.xray_structure]. *)
Definition create_calculator (fresh : weights.ref)
  (weights : option weights.ref) (params : params)
  (restraints_manager : restraints) (fmodel : option f_model)
  (model : option xray_structure)
  : M weights.store (option calculator_object) :=
  weights <-
    match weights with
    | None =>
        new_weights fresh
          (weights.__init__
             (shake_sites (refine params))
             (Some 1)
             (data_weight (refine params))
             (restraints_weight_scale (refine params)))
    | Some w => ret w
    end ;;
  if refine_sites (refine params)
  then
    if String.eqb (mode (refine params)) "refine"
    then
      o <- new_sites fmodel restraints_manager weights (dump_gradients params) ;;
      ret (Some (Sites o))
    else
      match model with
      | Some xray_structure =>
          o <- sites_opt.__init__ restraints_manager xray_structure
                 (dump_gradients params) ;;
          ret (Some (Sites_opt o))
      | None => raise (Foreign "AttributeError")
      end
  else if refine_adp (refine params)
  then
    o <- new_adp_with_weights fmodel restraints_manager weights ;;
    ret (Some (Adp o))
  else ret None.

End Methods.
End qr.

(* ===================================================================== *)
(** * restraints.from_cctbx *)
(* ===================================================================== *)

Module from_cctbx.

(** The cctbx geometry restraints manager, as [from_cctbx] uses it:
    [grm.select(selection)] and
    [grm.energies_sites(sites_cart=..., compute_gradients=True)], of which
    the target and the gradients are read. *)
Class geometry : Type := {
  manager : Type;
  select : manager -> flex.bool -> manager;
  energies_sites :
    manager -> flex.vec3_double -> result (R * flex.vec3_double)
}.

Section Methods.
Context {G : geometry}.

(** The attributes of [fragment_extracts] that are read. *)
Record fragment_extracts_t : Type := {
  fragment_super_selections : list flex.bool;
  super_sphere_geometry_restraints_manager : manager;
  fragment_scales : list (list R)
}.

Record t : Type := {
  geometry_restraints_manager : manager;
  file_name : string;
  fragment_extracts : option fragment_extracts_t
}.

Definition __init__ (restraints_manager : manager)
  (fragment_extracts : option fragment_extracts_t) (file_name : string) : t :=
  {| geometry_restraints_manager := restraints_manager;
     file_name := file_name;
     fragment_extracts := fragment_extracts |}.

(** [l[index]] on a list. *)
Definition getitem {A} (l : list A) (index : option nat) : result A :=
  match index with
  | None => Err (TypeError "list indices must be integers, not NoneType")
  | Some i =>
      match nth_error l i with
      | Some a => Ok a
      | None => Err (Foreign "IndexError")
      end
  end.

(** [selection.count(True)] *)
Definition count_true (selection : flex.bool) : nat :=
  List.length (filter (fun b : Datatypes.bool => b) selection).

(** [g * flex.double(scales)]: every gradient times its scale; the sizes
    must agree. *)
Fixpoint mul_each (g : flex.vec3_double) (scales : list R)
  : result flex.vec3_double :=
  match g, scales with
  | [], [] => Ok []
  | v :: g', c :: scales' =>
      rbind (mul_each g' scales')
            (fun r => Ok ((let '(x, y, z) := v in (x * c, y * c, z * c)) :: r))
  | _, _ => Err (RuntimeError "array sizes differ")
  end.

Definition target_and_gradients (self : t) (sites_cart : flex.vec3_double)
  (selection : option flex.bool) (index : option nat)
  : result (R * flex.vec3_double) :=
  match selection with
  | Some selection =>
      match fragment_extracts self with
      | None => Err (Foreign "AttributeError")
      | Some fragment_extracts =>
          rbind (getitem (fragment_super_selections fragment_extracts) index)
            (fun super_selection =>
          let grm := super_sphere_geometry_restraints_manager fragment_extracts in
          rbind (energies_sites (select grm super_selection)
                   (flex.select sites_cart super_selection))
            (fun es =>
          let gradients := firstn (count_true selection) (snd es) in
          rbind (getitem (fragment_scales fragment_extracts) index)
            (fun scales =>
          rbind (mul_each gradients scales)
            (fun gradients => Ok (fst es, gradients)))))
      end
  | None =>
      energies_sites (geometry_restraints_manager self) sites_cart
  end.

(** [energies_sites(self, sites_cart, compute_gradients=True)]: the pair
    [target_and_gradients] returns, as [group_args(target, gradients)]. *)
Definition energies_sites_method (self : t) (sites_cart : flex.vec3_double)
  (compute_gradients : Datatypes.bool) : result (R * flex.vec3_double) :=
  rbind (target_and_gradients self sites_cart None None)
        (fun tg => Ok (fst tg, snd tg)).

(** [self(selection_and_sites_cart)] on a triple
    [(selection, sites_cart, index)]. *)
Definition __call__ (self : t)
  (selection_and_sites_cart : option flex.bool * flex.vec3_double * option nat)
  : result (R * flex.vec3_double) :=
  let '(selection, sites_cart, index) := selection_and_sites_cart in
  target_and_gradients self sites_cart selection index.

End Methods.
End from_cctbx.

(** A scripted geometry manager: the function from sites to the target and
    the gradients; a selection does not change it. *)
Definition scripted_geometry : from_cctbx.geometry :=
  {| from_cctbx.manager :=
       flex.vec3_double -> result (R * flex.vec3_double);
     from_cctbx.select := fun grm _ => grm;
     from_cctbx.energies_sites := fun grm sites => grm sites |}.

(* ===================================================================== *)
(** * completion.py: geometry of added atoms *)
(* ===================================================================== *)

(** [scitbx.matrix.col] on three components. *)
Module matrix.

Definition col : Type := flex.vec3.

Definition add (u v : col) : col :=
  let '(x, y, z) := u in let '(x', y', z') := v in (x + x', y + y', z + z').

Definition sub (u v : col) : col :=
  let '(x, y, z) := u in let '(x', y', z') := v in (x - x', y - y', z - z').

(** [c * v] *)
Definition rmul (c : R) (v : col) : col :=
  let '(x, y, z) := v in (c * x, c * y, c * z).

Definition dot (u v : col) : R :=
  let '(x, y, z) := u in let '(x', y', z') := v in x * x' + y * y' + z * z'.

Definition cross (u v : col) : col :=
  let '(x, y, z) := u in
  let '(x', y', z') := v in
  (y * z' - z * y', z * x' - x * z', x * y' - y * x').

Definition norm_sq (v : col) : R := dot v v.

(** [abs(v)] *)
Definition abs (v : col) : R := R_sqrt.sqrt (norm_sq v).

(** [v / c], element by element. *)
Definition div (v : col) (c : R) : result col :=
  let '(x, y, z) := v in
  rbind (py.div x c) (fun x' =>
  rbind (py.div y c) (fun y' =>
  rbind (py.div z c) (fun z' => Ok (x', y', z')))).

(** [v.normalize()] is [v / abs(v)].  On the reals the division fails for
    the zero vector and for no other; the machine divides also by the
    length of a vector that is zero only up to rounding. *)
Definition normalize (v : col) : result col := div v (abs v).

End matrix.

Module completion.

(** An atom of a hierarchy, with the attributes the module reads and
    sets. *)
Record atom : Type := {
  name : string;
  element : string;
  xyz : flex.vec3;
  occ : R;
  b : R;
  tmp : Z
}.

Definition set_name (a : atom) (v : string) : atom :=
  {| name := v; element := element a; xyz := xyz a; occ := occ a; b := b a;
     tmp := tmp a |}.

Definition set_element (a : atom) (v : string) : atom :=
  {| name := name a; element := v; xyz := xyz a; occ := occ a; b := b a;
     tmp := tmp a |}.

Definition set_xyz (a : atom) (v : flex.vec3) : atom :=
  {| name := name a; element := element a; xyz := v; occ := occ a; b := b a;
     tmp := tmp a |}.

Definition set_occ (a : atom) (v : R) : atom :=
  {| name := name a; element := element a; xyz := xyz a; occ := v; b := b a;
     tmp := tmp a |}.

Definition set_b (a : atom) (v : R) : atom :=
  {| name := name a; element := element a; xyz := xyz a; occ := occ a; b := v;
     tmp := tmp a |}.

Definition set_tmp (a : atom) (v : Z) : atom :=
  {| name := name a; element := element a; xyz := xyz a; occ := occ a;
     b := b a; tmp := v |}.

Definition component (v : flex.vec3) (i : nat) : R :=
  let '(x, y, z) := v in
  match i with
  | 0%nat => x
  | 1%nat => y
  | _ => z
  end.

(** [d_squared(xyz1, xyz2)]: the loop over [range(3)]. *)
Definition d_squared (xyz1 xyz2 : flex.vec3) : R :=
  fold_left (fun d2 i => d2 + (component xyz2 i - component xyz1 i) ^ 2)
            (seq 0 3) 0.

(** [get_bond_vector(a1, a2, unit=False)] *)
Definition get_bond_vector (a1 a2 : atom) (unit : Datatypes.bool)
  : result flex.vec3 :=
  let vector := map (fun i => component (xyz a1) i - component (xyz a2) i)
                    (seq 0 3) in
  let l := fold_left (fun l v => l + v ^ 2) vector 0 in
  rbind
    (if unit
     then
       let l := R_sqrt.sqrt l in
       fold_left
         (fun acc i =>
            rbind acc (fun done =>
            rbind (py.div (nth i vector 0) l) (fun v => Ok (done ++ [v]))))
         (seq 0 3) (Ok [])
     else Ok vector)
    (fun vector =>
       match vector with
       | [x; y; z] => Ok (x, y, z)
       | _ => Err (Foreign "IndexError")
       end).

(** [math.radians] *)
Definition radians (degrees : R) : R := degrees * PI / 180.

(** [construct_xyz(ba, bv, aa, av, da, dv, period=3)]: [period] positions at
    the distance [bv] from [ba], at the angle [av] to [aa] and at the
    dihedral angles [dv + n*360/period] to [da]. *)
Definition construct_xyz (ba : option atom) (bv : R) (aa : option atom)
  (av : R) (da : option atom) (dv : R) (period : nat)
  : result (list matrix.col) :=
  match ba, aa, da with
  | Some ba, Some aa, Some da =>
      let rn := xyz ba in
      let rca := xyz aa in
      let rc := xyz da in
      let rcca := matrix.sub rc rca in
      rbind (matrix.normalize (matrix.sub rn rca)) (fun e0 =>
      rbind (matrix.normalize
               (matrix.sub rcca (matrix.rmul (matrix.dot rcca e0) e0)))
            (fun e1 =>
      let e2 := matrix.cross e0 e1 in
      let pi := PI in
      let alpha := radians av in
      let phi := radians dv in
      Ok (map
            (fun n : nat =>
               matrix.add rn
                 (matrix.rmul bv
                    (matrix.sub
                       (matrix.rmul (sin alpha)
                          (matrix.add
                             (matrix.rmul
                                (cos (phi + INR n * 2 * pi / INR period)) e1)
                             (matrix.rmul
                                (sin (phi + INR n * 2 * pi / INR period)) e2)))
                       (matrix.rmul (cos alpha) e0))))
            (seq 0 period))))
  | _, _, _ => Err AssertionError
  end.


(** ** Atoms added to atom groups *)

(** [str.strip()] on a byte string: the white space is the space and the
    characters 9 to 13. *)
Definition is_space (c : Ascii.ascii) : Datatypes.bool :=
  let n := Ascii.nat_of_ascii c in
  Nat.eqb n 32 || (Nat.leb 9 n && Nat.leb n 13).

Fixpoint lstrip (cs : list Ascii.ascii) : list Ascii.ascii :=
  match cs with
  | [] => []
  | c :: rest => if is_space c then lstrip rest else cs
  end.

Definition strip (s : string) : string :=
  string_of_list_ascii
    (rev (lstrip (rev (lstrip (list_ascii_of_string s))))).

(** [s[i]] on a string, negative indices counting from the end. *)
Definition getitem (s : string) (i : Z) : result string :=
  let cs := list_ascii_of_string s in
  let n := Z.of_nat (List.length cs) in
  let j := if (i <? 0)%Z then (i + n)%Z else i in
  if ((0 <=? j)%Z && (j <? n)%Z)%bool
  then match nth_error cs (Z.to_nat j) with
       | Some c => Ok (String c EmptyString)
       | None => Err (Foreign "IndexError")
       end
  else Err (Foreign "IndexError").

(** The [iotbx.pdb.hierarchy] objects the functions are given: an atom group
    of a hierarchy, with [ag.resname], [ag.get_atom(name)] ([None] when the
    group has no such atom), [ag.append_atom(atom)],
    [ag.parent().resseq] and [ag.parent().parent().id], and the atom
    [iotbx.pdb.hierarchy.atom()] makes. *)
Class iotbx : Type := {
  atom_group : Type;
  resname : atom_group -> string;
  get_atom : atom_group -> string -> option atom;
  append_atom : atom_group -> atom -> atom_group;
  parent_resseq : atom_group -> result string;
  chain_id : atom_group -> result string;
  new_atom : atom
}.

(** The groups the module builds itself: [atom_group()] with a residue name
    and atoms, in a [residue_group()] with a [resseq]. *)
Record new_atom_group : Type := {
  tag_resname : string;
  tag_atoms : list atom
}.

Record new_residue_group : Type := {
  rg_resseq : string;
  rg_atom_groups : list new_atom_group
}.

(** [rg.atoms()] *)
Definition rg_atoms (rg : new_residue_group) : list atom :=
  flat_map tag_atoms (rg_atom_groups rg).

Section Hierarchy.
Context {H : iotbx}.

(** [string.letters] *)
Variable letters : string.

(** [for i, c in enumerate(letters): if c == id: break], from the index [i]
    on: the value [i] is bound to afterwards, [bound] when the loop body does
    not run. *)
Fixpoint enumerate_until (cs : list Ascii.ascii) (i : nat) (id : string)
  (bound : option nat) : option nat :=
  match cs with
  | [] => bound
  | c :: rest =>
      if String.eqb (String c EmptyString) id
      then Some i
      else enumerate_until rest (S i) id (Some i)
  end.

(** [_add_atom_to_residue_group(atom, ag)]: the atom is the object the new
    group holds, so the group sees the [tmp] set after it was appended. *)
Definition _add_atom_to_residue_group (atom : atom) (ag : atom_group)
  : result new_residue_group :=
  rbind (parent_resseq ag) (fun resseq =>
  match list_ascii_of_string letters with
  | [] => Err (Foreign "UnboundLocalError")
  | cs =>
      rbind (chain_id ag) (fun id =>
      match enumerate_until cs 0 id None with
      | None => Err (Foreign "UnboundLocalError")
      | Some i =>
          let atom := set_tmp atom (Z.of_nat i) in
          let tag := {| tag_resname := resname ag; tag_atoms := [atom] |} in
          Ok {| rg_resseq := resseq; rg_atom_groups := [tag] |}
      end)
  end).

(** [add_cys_hg_to_atom_group(ag, append_to_end_of_model=False)]: the atom
    group afterwards, and what is returned ([None] for a bare [return]) or
    raised. *)
Definition add_cys_hg_to_atom_group (ag : atom_group)
  (append_to_end_of_model : Datatypes.bool)
  : atom_group * result (option (list new_residue_group)) :=
  let rc := [] in
  let atom_name := " HG "%string in
  let atom_element := "H"%string in
  let bond_length := 1 in
  match get_atom ag (strip atom_name) with
  | Some _ => (ag, Ok (Some []))
  | None =>
  match get_atom ag "SG" with
  | None => (ag, Ok None)
  | Some sg =>
  match get_atom ag "CB" with
  | None => (ag, Ok None)
  | Some cb =>
  match get_atom ag "CA" with
  | None => (ag, Ok None)
  | Some ca =>
  match construct_xyz (Some sg) bond_length (Some cb) 120 (Some ca) 160 1 with
  | Err e => (ag, Err e)
  | Ok ro2 =>
      let atom := new_atom in
      let atom := set_name atom atom_name in
      let atom := set_element atom atom_element in
      let atom := set_occ atom (occ sg) in
      let atom := set_b atom (b sg) in
      match nth_error ro2 0 with
      | None => (ag, Err (Foreign "IndexError"))
      | Some ro2_0 =>
          let atom := set_xyz atom ro2_0 in
          if append_to_end_of_model
          then match _add_atom_to_residue_group atom ag with
               | Err e => (ag, Err e)
               | Ok rg => (ag, Ok (Some (rc ++ [rg])))
               end
          else (append_atom ag atom, Ok (Some rc))
      end
  end end end end end.

(** The loop of [add_cys_hg_to_residue_group] over [rg.atom_groups()]: the
    atom groups afterwards, and what is returned or raised.  [rc += None]
    raises [TypeError]. *)
Fixpoint add_cys_hg_to_atom_groups (ags : list atom_group)
  (append_to_end_of_model : Datatypes.bool) (rc : list new_residue_group)
  : list atom_group * result (list new_residue_group) :=
  match ags with
  | [] => ([], Ok rc)
  | ag :: rest =>
      if negb (String.eqb (resname ag) "CYS")
      then
        let (rest', r) :=
          add_cys_hg_to_atom_groups rest append_to_end_of_model rc in
        (ag :: rest', r)
      else
        match add_cys_hg_to_atom_group ag append_to_end_of_model with
        | (ag', Ok (Some added)) =>
            let (rest', r) :=
              add_cys_hg_to_atom_groups rest append_to_end_of_model
                (rc ++ added) in
            (ag' :: rest', r)
        | (ag', Ok None) =>
            (ag' :: rest,
             Err (TypeError "'NoneType' object is not iterable"))
        | (ag', Err e) => (ag' :: rest, Err e)
        end
  end.

(** [add_cys_hg_to_residue_group(rg, append_to_end_of_model=False)], on the
    atom groups of [rg]. *)
Definition add_cys_hg_to_residue_group (rg : list atom_group)
  (append_to_end_of_model : Datatypes.bool)
  : list atom_group * result (list new_residue_group) :=
  add_cys_hg_to_atom_groups rg append_to_end_of_model [].

End Hierarchy.

End completion.

(** Scripted atom groups: a residue name, the atoms, and the residue number
    and the chain of the group; an atom is found by its stripped name. *)
Record scripted_atom_group : Type := {
  sag_resname : string;
  sag_atoms : list completion.atom;
  sag_resseq : string;
  sag_chain : string
}.

Definition scripted_hierarchy : completion.iotbx :=
  {| completion.atom_group := scripted_atom_group;
     completion.resname := sag_resname;
     completion.get_atom := fun ag name =>
       find (fun a => String.eqb (completion.strip (completion.name a))
                                 (completion.strip name))
            (sag_atoms ag);
     completion.append_atom := fun ag a =>
       {| sag_resname := sag_resname ag;
          sag_atoms := sag_atoms ag ++ [a];
          sag_resseq := sag_resseq ag;
          sag_chain := sag_chain ag |};
     completion.parent_resseq := fun ag => Ok (sag_resseq ag);
     completion.chain_id := fun ag => Ok (sag_chain ag);
     completion.new_atom :=
       {| completion.name := "    "; completion.element := "  ";
          completion.xyz := (0, 0, 0); completion.occ := 0;
          completion.b := 0; completion.tmp := 0%Z |} |}.


(* ===================================================================== *)
(** * restraints.from_qm *)
(* ===================================================================== *)

Module from_qm.

(** What [from_qm] calls: the functions of [fragment], the pdb hierarchy,
    the calculator of [plugin.ase] that runs the QM program, [ase.Atoms] and
    [ase.units].  Calls that read or write files or run a program work on a
    [world]. *)
Class ase : Type := {
  world : Type;
  object : Type;                     (* a charge, a command *)
  hierarchy : Type;
  calculator : Type;
  atoms : Type;
  fragment_extracts_t : Type;
  fragment_scales : fragment_extracts_t -> list (list R);
  get_qm_file_name_and_pdb_hierarchy :
    option fragment_extracts_t -> option nat -> M world (string * hierarchy);
  charge_of_fragment :
    option fragment_extracts_t -> option nat -> M world object;
  write_mm_charge_file :
    option fragment_extracts_t -> option nat -> M world string;
  atoms_set_xyz : hierarchy -> flex.vec3_double -> M world hierarchy;
  write_pdb_file : hierarchy -> string -> M world unit;
  chains : hierarchy -> list (list (list completion.atom));
  Atoms : list string -> list (list R) -> M world atoms;
  get_command : calculator -> M world object;
  set_label : calculator -> string -> M world calculator;
  run_qr :
    calculator -> atoms -> object -> option string -> string ->
    option object -> string -> M world calculator;
  energy_free : calculator -> result R;
  forces : calculator -> result (list flex.vec3);
  mol : R;
  kcal : R
}.

Section Methods.
Context {A : ase}.

(** The attributes [target_and_gradients] reads and does not change. *)
Record t : Type := {
  fragment_extracts : option fragment_extracts_t;
  qm_engine_name : option string;
  file_name : string;
  charge : object;
  clustering : Datatypes.bool;
  system_size : nat
}.

(** The objects it changes, and the world. *)
Record state : Type := {
  pdb_hierarchy : hierarchy;
  qm_engine : calculator;
  the_world : world
}.

Definition set_pdb_hierarchy (v : hierarchy) (s : state) : state :=
  {| pdb_hierarchy := v; qm_engine := qm_engine s; the_world := the_world s |}.

Definition set_qm_engine (v : calculator) (s : state) : state :=
  {| pdb_hierarchy := pdb_hierarchy s; qm_engine := v;
     the_world := the_world s |}.

Definition set_the_world (v : world) (s : state) : state :=
  {| pdb_hierarchy := pdb_hierarchy s; qm_engine := qm_engine s;
     the_world := v |}.

Definition in_world {B} (c : M world B) : M state B :=
  fun s =>
    match c (the_world s) with
    | Return a w => Return a (set_the_world w s)
    | Raise e w => Raise e (set_the_world w s)
    end.

Local Open Scope py_scope.

(** [c.lower()] on a character. *)
Definition lower (c : Ascii.ascii) : Ascii.ascii :=
  let n := Ascii.nat_of_ascii c in
  if (Nat.leb 65 n && Nat.leb n 90)%bool
  then Ascii.ascii_of_nat (n + 32)
  else c.

(** The element symbol [read_pdb_hierarchy] makes of [atom.element]. *)
Definition symbol (element : string) : string :=
  let element := completion.strip element in
  match element with
  | String c0 (String c1 EmptyString) =>
      String c0 (String (lower c1) EmptyString)
  | _ => element
  end.

Definition read_pdb_hierarchy (ph : hierarchy)
  : list string * list (list R) :=
  let atoms := List.concat (List.concat (chains ph)) in
  (map (fun atom => symbol (completion.element atom)) atoms,
   map (fun atom => let '(x, y, z) := completion.xyz atom in [x; y; z])
       atoms).

(** [ase_atoms_from_pdb_hierarchy(ph)] *)
Definition ase_atoms_from_pdb_hierarchy (ph : hierarchy) : M world atoms :=
  let '(symbols, positions) := read_pdb_hierarchy ph in
  Atoms symbols positions.

(** [s[:-4]] *)
Definition but_last_four (s : string) : string :=
  let cs := list_ascii_of_string s in
  string_of_list_ascii (firstn (List.length cs - 4) cs).

Definition name_is (self : t) (name : string) : Datatypes.bool :=
  match qm_engine_name self with
  | Some n => String.eqb n name
  | None => false
  end.

(** [self.qm_engine.get_command()] *)
Definition engine_command : M state (option object) :=
  s <- get ;;
  command <- in_world (get_command (qm_engine s)) ;;
  ret (Some command).

(** [target_and_gradients(self, sites_cart, selection=None, index=None)];
    what it prints is left out. *)
Definition target_and_gradients (self : t) (sites_cart : flex.vec3_double)
  (selection : option flex.bool) (index : option nat)
  : M state (R * flex.vec3_double) :=
  ' (qm_pdb_file, ph, qm_charge, charge_file, selection, gradients_scale) <-
    (if clustering self
     then
       ' (qm_pdb_file, ph) <-
         in_world (get_qm_file_name_and_pdb_hierarchy
                     (fragment_extracts self) index) ;;
       qm_charge <-
         in_world (charge_of_fragment (fragment_extracts self) index) ;;
       charge_file <-
         in_world (write_mm_charge_file (fragment_extracts self) index) ;;
       gradients_scale <-
         lift (match fragment_extracts self with
               | None => Err (Foreign "AttributeError")
               | Some fragment_extracts =>
                   from_cctbx.getitem (fragment_scales fragment_extracts)
                                      index
               end) ;;
       ret (qm_pdb_file, ph, qm_charge, Some charge_file, selection,
            gradients_scale)
     else
       s <- get ;;
       ph <- in_world (atoms_set_xyz (pdb_hierarchy s) sites_cart) ;;
       modify (set_pdb_hierarchy ph) ;;;
       in_world (write_pdb_file ph (file_name self)) ;;;
       ret (file_name self, ph, charge self, None,
            Some (repeat true (system_size self)),
            repeat 1 (system_size self))) ;;
  let define_str := EmptyString in
  command <-
    (if name_is self "terachem" then ret None
     else if name_is self "mopac" then engine_command
     else if name_is self "gaussian" then engine_command
     else if name_is self "orca" then engine_command
     else if name_is self "turbomole" then engine_command
     else raise AssertionError) ;;
  atoms <- in_world (ase_atoms_from_pdb_hierarchy ph) ;;
  s <- get ;;
  engine <- in_world (set_label (qm_engine s) (but_last_four qm_pdb_file)) ;;
  modify (set_qm_engine engine) ;;;
  engine <-
    in_world (run_qr engine atoms qm_charge charge_file
                (but_last_four qm_pdb_file ++ ".xyz") command define_str) ;;
  modify (set_qm_engine engine) ;;;
  unit_convert <- lift (py.div mol kcal) ;;
  energy_free <- lift (energy_free engine) ;;
  let energy := energy_free * unit_convert in
  forces <- lift (forces engine) ;;
  let ase_gradients :=
    map (fun f : flex.vec3 =>
           let '(x, y, z) := f in
           (-1 * x * unit_convert, -1 * y * unit_convert,
            -1 * z * unit_convert))
        forces in
  selection <-
    lift (match selection with
          | Some selection => Ok selection
          | None => Err (Foreign "AttributeError")
          end) ;;
  let gradients := firstn (from_cctbx.count_true selection) ase_gradients in
  gradients <- lift (from_cctbx.mul_each gradients gradients_scale) ;;
  ret (energy, gradients).

End Methods.
End from_qm.

(** A scripted QM world: the world is the list of the files written and the
    programs run; the hierarchy is its chains; the calculator holds its
    label and, after a run, an energy and one force an atom. *)
Record scripted_calculator : Type := {
  sc_label : string;
  sc_energy : option R;
  sc_forces : option (list flex.vec3)
}.

Definition scripted_ase : from_qm.ase :=
  {| from_qm.world := list string;
     from_qm.object := Z;
     from_qm.hierarchy := list (list (list completion.atom));
     from_qm.calculator := scripted_calculator;
     from_qm.atoms := list string * list (list R);
     from_qm.fragment_extracts_t := list (list R);
     from_qm.fragment_scales := fun fe => fe;
     from_qm.get_qm_file_name_and_pdb_hierarchy := fun _ _ =>
       py.raise (Foreign "AttributeError");
     from_qm.charge_of_fragment := fun _ _ =>
       py.raise (Foreign "AttributeError");
     from_qm.write_mm_charge_file := fun _ _ =>
       py.raise (Foreign "AttributeError");
     from_qm.atoms_set_xyz := fun ph sites =>
       py.ret
         (map (map (map (fun a =>
                           completion.set_xyz a (nth 0 sites (0, 0, 0)))))
              ph);
     from_qm.write_pdb_file := fun _ name w => Return tt (w ++ [name]);
     from_qm.chains := fun ph => ph;
     from_qm.Atoms := fun symbols positions =>
       py.ret (symbols, positions);
     from_qm.get_command := fun _ => py.ret 0%Z;
     from_qm.set_label := fun c label =>
       py.ret {| sc_label := label; sc_energy := sc_energy c;
                 sc_forces := sc_forces c |};
     from_qm.run_qr := fun c atoms _ _ coordinates _ _ w =>
       Return {| sc_label := sc_label c; sc_energy := Some 2;
                 sc_forces := Some (map (fun _ => (1, 0, 0)) (fst atoms)) |}
              (w ++ [coordinates]);
     from_qm.energy_free := fun c =>
       match sc_energy c with
       | Some e => Ok e
       | None => Err (Foreign "AttributeError")
       end;
     from_qm.forces := fun c =>
       match sc_forces c with
       | Some f => Ok f
       | None => Err (Foreign "AttributeError")
       end;
     from_qm.mol := 1;
     from_qm.kcal := 2 |}.

(* ===================================================================== *)
(** * Properties *)
(* ===================================================================== *)

(** ** The frozen path: a weight provided by the user *)

Section Frozen.
Context {C : cctbx}.
Variables (self : weights.ref) (m : weights.store).
Hypothesis provided : weights.weight_was_provided (weights.objects m self) = true.

Lemma scale_restraints_weight_frozen :
  weights.scale_restraints_weight self m = Return tt m.
Proof.
  unfold weights.scale_restraints_weight, bind, weights.deref.
  now rewrite provided.
Qed.

Lemma adjust_restraints_weight_scale_frozen fmodel grm max_bond_rmsd scale :
  weights.adjust_restraints_weight_scale self fmodel grm max_bond_rmsd scale m
  = Return None m.
Proof.
  unfold weights.adjust_restraints_weight_scale, bind, weights.deref.
  now rewrite provided.
Qed.

Lemma add_restraints_weight_scale_frozen :
  weights.add_restraints_weight_scale_to_restraints_weight_scales self m
  = Return tt m.
Proof.
  unfold weights.add_restraints_weight_scale_to_restraints_weight_scales,
    bind, weights.deref.
  now rewrite provided.
Qed.

Lemma compute_weight_frozen fmodel rm :
  weights.compute_weight self fmodel rm m = Return tt m.
Proof.
  unfold weights.compute_weight, bind, weights.deref.
  now rewrite provided.
Qed.

Lemma perform_frozen (c : call) : perform self c m = Return tt m.
Proof.
  destruct c; cbn [perform].
  - apply compute_weight_frozen.
  - unfold bind. now rewrite adjust_restraints_weight_scale_frozen.
  - apply scale_restraints_weight_frozen.
  - apply add_restraints_weight_scale_frozen.
Qed.

End Frozen.

(** C4.  On a [weights] object whose weight was provided, any number of
    calls of [compute_weight], [adjust_restraints_weight_scale],
    [scale_restraints_weight] (and of
    [add_restraints_weight_scale_to_restraints_weight_scales]), in any
    order, return and leave the store as it was; so [data_weight],
    [restraints_weight_scale], [restraints_weight_scales], [r_works] and
    [r_frees] keep their values. *)
Theorem frozen_weights_calls_are_noops :
  forall (C : cctbx) (self : weights.ref) (m : weights.store) (cs : list call),
    weights.weight_was_provided (weights.objects m self) = true ->
    perform_all self cs m = Return tt m.
Proof.
  intros C self m cs provided.
  induction cs as [| c cs IH]; cbn [perform_all].
  - reflexivity.
  - unfold bind. rewrite (perform_frozen self m provided c). exact IH.
Qed.

(** C10.  When the weight was provided, [adjust_restraints_weight_scale]
    returns [None] and appends nothing to [r_frees] and [r_works] (the
    store is untouched); when it was not and the method returns, it returns
    a boolean.  [None] has the truth value of [False]. *)
Theorem adjust_restraints_weight_scale_returns_None_when_frozen :
  forall (C : cctbx) (self : weights.ref) (m : weights.store)
         (fmodel : f_model) (grm : geometry_rmsd_manager)
         (max_bond_rmsd scale : R),
    weights.weight_was_provided (weights.objects m self) = true ->
    weights.adjust_restraints_weight_scale self fmodel grm max_bond_rmsd scale m
    = Return None m
    /\ py.truthy None = py.truthy (Some false)
    /\ (forall (m0 m' : weights.store) (v : option bool),
           weights.weight_was_provided (weights.objects m0 self) = false ->
           weights.adjust_restraints_weight_scale
             self fmodel grm max_bond_rmsd scale m0 = Return v m' ->
           exists adjusted : bool, v = Some adjusted).
Proof.
  intros C self m fmodel grm max_bond_rmsd scale provided.
  split; [| split].
  - now apply adjust_restraints_weight_scale_frozen.
  - reflexivity.
  - intros m0 m' v active.
    unfold weights.adjust_restraints_weight_scale, bind, weights.deref.
    rewrite active.
    destruct (get_bonds_rmsd (geometry grm) (fm_xray_structure fmodel))
      as [b | e]; cbn [lift ret raise]; [| discriminate].
    unfold weights.imul_restraints_weight_scale,
      weights.idiv_restraints_weight_scale, weights.update, bind, weights.deref,
      ret.
    repeat match goal with
           | |- context [if ?c then _ else _] => destruct c; cbn
           | |- context [lift ?r] => destruct r; cbn [lift ret raise]
           end;
      intros H; inversion H; eauto.
Qed.

Lemma frozen_weights_calls_are_noops_witness :
  let fm := scripted.model [scripted.carbon 0 0 0]
                           (scripted.unit_gradients (2 / 10) (3 / 10)) in
  let grm := scripted.rmsd_manager (scripted.with_bond_rmsd (5 / 100)) in
  let m := scripted.store_of (weights.__init__ true (Some 1) (Some 7) 1) in
  weights.weight_was_provided (weights.objects m 0%nat) = true /\
  perform_all (C := scripted.collaborators) 0%nat
    [call_scale_restraints_weight;
     call_adjust_restraints_weight_scale fm grm (3 / 100) 2;
     call_compute_weight fm (scripted.with_bond_rmsd (5 / 100));
     call_scale_restraints_weight;
     call_add_restraints_weight_scale_to_restraints_weight_scales] m
  = Return tt m.
Proof.
  split.
  - reflexivity.
  - apply frozen_weights_calls_are_noops. reflexivity.
Defined.

Lemma adjust_restraints_weight_scale_returns_None_when_frozen_witness :
  let fm := scripted.model [scripted.carbon 0 0 0]
                           (scripted.unit_gradients (2 / 10) (3 / 10)) in
  let grm := scripted.rmsd_manager (scripted.with_bond_rmsd (5 / 100)) in
  let m := scripted.store_of (weights.__init__ true (Some 1) (Some 7) 1) in
  weights.weight_was_provided (weights.objects m 0%nat) = true /\
  weights.adjust_restraints_weight_scale (C := scripted.collaborators)
    0%nat fm grm (3 / 100) 2 m = Return None m.
Proof.
  split.
  - reflexivity.
  - apply adjust_restraints_weight_scale_returns_None_when_frozen. reflexivity.
Defined.

(** ** The displacement-parameter calculator *)

(** C9.  [adp.calculate_weight] raises [RuntimeError("Not implemented.")]
    on every calculator in every state: it never returns, and it leaves the
    object, [data_weight] included, as it was. *)
Theorem adp_calculate_weight_always_raises :
  forall (C : cctbx) (self : adp.t),
    adp.calculate_weight self = Raise (RuntimeError "Not implemented.") self
    /\ py.returned (adp.calculate_weight self) = None
    /\ adp.data_weight (py.final_state (adp.calculate_weight self))
       = adp.data_weight self.
Proof.
  intros C self. repeat split.
Qed.

(** ** The bond deviation probe *)

(** C8, as the code has it.  [get_bonds_rmsd] makes no check of its own:
    when no atom is left after the hydrogens are dropped, it asks the
    restraints manager for the bond deviations of an empty array of sites
    and returns the rms entry of the answer, or fails with the manager's
    own exception. *)
Theorem get_bonds_rmsd_on_empty_selection :
  forall (C : cctbx) (rm : restraints) (xrs : xray_structure),
    flex.select (sites_cart xrs) (flex.not (hd_selection xrs)) = [] ->
    get_bonds_rmsd rm xrs
    = py.rmap snd
        (rm_bond_deviations (rm_select rm (flex.not (hd_selection xrs))) []).
Proof.
  intros C rm xrs empty.
  unfold get_bonds_rmsd, py.rmap. now rewrite empty.
Qed.

Lemma get_bonds_rmsd_on_empty_selection_witness :
  let xrs := [scripted.hydrogen 0 0 0; scripted.hydrogen 1 0 0] in
  flex.select (sites_cart xrs) (flex.not (hd_selection xrs)) = [] /\
  get_bonds_rmsd (C := scripted.collaborators) scripted.no_restraints xrs
  = Ok 0.
Proof.
  split.
  - reflexivity.
  - rewrite get_bonds_rmsd_on_empty_selection; reflexivity.
Defined.

(** C8, as stated, fails: on a structure of hydrogens only and a restraints
    manager that reports zero deviations for no bonds, [get_bonds_rmsd]
    returns [0]; it does not fail, with [InvalidStructure] or otherwise. *)
Lemma get_bonds_rmsd_empty_selection_returns_a_value :
  let xrs := [scripted.hydrogen 0 0 0; scripted.hydrogen 1 0 0] in
  flex.select (sites_cart xrs) (flex.not (hd_selection xrs)) = [] /\
  get_bonds_rmsd (C := scripted.collaborators) scripted.no_restraints xrs
  = Ok 0 /\
  ~ (exists e : py.exn,
        get_bonds_rmsd (C := scripted.collaborators) scripted.no_restraints xrs
        = Err e /\ py.class_name e = "InvalidStructure"%string).
Proof.
  repeat split.
  intros [e [H _]]. discriminate H.
Qed.

(** ** The weight scale controller *)

Ltac decide_comparisons :=
  repeat match goal with
         | |- context [Rgt_dec ?a ?b] => destruct (Rgt_dec a b)
         | |- context [Rlt_dec ?a ?b] => destruct (Rlt_dec a b)
         | |- context [Req_dec_T ?a ?b] => destruct (Req_dec_T a b)
         end.

Ltac run_store :=
  unfold weights.imul_restraints_weight_scale,
    weights.idiv_restraints_weight_scale, weights.update, weights.deref,
    py.bind, py.ret, py.lift, py.raise, py.gt, py.lt, py.ne, py.div;
  cbn [negb andb py.final_state py.returned weights.objects
       weights.restraints_weight_scale weights.set_restraints_weight_scale
       weights.set_r_frees weights.set_r_works weights.r_frees weights.r_works
       weights.data_weight weights.weight_was_provided];
  rewrite ?Nat.eqb_refl.

Ltac settle :=
  match goal with
  | |- _ /\ _ => split; settle
  | |- _ \/ _ => solve [left; settle | right; settle]
  | |- _ => solve [reflexivity | lra]
  end.

(** C3, as the code has it.  With the weight not provided, a bond rmsd [b]
    from the probe and a non-zero scale factor, the method returns a
    boolean and records the rounded R-factors.  At most one branch fires:
    when the flag is true the scale was multiplied or divided once, when it
    is false the scale is unchanged.  Each of the four branches fires on its
    own inputs (the gap [|r_free - r_work| * 100] being clear of 5 by more
    than the rounding of the product), and with equal R-factors at or below
    the threshold no branch fires. *)
Theorem adjust_restraints_weight_scale_branches :
  forall (C : cctbx) (self : weights.ref) (m : weights.store)
         (fmodel : f_model) (grm : geometry_rmsd_manager)
         (max_bond_rmsd scale b : R),
    weights.weight_was_provided (weights.objects m self) = false ->
    get_bonds_rmsd (geometry grm) (fm_xray_structure fmodel) = Ok b ->
    scale <> 0 ->
    let rw := r_work fmodel in
    let rf := r_free fmodel in
    let s0 := weights.restraints_weight_scale (weights.objects m self) in
    exists (adjusted : bool) (m' : weights.store),
      weights.adjust_restraints_weight_scale
        self fmodel grm max_bond_rmsd scale m = Return (Some adjusted) m'
      /\ weights.r_frees (weights.objects m' self)
         = weights.r_frees (weights.objects m self) ++ [py.round rf 4]
      /\ weights.r_works (weights.objects m' self)
         = weights.r_works (weights.objects m self) ++ [py.round rw 4]
      /\ let s1 := weights.restraints_weight_scale (weights.objects m' self) in
         (adjusted = true -> s1 = s0 * scale \/ s1 = s0 / scale)
         /\ (adjusted = false -> s1 = s0)
         /\ (b > max_bond_rmsd -> adjusted = true /\ s1 = s0 * scale)
         /\ (b <= max_bond_rmsd -> rf < rw ->
             adjusted = true /\ s1 = s0 / scale)
         /\ (b < max_bond_rmsd -> rf > rw ->
             Rabs (rf - rw) * 100 < 5 - 1 / 1000000000 ->
             adjusted = true /\ s1 = s0 / scale)
         /\ (b < max_bond_rmsd -> rf > rw ->
             Rabs (rf - rw) * 100 > 5 + 1 / 1000000000 ->
             adjusted = true /\ s1 = s0 * scale)
         /\ (b <= max_bond_rmsd -> rf = rw ->
             adjusted = false /\ s1 = s0).
Proof.
  intros C self m fmodel grm max_bond_rmsd scale b active probe nonzero rw rf s0.
  unfold weights.adjust_restraints_weight_scale.
  unfold py.bind at 1, weights.deref at 1. rewrite active.
  unfold py.bind at 1. rewrite probe. cbn [py.lift py.ret].
  fold rw rf.
  run_store.
  decide_comparisons;
    cbn [negb andb weights.objects weights.restraints_weight_scale
         weights.set_restraints_weight_scale];
    rewrite ?Nat.eqb_refl; try contradiction; try lra.
  all: do 2 eexists; split; [reflexivity |];
    cbn [negb andb weights.objects weights.restraints_weight_scale
         weights.set_restraints_weight_scale
         weights.set_r_frees weights.set_r_works weights.r_frees weights.r_works];
    rewrite ?Nat.eqb_refl;
    cbn [negb andb weights.objects weights.restraints_weight_scale
         weights.set_restraints_weight_scale
         weights.set_r_frees weights.set_r_works weights.r_frees weights.r_works].
  all: split; [reflexivity | split; [reflexivity |]].
  all: cbv zeta;
    repeat match goal with |- _ /\ _ => split end;
    intros;
    first [ discriminate
          | solve [split; reflexivity]
          | solve [left; reflexivity]
          | solve [right; reflexivity]
          | reflexivity
          | exfalso; lra ].
Qed.

Lemma adjust_restraints_weight_scale_branches_witness :
  let fm := scripted.model [scripted.carbon 0 0 0]
                           (scripted.unit_gradients (21 / 100) (25 / 100)) in
  let grm := scripted.rmsd_manager (scripted.with_bond_rmsd (1 / 100)) in
  let m := scripted.store_of (weights.__init__ true (Some 1) None 1) in
  weights.weight_was_provided (weights.objects m 0%nat) = false
  /\ get_bonds_rmsd (geometry grm) (fm_xray_structure fm) = Ok (1 / 100)
  /\ 2 <> 0
  /\ exists m' : weights.store,
       weights.adjust_restraints_weight_scale (C := scripted.collaborators)
         0%nat fm grm (3 / 100) 2 m = Return (Some true) m'
       /\ weights.restraints_weight_scale (weights.objects m' 0%nat) = 1 / 2.
Proof.
  intros fm grm m.
  split; [reflexivity | split; [reflexivity | split; [lra |]]].
  destruct (adjust_restraints_weight_scale_branches
              scripted.collaborators 0%nat m fm grm (3 / 100) 2 (1 / 100))
    as (adjusted & m' & Hrun & _ & _ & _ & _ & _ & _ & Hloose & _).
  - reflexivity.
  - reflexivity.
  - lra.
  - cbv zeta in Hloose.
    change (r_work fm) with (21 / 100) in Hloose.
    change (r_free fm) with (25 / 100) in Hloose.
    destruct Hloose as [-> Hs].
    + lra.
    + lra.
    + replace (25 / 100 - 21 / 100) with (4 / 100) by lra.
      rewrite Rabs_pos_eq by lra. lra.
    + exists m'. split; [exact Hrun | exact Hs].
Defined.

(** C3, as stated, fails: with a bond rmsd equal to the threshold and equal
    R-factors no branch fires; the method returns [False] and the scale
    keeps its value. *)
Lemma adjust_restraints_weight_scale_no_adjustment :
  let fm := scripted.model [scripted.carbon 0 0 0]
                           (scripted.unit_gradients (2 / 10) (2 / 10)) in
  let grm := scripted.rmsd_manager (scripted.with_bond_rmsd (3 / 100)) in
  let m := scripted.store_of (weights.__init__ true (Some 1) None 1) in
  let o := weights.adjust_restraints_weight_scale (C := scripted.collaborators)
             0%nat fm grm (3 / 100) 2 m in
  weights.weight_was_provided (weights.objects m 0%nat) = false
  /\ py.returned o = Some (Some false)
  /\ weights.restraints_weight_scale (weights.objects (py.final_state o) 0%nat)
     = weights.restraints_weight_scale (weights.objects m 0%nat).
Proof.
  intros fm grm m o.
  split; [reflexivity |].
  unfold o, weights.adjust_restraints_weight_scale.
  unfold py.bind at 1, weights.deref at 1.
  change (weights.weight_was_provided (weights.objects m 0%nat)) with false.
  unfold py.bind at 1.
  change (get_bonds_rmsd (geometry grm) (fm_xray_structure fm))
    with (@Ok R (3 / 100)).
  cbn [py.lift py.ret].
  change (r_work fm) with (2 / 10). change (r_free fm) with (2 / 10).
  run_store.
  replace (2 / 10 - 2 / 10) with 0 by lra. rewrite Rabs_R0.
  decide_comparisons; try lra.
  split; reflexivity.
Qed.

(** ** The composite target of site refinement *)

Lemma vec3_double_of_as_double :
  forall (a : flex.vec3_double) (d : flex.double),
    flex.vec3_double_of d = Ok a -> flex.as_double a = d.
Proof.
  induction a as [| [[x y] z] a IH]; intros d H.
  - destruct d as [| x [| y [| z d]]]; cbn in H; try discriminate; [reflexivity |].
    destruct (flex.vec3_double_of d); discriminate.
  - destruct d as [| x' [| y' [| z' d]]]; cbn in H; try discriminate.
    destruct (flex.vec3_double_of d) as [a' |] eqn:E; cbn in H; [| discriminate].
    injection H as -> -> -> ->.
    cbn. do 3 f_equal. exact (IH d E).
Qed.

(** The weighted sum of two gradients, component by component. *)
Lemma weighted_gradient_sum :
  forall (dw rw rws : R) (dg rg : flex.vec3_double),
    List.length dg = List.length rg ->
    exists g : flex.vec3_double,
      flex.add (flex.mul dg dw) (flex.mul (flex.rmul rw rg) rws) = Ok g
      /\ flex.as_double g
         = map (fun p : R * R => dw * fst p + rw * rws * snd p)
             (combine (flex.as_double dg) (flex.as_double rg)).
Proof.
  intros dw rw rws dg.
  induction dg as [| [[dx dy] dz] dg IH]; intros [| [[rx ry] rz] rg] len;
    try discriminate len.
  - exists []. split; reflexivity.
  - injection len as len.
    destruct (IH rg len) as [g [Hadd Hflat]].
    exists ((dx * dw + rw * rx * rws, dy * dw + rw * ry * rws,
             dz * dw + rw * rz * rws) :: g).
    split.
    + unfold flex.mul, flex.rmul in *. cbn [map flex.add].
      rewrite Hadd. reflexivity.
    + change (flex.as_double ((dx * dw + rw * rx * rws, dy * dw + rw * ry * rws,
                                dz * dw + rw * rz * rws) :: g))
        with ((dx * dw + rw * rx * rws) :: (dy * dw + rw * ry * rws)
              :: (dz * dw + rw * rz * rws) :: flex.as_double g).
      rewrite Hflat. cbn. repeat (f_equal; try ring).
Qed.

(** C1.  With no gradient dump requested, weights that hold floats, and
    evaluators that answer at [x] (restraints target [rt] and gradient [rg],
    data target [dt] and packed data gradient [dg], of matching sizes),
    [sites.target_and_gradients] returns the target
    [data_weight*dt + restraints_weight*restraints_weight_scale*rt] and the
    gradient whose every component is the same combination of the
    components of [dg] and [rg], in the order of the parameters. *)
Theorem sites_target_and_gradients_combines :
  forall (C : cctbx) (self : sites.t) (m : weights.store) (x : flex.double)
         (a : flex.vec3_double) (xrs : xray_structure)
         (rt dt dw rw : R) (rg dg3 : flex.vec3_double) (dg : flex.double),
    sites.dump_gradients self = None ->
    flex.vec3_double_of x = Ok a ->
    set_sites_cart (fm_xray_structure (sites.fmodel self)) a = Ok xrs ->
    rm_target_and_gradients (sites.restraints_manager self) a = Ok (rt, rg) ->
    target_functor (update_xray_structure (sites.fmodel self) xrs)
    = Ok (dt, dg) ->
    flex.vec3_double_of dg = Ok dg3 ->
    List.length dg3 = List.length rg ->
    weights.data_weight (weights.objects m (sites.weights self)) = Some dw ->
    weights.restraints_weight (weights.objects m (sites.weights self))
    = Some rw ->
    let rws :=
      weights.restraints_weight_scale (weights.objects m (sites.weights self)) in
    exists s' : sites.state,
      sites.target_and_gradients x (self, m)
      = Return (dw * dt + rw * rws * rt,
                map (fun p : R * R => dw * fst p + rw * rws * snd p)
                    (combine dg (flex.as_double rg)))
               s'
      /\ snd s' = m.
Proof.
  intros C self m x a xrs rt dt dw rw rg dg3 dg
    nodump Hx Hset Hrm Hdata Hdg len Hdw Hrw rws.
  destruct (weighted_gradient_sum dw rw rws dg3 rg len) as [g [Hadd Hflat]].
  rewrite (vec3_double_of_as_double dg3 dg Hdg) in Hflat.
  unfold sites.target_and_gradients, sites.update, sites.self_x, sites.this,
    sites.assign, sites.in_store, weights.deref, py.bind.
  rewrite Hx. cbn [py.lift py.ret fst snd sites.fmodel sites.set_x sites.x
                   sites.set_fmodel sites.restraints_manager sites.weights
                   sites.dump_gradients sites.sites_cart_of_x].
  rewrite Hset. cbn [py.lift py.ret fst snd sites.fmodel sites.set_x sites.x
                   sites.set_fmodel sites.restraints_manager sites.weights
                   sites.dump_gradients sites.sites_cart_of_x].
  rewrite Hrm. cbn [py.lift py.ret fst snd sites.fmodel sites.set_x sites.x
                   sites.set_fmodel sites.restraints_manager sites.weights
                   sites.dump_gradients sites.sites_cart_of_x].
  unfold update_xray_structure in *. cbn [fm_xray_structure fm_data] in *.
  rewrite Hdata. cbn [py.lift py.ret fst snd]. rewrite Hdg.
  cbn [py.lift py.ret fst snd]. rewrite Hdw, Hrw.
  cbn [py.float_operand py.lift py.ret fst snd]. fold rws. rewrite Hadd.
  cbn [py.lift py.ret fst snd]. rewrite nodump.
  unfold py.ret. rewrite Hflat.
  eexists. split.
  - f_equal. f_equal. ring.
  - reflexivity.
Qed.

Lemma sites_target_and_gradients_combines_witness :
  let fm := scripted.model [scripted.carbon 0 0 0]
                           (scripted.unit_gradients (21 / 100) (25 / 100)) in
  let rm := scripted.with_bond_rmsd (1 / 100) in
  let self := scripted.calculator fm rm 0%nat None in
  let m := scripted.store_of (weights.__init__ true (Some 1) (Some 2) 3) in
  sites.dump_gradients self = None
  /\ flex.vec3_double_of [1; 2; 3] = Ok [(1, 2, 3)]
  /\ exists s' : sites.state,
       sites.target_and_gradients (C := scripted.collaborators)
         [1; 2; 3] (self, m)
       = Return (2 * 0 + 1 * 3 * 1,
                 map (fun p : R * R => 2 * fst p + 1 * 3 * snd p)
                     (combine [1; 0; 0] [0; 1; 0]))
                s'
       /\ snd s' = m.
Proof.
  intros fm rm self m.
  split; [reflexivity | split; [reflexivity |]].
  apply (sites_target_and_gradients_combines
           scripted.collaborators self m [1; 2; 3] [(1, 2, 3)]
           [scripted.carbon 1 2 3] 1 0 2 1 [(0, 1, 0)] [(1, 0, 0)] [1; 0; 0]);
    reflexivity.
Defined.

Lemma flex_add_sizes :
  forall a b c : flex.vec3_double,
    flex.add a b = Ok c -> List.length a = List.length b.
Proof.
  induction a as [| u a IH]; intros [| v b] c H; cbn in H;
    try discriminate; [reflexivity |].
  destruct (flex.add a b) as [c' |] eqn:E; [| discriminate].
  cbn [List.length]. f_equal. exact (IH b c' E).
Qed.

(** The conditions under which the composite target is returned are also
    necessary: a call that returns had no dump requested, float weights,
    and answers of matching sizes from both evaluators.  In particular the
    dump path never returns. *)
Lemma sites_target_and_gradients_returns_only_when :
  forall (C : cctbx) (self : sites.t) (m : weights.store) (x : flex.double)
         (t : R) (g : flex.double) (s' : sites.state),
    sites.target_and_gradients x (self, m) = Return (t, g) s' ->
    sites.dump_gradients self = None
    /\ exists (a : flex.vec3_double) (xrs : xray_structure)
              (rt dt dw rw : R) (rg dg3 : flex.vec3_double) (dg : flex.double),
         flex.vec3_double_of x = Ok a
         /\ set_sites_cart (fm_xray_structure (sites.fmodel self)) a = Ok xrs
         /\ rm_target_and_gradients (sites.restraints_manager self) a
            = Ok (rt, rg)
         /\ target_functor (update_xray_structure (sites.fmodel self) xrs)
            = Ok (dt, dg)
         /\ flex.vec3_double_of dg = Ok dg3
         /\ List.length dg3 = List.length rg
         /\ weights.data_weight (weights.objects m (sites.weights self))
            = Some dw
         /\ weights.restraints_weight (weights.objects m (sites.weights self))
            = Some rw
         /\ snd s' = m.
Proof.
  intros C self m x t g s'.
  unfold sites.target_and_gradients, sites.update, sites.self_x, sites.this,
    sites.assign, sites.in_store, sites.easy_pickle_dump, weights.deref,
    py.bind.
  destruct (flex.vec3_double_of x) as [a |] eqn:Hx;
    cbn [py.lift py.ret py.raise fst snd sites.fmodel sites.set_x sites.x
         sites.set_fmodel sites.restraints_manager sites.weights
         sites.dump_gradients sites.sites_cart_of_x]; [| discriminate].
  destruct (set_sites_cart (fm_xray_structure (sites.fmodel self)) a)
    as [xrs |] eqn:Hset;
    cbn [py.lift py.ret py.raise fst snd sites.fmodel sites.set_x sites.x
         sites.set_fmodel sites.restraints_manager sites.weights
         sites.dump_gradients sites.sites_cart_of_x]; [| discriminate].
  destruct (rm_target_and_gradients (sites.restraints_manager self) a)
    as [[rt rg] |] eqn:Hrm;
    cbn [py.lift py.ret py.raise fst snd sites.fmodel sites.set_x sites.x
         sites.set_fmodel sites.restraints_manager sites.weights
         sites.dump_gradients sites.sites_cart_of_x]; [| discriminate].
  unfold update_xray_structure. cbn [fm_xray_structure fm_data].
  destruct (target_functor _) as [[dt dg] |] eqn:Hdata;
    cbn [py.lift py.ret py.raise fst snd]; [| discriminate].
  destruct (flex.vec3_double_of dg) as [dg3 |] eqn:Hdg;
    cbn [py.lift py.ret py.raise fst snd]; [| discriminate].
  destruct (weights.data_weight (weights.objects m (sites.weights self)))
    as [dw |] eqn:Hdw;
    cbn [py.float_operand py.lift py.ret py.raise fst snd]; [| discriminate].
  destruct (weights.restraints_weight (weights.objects m (sites.weights self)))
    as [rw |] eqn:Hrw;
    cbn [py.float_operand py.lift py.ret py.raise fst snd]; [| discriminate].
  destruct (flex.add _ _) as [g' |] eqn:Hadd;
    cbn [py.lift py.ret py.raise fst snd]; [| discriminate].
  apply flex_add_sizes in Hadd. unfold flex.mul, flex.rmul in Hadd.
  rewrite !length_map in Hadd.
  destruct (sites.dump_gradients self) as [name |];
    cbn [py.lift py.ret py.raise fst snd]; [discriminate |].
  unfold py.ret. intros H. injection H as _ _ <-.
  split; [reflexivity |].
  exists a, xrs, rt, dt, dw, rw, rg, dg3, dg. cbn [snd].
  repeat split; assumption.
Qed.

(** ** The frozen weights seen from the site calculator *)

(** [sites.calculate_weight] delegates to [weights.compute_weight] and is
    frozen with it. *)
Lemma sites_calculate_weight_frozen :
  forall (C : cctbx) (self : sites.t) (m : weights.store),
    weights.weight_was_provided (weights.objects m (sites.weights self)) = true ->
    sites.calculate_weight (self, m) = Return tt (self, m).
Proof.
  intros C self m provided.
  unfold sites.calculate_weight, sites.this, sites.in_store, py.bind.
  cbn [fst snd]. now rewrite compute_weight_frozen.
Qed.

(** C5, at the input where the code departs from it.  A [weights] object
    built by [__init__] with a data weight has [weight_was_provided] set;
    [sites.update_restraints_weight_scale] nevertheless returns with
    [restraints_weight_scale] overwritten by its argument, while
    [data_weight] keeps its value. *)
Theorem sites_update_restraints_weight_scale_ignores_frozen :
  forall (C : cctbx) (self : sites.t) (m : weights.store)
         (shake_sites : bool) (restraints_weight : option R)
         (data_weight restraints_weight_scale v : R),
    weights.objects m (sites.weights self)
    = weights.__init__ shake_sites restraints_weight (Some data_weight)
        restraints_weight_scale ->
    v <> restraints_weight_scale ->
    let o := sites.update_restraints_weight_scale v (self, m) in
    let w' := weights.objects (snd (py.final_state o)) (sites.weights self) in
    weights.weight_was_provided (weights.objects m (sites.weights self)) = true
    /\ py.returned o = Some tt
    /\ weights.weight_was_provided w' = true
    /\ weights.restraints_weight_scale w' = v
    /\ weights.restraints_weight_scale w'
       <> weights.restraints_weight_scale
            (weights.objects m (sites.weights self))
    /\ weights.data_weight w' = Some data_weight.
Proof.
  intros C self m shake_sites rw dw rws v built changed o w'.
  unfold w', o, sites.update_restraints_weight_scale, sites.this,
    sites.in_store, weights.update, py.bind.
  cbn [fst snd py.final_state py.returned weights.objects].
  rewrite Nat.eqb_refl, built. cbn.
  repeat split; auto.
Qed.

Lemma sites_update_restraints_weight_scale_ignores_frozen_witness :
  let fm := scripted.model [scripted.carbon 0 0 0]
                           (scripted.unit_gradients (21 / 100) (25 / 100)) in
  let self := scripted.calculator fm scripted.no_restraints 0%nat None in
  let m := scripted.store_of (weights.__init__ true (Some 1) (Some 7) 1) in
  let o := sites.update_restraints_weight_scale
             (C := scripted.collaborators) 2 (self, m) in
  2 <> 1
  /\ weights.weight_was_provided (weights.objects m 0%nat) = true
  /\ weights.restraints_weight_scale (weights.objects m 0%nat) = 1
  /\ weights.restraints_weight_scale
       (weights.objects (snd (py.final_state o)) 0%nat) = 2.
Proof.
  intros fm self m o.
  assert (changed : 2 <> 1) by lra.
  destruct (sites_update_restraints_weight_scale_ignores_frozen
              scripted.collaborators self m true (Some 1) 7 1 2
              eq_refl changed) as [H1 [_ [_ [H2 _]]]].
  split; [exact changed | split; [exact H1 | split; [reflexivity | exact H2]]].
Defined.

(** ** The weight estimator *)

Lemma flex_sum_scale (c : R) (d : flex.double) :
  flex.sum (map (Rmult c) d) = c * flex.sum d.
Proof.
  induction d as [| a d IH]; cbn [map flex.sum fold_right].
  - ring.
  - fold (flex.sum (map (Rmult c) d)). fold (flex.sum d). rewrite IH. ring.
Qed.

Lemma flex_mean_scale (c : R) (d : flex.double) :
  flex.mean (map (Rmult c) d) = py.rmap (Rmult c) (flex.mean d).
Proof.
  destruct d as [| a d]; [reflexivity |].
  unfold flex.mean, py.rmap, py.rbind.
  cbn [map]. change (c * a :: map (Rmult c) d) with (map (Rmult c) (a :: d)).
  rewrite flex_sum_scale, length_map. f_equal.
  unfold Rdiv. ring.
Qed.

Lemma dot1_nonneg (v : flex.vec3) : 0 <= flex.dot1 v.
Proof.
  destruct v as [[x y] z]. unfold flex.dot1. nra.
Qed.

(** The length of a gradient scales with a non-negative factor. *)
Lemma sqrt_dot_scale (c : R) (g : flex.vec3_double) :
  0 <= c ->
  flex.sqrt (flex.dot (flex.rmul c g)) = map (Rmult c) (flex.sqrt (flex.dot g)).
Proof.
  intros Hc. unfold flex.sqrt, flex.dot, flex.rmul.
  rewrite !map_map. apply map_ext. intros [[x y] z]. unfold flex.dot1.
  replace (c * x * (c * x) + c * y * (c * y) + c * z * (c * z))
    with ((c * c) * (x * x + y * y + z * z)) by ring.
  rewrite sqrt_mult_alt by nra.
  rewrite sqrt_square by exact Hc. reflexivity.
Qed.

Lemma flex_gt_scale (c t : R) (d : flex.double) :
  0 < c -> flex.gt (map (Rmult c) d) (c * t * 6) = flex.gt d (t * 6).
Proof.
  intros Hc. unfold flex.gt. rewrite map_map. apply map_ext. intros a.
  unfold py.gt.
  destruct (Rgt_dec (c * a) (c * t * 6)) as [H | H];
    destruct (Rgt_dec a (t * 6)) as [H' | H']; try reflexivity; exfalso; nra.
Qed.

(** On the reals the selection of large contributions is the same for a
    gradient array [g] and for [c * g], whatever the positive factor [c]. *)
Lemma large_contributions_rmul (c : R) (g : flex.vec3_double) :
  0 < c ->
  weights.large_contributions (flex.rmul c g) = weights.large_contributions g.
Proof.
  intros Hc. unfold weights.large_contributions.
  rewrite sqrt_dot_scale by lra.
  rewrite flex_mean_scale.
  destruct (flex.mean (flex.sqrt (flex.dot g))) as [mean | e];
    cbn [py.rmap py.rbind]; [| reflexivity].
  now rewrite flex_gt_scale.
Qed.

Lemma flex_sum_sqrt_nonneg (d : flex.double) : 0 <= flex.sum (flex.sqrt d).
Proof.
  induction d as [| a d IH]; cbn [flex.sqrt map flex.sum fold_right].
  - lra.
  - fold (flex.sqrt d) (flex.sum (flex.sqrt d)).
    pose proof (sqrt_pos a). lra.
Qed.

Lemma flex_gt_nth (d : flex.double) (t : R) (i : nat) (a : R) :
  nth_error d i = Some a ->
  nth_error (flex.gt d t) i = Some (py.gt a t).
Proof.
  intros H. unfold flex.gt. rewrite nth_error_map, H. reflexivity.
Qed.

(** C7, as stated, fails on the machine's floats: of a gradient of length 6
    among ten of length 0.5 no atom is selected (6 is not above six times
    the mean 1), and after scaling all of them by 0.3 the first atom is
    selected, the rounded threshold having come out below its rounded
    length. *)
Lemma large_contributions_changes_under_scaling :
  binary64.large_contributions binary64.one_long_gradient
  = Ok (repeat false 11)
  /\ binary64.large_contributions
       (binary64.rmul binary64.three_tenths binary64.one_long_gradient)
     = Ok (true :: repeat false 10).
Proof.
  split; vm_compute; reflexivity.
Qed.

(** C7, away from the threshold.  For a non-empty gradient array [g] with
    mean length [mean] and a positive factor [c], an atom whose gradient is
    longer than six times the mean by more than one part in [10^9] is
    selected in [g] and in [c * g], and an atom whose gradient is shorter
    than that by more than one part in [10^9] is selected in neither.  What
    happens to an atom within rounding of the threshold is left open. *)
Theorem large_contributions_scale_invariant :
  forall (c : R) (g : flex.vec3_double),
    0 < c ->
    g <> [] ->
    exists (mean : R) (sel sel' : flex.bool),
      flex.mean (flex.sqrt (flex.dot g)) = Ok mean
      /\ weights.large_contributions g = Ok sel
      /\ weights.large_contributions (flex.rmul c g) = Ok sel'
      /\ forall (i : nat) (v : flex.vec3),
           nth_error g i = Some v ->
           let d := R_sqrt.sqrt (flex.dot1 v) in
           (d > mean * 6 * (1 + 1 / 1000000000) ->
            nth_error sel i = Some true /\ nth_error sel' i = Some true)
           /\ (d < mean * 6 * (1 - 1 / 1000000000) ->
               nth_error sel i = Some false /\ nth_error sel' i = Some false).
Proof.
  intros c g Hc Hg.
  rewrite (large_contributions_rmul c g Hc).
  unfold weights.large_contributions.
  destruct g as [| v0 g]; [contradiction |].
  set (d := flex.sqrt (flex.dot (v0 :: g))).
  assert (Hmean : flex.mean d = Ok (flex.sum d / INR (List.length d)))
    by reflexivity.
  assert (Hpos : 0 <= flex.sum d / INR (List.length d)).
  { apply Rmult_le_pos; [apply flex_sum_sqrt_nonneg |].
    apply Rlt_le, Rinv_0_lt_compat, lt_0_INR. cbn. lia. }
  set (mean := flex.sum d / INR (List.length d)) in *.
  exists mean, (flex.gt d (mean * 6)), (flex.gt d (mean * 6)).
  rewrite Hmean. cbn [py.rbind].
  split; [reflexivity |]. split; [reflexivity |]. split; [reflexivity |].
  intros i v Hv. set (dv := R_sqrt.sqrt (flex.dot1 v)).
  assert (Hd : nth_error d i = Some dv).
  { unfold d, flex.sqrt, flex.dot. rewrite !nth_error_map, Hv. reflexivity. }
  rewrite (flex_gt_nth d (mean * 6) i dv Hd).
  unfold py.gt.
  split; intros Hfar;
    (destruct (Rgt_dec dv (mean * 6)) as [H | H];
     [| ]; try (split; reflexivity); exfalso; nra).
Qed.

Lemma large_contributions_scale_invariant_witness :
  let g := [(1, 0, 0); (0, 0, 0); (0, 0, 0); (0, 0, 0);
            (0, 0, 0); (0, 0, 0); (0, 0, 0); (0, 0, 0)] in
  0 < 2
  /\ g <> []
  /\ exists (mean : R) (sel sel' : flex.bool),
       flex.mean (flex.sqrt (flex.dot g)) = Ok mean
       /\ weights.large_contributions g = Ok sel
       /\ weights.large_contributions (flex.rmul 2 g) = Ok sel'.
Proof.
  intros g.
  assert (Hc : 0 < 2) by lra.
  assert (Hg : g <> []) by discriminate.
  split; [exact Hc |]. split; [exact Hg |].
  destruct (large_contributions_scale_invariant 2 g Hc Hg)
    as (mean & sel & sel' & Hmean & Hsel & Hsel' & _).
  exists mean, sel, sel'. split; [exact Hmean |]. split; assumption.
Defined.

(** The selection is not always empty: one atom with a gradient among seven
    without is selected. *)
Example large_contributions_selects_outlier :
  weights.large_contributions
    [(1, 0, 0); (0, 0, 0); (0, 0, 0); (0, 0, 0);
     (0, 0, 0); (0, 0, 0); (0, 0, 0); (0, 0, 0)]
  = Ok [true; false; false; false; false; false; false; false].
Proof.
  unfold weights.large_contributions, flex.sqrt, flex.dot, flex.dot1.
  cbn [map].
  replace (1 * 1 + 0 * 0 + 0 * 0) with 1 by ring.
  replace (0 * 0 + 0 * 0 + 0 * 0) with 0 by ring.
  rewrite sqrt_1, sqrt_0.
  unfold flex.mean, flex.sum, flex.gt, py.gt, py.rbind.
  cbn [fold_right List.length map].
  rewrite INR_IZR_INZ. cbn [Z.of_nat Pos.of_succ_nat Pos.succ].
  do 2 f_equal.
  - destruct (Rgt_dec 1 _) as [| H]; [reflexivity | exfalso; lra].
  - repeat f_equal;
      (destruct (Rgt_dec 0 _) as [H |]; [exfalso; lra | reflexivity]).
Qed.

(** What [compute_weight] does when the weight was not provided and both
    evaluators answer at the perturbed configuration with gradients for at
    least one atom: it returns, having set [data_weight] to the ratio of
    the retained norms, or to 1 when the data norm [y] is zero. *)
Lemma compute_weight_active :
  forall (C : cctbx) (self : weights.ref) (m : weights.store)
         (fmodel : f_model) (rm : restraints)
         (tg tc : R) (dg : flex.double) (gx gc : flex.vec3_double)
         (selx selc : flex.bool),
    weights.weight_was_provided (weights.objects m self) = false ->
    let xrs := weights.perturbed (weights.objects m self) fmodel in
    target_functor (update_xray_structure fmodel xrs) = Ok (tg, dg) ->
    flex.vec3_double_of dg = Ok gx ->
    rm_target_and_gradients rm (sites_cart xrs) = Ok (tc, gc) ->
    weights.large_contributions gx = Ok selx ->
    weights.large_contributions gc = Ok selc ->
    let y := flex.norm (flex.select gx (flex.not selx)) in
    let x := flex.norm (flex.select gc (flex.not selc)) in
    exists m' : weights.store,
      weights.compute_weight self fmodel rm m = Return tt m'
      /\ weights.objects m' self
         = weights.set_data_weight
             (Some (if Req_dec_T y 0 then 1 else x / y))
             (weights.objects m self).
Proof.
  intros C self m fmodel rm tg tc dg gx gc selx selc active xrs
    Hdata Hgx Hrm Hselx Hselc y x.
  unfold weights.compute_weight.
  unfold py.bind at 1, weights.deref at 1. rewrite active.
  unfold weights.random_seed, weights.flex_set_random_seed, deep_copy.
  unfold py.bind at 1. unfold py.bind at 1.
  cbn [weights.objects weights.random weights.flex_random weights.pickles].
  unfold py.bind at 1.
  assert (Hshake :
    exists m1 : weights.store,
      (if weights.shake_sites (weights.objects m self)
       then weights.shake_sites_in_place (fm_xray_structure fmodel) (2 / 10)
       else py.ret (fm_xray_structure fmodel))
        {| weights.objects := weights.objects m;
           weights.random := seeded 1;
           weights.flex_random := seeded 1;
           weights.pickles := weights.pickles m |}
      = Return xrs m1 /\ weights.objects m1 = weights.objects m).
  { unfold xrs, weights.perturbed.
    destruct (weights.shake_sites (weights.objects m self)).
    - unfold weights.shake_sites_in_place.
      cbn [weights.objects weights.random weights.flex_random weights.pickles].
      destruct (shake (seeded 1, seeded 1) (fm_xray_structure fmodel) (2 / 10))
        as [xrs' [g fg]].
      eexists. split; reflexivity.
    - eexists. split; reflexivity. }
  destruct Hshake as [m1 [-> Hobj]].
  unfold py.bind. rewrite Hdata. cbn [py.lift py.ret snd]. rewrite Hgx.
  cbn [py.lift py.ret]. rewrite Hrm. cbn [py.lift py.ret]. rewrite Hselx.
  cbn [py.lift py.ret]. rewrite Hselc. cbn [py.lift py.ret].
  fold y x. unfold py.ne, py.div.
  destruct (Req_dec_T y 0) as [Hy | Hy]; cbn [py.lift py.ret].
  - unfold weights.update. eexists. split; [reflexivity |].
    cbn [weights.objects]. now rewrite Nat.eqb_refl, Hobj.
  - unfold weights.update. eexists. split; [reflexivity |].
    cbn [weights.objects]. now rewrite Nat.eqb_refl, Hobj.
Qed.




Lemma large_contributions_singleton (v : flex.vec3) :
  weights.large_contributions [v] = Ok [false].
Proof.
  unfold weights.large_contributions, flex.sqrt, flex.dot, flex.mean,
    flex.sum, flex.gt, py.gt, py.rbind.
  cbn [map fold_right List.length INR].
  pose proof (sqrt_pos (flex.dot1 v)) as Hpos.
  destruct (Rgt_dec _ _) as [H | _]; [exfalso; lra | reflexivity].
Qed.



(** The perturbation does not depend on the state the random generators
    were in: both are seeded before the shake. *)
Lemma shake_after_seeding :
  forall (C : cctbx) (w : weights.t) (fmodel : f_model) (m : weights.store),
    exists m1 : weights.store,
      (if weights.shake_sites w
       then weights.shake_sites_in_place (fm_xray_structure fmodel) (2 / 10)
       else py.ret (fm_xray_structure fmodel))
        {| weights.objects := weights.objects m;
           weights.random := seeded 1;
           weights.flex_random := seeded 1;
           weights.pickles := weights.pickles m |}
      = Return (weights.perturbed w fmodel) m1
      /\ weights.objects m1 = weights.objects m.
Proof.
  intros C w fmodel m. unfold weights.perturbed.
  destruct (weights.shake_sites w).
  - unfold weights.shake_sites_in_place.
    cbn [weights.objects weights.random weights.flex_random weights.pickles].
    destruct (shake (seeded 1, seeded 1) (fm_xray_structure fmodel) (2 / 10))
      as [xrs' [g fg]].
    eexists. split; reflexivity.
  - eexists. split; reflexivity.
Qed.

(** How a call of [compute_weight] ends is a function of two attributes of
    the [weights] object, [weight_was_provided] and [shake_sites], of the
    model and of the restraints manager: either nothing is assigned (the
    weight was provided), or some value [v] is assigned to [data_weight], or
    some exception is raised before any assignment.  The rest of the object
    and of the store, the random generators included, has no influence. *)
Lemma compute_weight_depends_on_configuration :
  forall (C : cctbx) (self : weights.ref) (fmodel : f_model) (rm : restraints)
         (provided shaking : bool),
    exists o : result (option R),
      (provided = false -> o <> Ok None)
      /\ forall m : weights.store,
        weights.weight_was_provided (weights.objects m self) = provided ->
        weights.shake_sites (weights.objects m self) = shaking ->
        exists m' : weights.store,
          weights.compute_weight self fmodel rm m
          = match o with
            | Ok _ => Return tt m'
            | Err e => Raise e m'
            end
          /\ weights.objects m' self
             = match o with
               | Ok (Some v) =>
                   weights.set_data_weight (Some v) (weights.objects m self)
               | _ => weights.objects m self
               end.
Proof.
  intros C self fmodel rm provided shaking.
  destruct provided.
  { exists (Ok None). split; [discriminate |].
    intros m Hp _. exists m. split; [| reflexivity].
    now apply compute_weight_frozen. }
  pose (xrs := if shaking
               then fst (shake (seeded 1, seeded 1)
                               (fm_xray_structure fmodel) (2 / 10))
               else fm_xray_structure fmodel).
  assert (start : forall m : weights.store,
             weights.weight_was_provided (weights.objects m self) = false ->
             weights.shake_sites (weights.objects m self) = shaking ->
             exists m1, weights.objects m1 = weights.objects m /\
               forall k : xray_structure -> M weights.store unit,
                 py.bind (weights.deref self)
                   (fun w0 =>
                      if weights.weight_was_provided w0 then py.ret tt
                      else py.bind (weights.random_seed 1) (fun _ =>
                           py.bind (weights.flex_set_random_seed 1) (fun _ =>
                           py.bind
                             (if weights.shake_sites w0
                              then weights.shake_sites_in_place
                                     (deep_copy (fm_xray_structure (deep_copy fmodel)))
                                     (2 / 10)
                              else py.ret (deep_copy (fm_xray_structure (deep_copy fmodel))))
                             k))) m
                 = k xrs m1).
  { intros m Hp Hs.
    destruct (shake_after_seeding C (weights.objects m self) fmodel m)
      as [m1 [Hshake Hobj]].
    unfold weights.perturbed in Hshake. rewrite Hs in Hshake. fold xrs in Hshake.
    exists m1. split; [exact Hobj |]. intros k.
    unfold py.bind at 1, weights.deref at 1. rewrite Hp, Hs.
    unfold py.bind at 1, weights.random_seed.
    unfold py.bind at 1, weights.flex_set_random_seed.
    cbn [weights.objects weights.random weights.flex_random weights.pickles].
    unfold py.bind at 1, deep_copy. now rewrite Hshake. }
  assert (finish : forall (o : result (option R)),
             o <> Ok None ->
             (forall (m1 : weights.store) (w : weights.t),
                 weights.objects m1 self = w ->
                 exists m' : weights.store,
                   (let fmodel_dc := update_xray_structure fmodel xrs in
                    tgx <- lift (target_functor fmodel_dc) ;;
                    gx <- lift (flex.vec3_double_of (snd tgx)) ;;
                    ' (tc, gc) <- lift (rm_target_and_gradients rm (sites_cart xrs)) ;;
                    let x := flex.norm gc in
                    let y := flex.norm gx in
                    sel <- lift (weights.large_contributions gx) ;;
                    let y := flex.norm (flex.select gx (flex.not sel)) in
                    sel <- lift (weights.large_contributions gc) ;;
                    let x := flex.norm (flex.select gc (flex.not sel)) in
                    if py.ne y 0
                    then
                      v <- lift (py.div x y) ;;
                      weights.update self (weights.set_data_weight (Some v))
                    else weights.update self (weights.set_data_weight (Some 1)))%py
                     m1
                   = match o with
                     | Ok _ => Return tt m'
                     | Err e => Raise e m'
                     end
                   /\ weights.objects m' self
                      = match o with
                        | Ok (Some v) => weights.set_data_weight (Some v) w
                        | _ => w
                        end) ->
             exists o : result (option R),
               (false = false -> o <> Ok None)
               /\ forall m : weights.store,
                 weights.weight_was_provided (weights.objects m self) = false ->
                 weights.shake_sites (weights.objects m self) = shaking ->
                 exists m' : weights.store,
                   weights.compute_weight self fmodel rm m
                   = match o with
                     | Ok _ => Return tt m'
                     | Err e => Raise e m'
                     end
                   /\ weights.objects m' self
                      = match o with
                        | Ok (Some v) =>
                            weights.set_data_weight (Some v)
                              (weights.objects m self)
                        | _ => weights.objects m self
                        end).
  { intros o Ho H. exists o. split; [intros _; exact Ho |]. intros m Hp Hs.
    destruct (start m Hp Hs) as [m1 [Hobj Hk]].
    unfold weights.compute_weight. rewrite Hk.
    apply H. now rewrite Hobj. }
  clear start.
  assert (fails : forall e : py.exn,
             forall (m1 : weights.store) (w : weights.t),
               weights.objects m1 self = w ->
               exists m' : weights.store,
                 Raise (A := unit) e m1 = Raise e m'
                 /\ weights.objects m' self = w).
  { intros e m1 w Hw. exists m1. split; [reflexivity | exact Hw]. }
  cbv zeta in finish. unfold py.bind in finish.
  destruct (target_functor (update_xray_structure fmodel xrs))
    as [[tg dg] | e];
    [| apply (finish (Err e)); [discriminate | exact (fails e)]].
  cbn [py.lift py.ret snd] in finish.
  destruct (flex.vec3_double_of dg) as [gx | e];
    [| apply (finish (Err e)); [discriminate | exact (fails e)]].
  cbn [py.lift py.ret snd] in finish.
  destruct (rm_target_and_gradients rm (sites_cart xrs)) as [[tc gc] | e];
    [| apply (finish (Err e)); [discriminate | exact (fails e)]].
  cbn [py.lift py.ret snd] in finish.
  destruct (weights.large_contributions gx) as [selx | e];
    [| apply (finish (Err e)); [discriminate | exact (fails e)]].
  cbn [py.lift py.ret snd] in finish.
  destruct (weights.large_contributions gc) as [selc | e];
    [| apply (finish (Err e)); [discriminate | exact (fails e)]].
  cbn [py.lift py.ret snd] in finish.
  apply (finish
           (Ok (Some (if Req_dec_T (flex.norm (flex.select gx (flex.not selx))) 0
                      then 1
                      else flex.norm (flex.select gc (flex.not selc))
                           / flex.norm (flex.select gx (flex.not selx)))))).
  { discriminate. }
  intros m1 w Hw. cbv zeta. unfold py.bind. cbn [py.lift py.ret].
  unfold py.ne, py.div, weights.update.
  destruct (Req_dec_T _ 0); cbn [py.lift py.ret];
    (eexists; split; [reflexivity |]);
    cbn [weights.objects]; now rewrite Nat.eqb_refl, Hw.
Qed.

(** In particular it is a function of the state of the object. *)
Lemma compute_weight_depends_on_object_only :
  forall (C : cctbx) (self : weights.ref) (fmodel : f_model) (rm : restraints)
         (w : weights.t),
    exists o : result (option R),
      forall m : weights.store,
        weights.objects m self = w ->
        exists m' : weights.store,
          weights.compute_weight self fmodel rm m
          = match o with
            | Ok _ => Return tt m'
            | Err e => Raise e m'
            end
          /\ weights.objects m' self
             = match o with
               | Ok (Some v) => weights.set_data_weight (Some v) w
               | _ => w
               end.
Proof.
  intros C self fmodel rm w.
  destruct (compute_weight_depends_on_configuration
              C self fmodel rm (weights.weight_was_provided w)
              (weights.shake_sites w)) as [o [_ H]].
  exists o. intros m Hw.
  destruct (H m) as [m' [Hrun Hobj]]; [now rewrite Hw | now rewrite Hw |].
  exists m'. split; [exact Hrun |]. now rewrite Hobj, Hw.
Qed.

(** C6.  Two calls of [compute_weight] with the same model and restraints
    manager, on [weights] objects without a provided weight and with the
    same [shake_sites], end the same way and, when they return, leave the
    same [data_weight], whatever the random generators, the [data_weight]
    of an earlier call and the rest of the store were before each call.  In
    particular a second call from the state the first call left ends as the
    first did and leaves its [data_weight]. *)
Theorem compute_weight_deterministic :
  forall (C : cctbx) (self : weights.ref) (fmodel : f_model) (rm : restraints)
         (m1 m2 : weights.store),
    weights.weight_was_provided (weights.objects m1 self) = false ->
    weights.weight_was_provided (weights.objects m2 self) = false ->
    weights.shake_sites (weights.objects m1 self)
    = weights.shake_sites (weights.objects m2 self) ->
    let o1 := weights.compute_weight self fmodel rm m1 in
    let o2 := weights.compute_weight self fmodel rm m2 in
    let again := weights.compute_weight self fmodel rm (py.final_state o1) in
    (py.returned o1 = py.returned o2
     /\ py.raised o1 = py.raised o2
     /\ (py.raised o1 = None ->
         weights.data_weight (weights.objects (py.final_state o1) self)
         = weights.data_weight (weights.objects (py.final_state o2) self)))
    /\ (py.returned again = py.returned o1
        /\ py.raised again = py.raised o1
        /\ weights.data_weight (weights.objects (py.final_state again) self)
           = weights.data_weight (weights.objects (py.final_state o1) self)).
Proof.
  intros C self fmodel rm m1 m2 active1 active2 same o1 o2 again.
  destruct (compute_weight_depends_on_configuration
              C self fmodel rm false
              (weights.shake_sites (weights.objects m1 self))) as [o [Ho H]].
  specialize (Ho eq_refl).
  destruct (H m1 active1 eq_refl) as [m1' [Hrun1 Hobj1]].
  destruct (H m2 active2 (eq_sym same)) as [m2' [Hrun2 Hobj2]].
  assert (Hstate : py.final_state o1 = m1')
    by (unfold o1; rewrite Hrun1; now destruct o).
  assert (active3 : weights.weight_was_provided (weights.objects m1' self)
                    = false)
    by (rewrite Hobj1; destruct o as [[v |] | e]; exact active1).
  assert (same3 : weights.shake_sites (weights.objects m1' self)
                  = weights.shake_sites (weights.objects m1 self))
    by (rewrite Hobj1; now destruct o as [[v |] | e]).
  destruct (H m1' active3 same3) as [m3' [Hrun3 Hobj3]].
  unfold again. rewrite Hstate, Hrun3.
  unfold o1, o2. rewrite Hrun1, Hrun2.
  destruct o as [[v |] | e]; cbn [py.returned py.raised py.final_state];
    rewrite ?Hobj1, ?Hobj2, ?Hobj3; repeat split; try discriminate.
  all: try (intros _; reflexivity).
  all: try (rewrite Hobj1; reflexivity).
  all: exfalso; now apply Ho.
Qed.

Lemma compute_weight_deterministic_witness :
  let fm := scripted.model [scripted.carbon 0 0 0; scripted.hydrogen 1 0 0]
                           (scripted.unit_gradients (21 / 100) (25 / 100)) in
  let rm := scripted.with_bond_rmsd (1 / 100) in
  let w := weights.__init__ true (Some 1) None 1 in
  let m1 := scripted.store_with_random w 5 9 in
  let m2 := scripted.store_with_random w 40 2 in
  let o1 := weights.compute_weight (C := scripted.collaborators) 0%nat fm rm m1 in
  let o2 := weights.compute_weight (C := scripted.collaborators) 0%nat fm rm m2 in
  let again := weights.compute_weight (C := scripted.collaborators) 0%nat fm rm
                 (py.final_state o1) in
  weights.weight_was_provided (weights.objects m1 0%nat) = false
  /\ weights.weight_was_provided (weights.objects m2 0%nat) = false
  /\ py.raised o1 = py.raised o2
  /\ weights.data_weight (weights.objects (py.final_state again) 0%nat)
     = weights.data_weight (weights.objects (py.final_state o1) 0%nat).
Proof.
  intros fm rm w m1 m2 o1 o2 again.
  split; [reflexivity |]. split; [reflexivity |].
  destruct (compute_weight_deterministic
              scripted.collaborators 0%nat fm rm m1 m2 eq_refl eq_refl eq_refl)
    as [[_ [Hraised _]] [_ [_ Hagain]]].
  split; [exact Hraised | exact Hagain].
Defined.

(* ===================================================================== *)
(** * Further properties of the module *)
(* ===================================================================== *)

(** ** The adaptive path of a weights object *)

Lemma continues_refl (w : weights.t) : continues w w.
Proof.
  repeat split. exists [], [], []. now rewrite !app_nil_r.
Qed.

Lemma continues_trans (w1 w2 w3 : weights.t) :
  continues w1 w2 -> continues w2 w3 -> continues w1 w3.
Proof.
  intros (Hs & Hr & Hp & fs & ws & ss & Hf & Hw & Hl & Hss)
         (Hs' & Hr' & Hp' & fs' & ws' & ss' & Hf' & Hw' & Hl' & Hss').
  repeat split; try congruence.
  exists (fs ++ fs'), (ws ++ ws'), (ss ++ ss').
  rewrite Hf', Hw', Hss', Hf, Hw, Hss, !app_assoc, !length_app.
  repeat split. congruence.
Qed.

Lemma continues_set_restraints_weight_scale (v : R) (w : weights.t) :
  continues w (weights.set_restraints_weight_scale v w).
Proof.
  repeat split. exists [], [], []. cbn. now rewrite !app_nil_r.
Qed.

Lemma continues_set_data_weight (v : option R) (w : weights.t) :
  continues w (weights.set_data_weight v w).
Proof.
  repeat split. exists [], [], []. cbn. now rewrite !app_nil_r.
Qed.

Section Evolution.
Context {C : cctbx}.

Lemma scale_restraints_weight_continues (self : weights.ref) (m : weights.store) :
  continues (weights.objects m self)
    (weights.objects (py.final_state (weights.scale_restraints_weight self m)) self).
Proof.
  unfold weights.scale_restraints_weight, py.bind, weights.deref.
  destruct (weights.weight_was_provided (weights.objects m self)).
  - apply continues_refl.
  - run_store. apply continues_set_restraints_weight_scale.
Qed.

Lemma add_restraints_weight_scale_continues (self : weights.ref) (m : weights.store) :
  continues (weights.objects m self)
    (weights.objects
       (py.final_state
          (weights.add_restraints_weight_scale_to_restraints_weight_scales self m))
       self).
Proof.
  unfold weights.add_restraints_weight_scale_to_restraints_weight_scales,
    py.bind, weights.deref.
  destruct (weights.weight_was_provided (weights.objects m self)).
  - apply continues_refl.
  - run_store. repeat split.
    exists [], [], [weights.restraints_weight_scale (weights.objects m self)].
    cbn. now rewrite !app_nil_r.
Qed.

Lemma compute_weight_continues (self : weights.ref) (m : weights.store)
  (fmodel : f_model) (rm : restraints) :
  continues (weights.objects m self)
    (weights.objects
       (py.final_state (weights.compute_weight self fmodel rm m)) self).
Proof.
  destruct (compute_weight_depends_on_object_only
              C self fmodel rm (weights.objects m self)) as [o H].
  destruct (H m eq_refl) as [m' [Hrun Hobj]].
  rewrite Hrun.
  destruct o as [[v |] | e]; cbn [py.final_state]; rewrite Hobj;
    (apply continues_refl || apply continues_set_data_weight).
Qed.

Lemma adjust_restraints_weight_scale_continues (self : weights.ref)
  (m : weights.store) (fmodel : f_model) (grm : geometry_rmsd_manager)
  (max_bond_rmsd scale : R) :
  continues (weights.objects m self)
    (weights.objects
       (py.final_state
          (weights.adjust_restraints_weight_scale
             self fmodel grm max_bond_rmsd scale m)) self).
Proof.
  unfold weights.adjust_restraints_weight_scale.
  unfold py.bind at 1, weights.deref at 1.
  destruct (weights.weight_was_provided (weights.objects m self)) eqn:provided;
    [apply continues_refl |].
  unfold py.bind at 1.
  destruct (get_bonds_rmsd (geometry grm) (fm_xray_structure fmodel))
    as [b | e]; cbn [py.lift py.ret py.raise py.final_state];
    [| apply continues_refl].
  run_store.
  decide_comparisons;
    repeat (cbn; rewrite ?Nat.eqb_refl);
    try apply continues_refl;
    (repeat split;
     do 2 eexists; exists (@nil R); cbn;
     (split; [reflexivity | split; [reflexivity | split;
        [reflexivity | now rewrite app_nil_r]]])).
Qed.

Lemma perform_continues (self : weights.ref) (m : weights.store) (c : call) :
  continues (weights.objects m self)
    (weights.objects (py.final_state (perform self c m)) self).
Proof.
  destruct c; cbn [perform].
  - apply compute_weight_continues.
  - unfold py.bind.
    pose proof (adjust_restraints_weight_scale_continues
                  self m fmodel geometry_rmsd_manager0 max_bond_rmsd scale) as H.
    destruct (weights.adjust_restraints_weight_scale _ _ _ _ _ _); exact H.
  - apply scale_restraints_weight_continues.
  - apply add_restraints_weight_scale_continues.
Qed.

Lemma perform_all_continues (self : weights.ref) (cs : list call) :
  forall m : weights.store,
    continues (weights.objects m self)
      (weights.objects (py.final_state (perform_all self cs m)) self).
Proof.
  induction cs as [| c cs IH]; intros m; cbn [perform_all].
  - apply continues_refl.
  - unfold py.bind. pose proof (perform_continues self m c) as H.
    destruct (perform self c m) as [[] m1 | e m1]; cbn [py.final_state] in *.
    + exact (continues_trans _ _ _ H (IH m1)).
    + exact H.
Qed.

End Evolution.

(** No method of [weights] changes the configuration given to the
    constructor: [shake_sites], [restraints_weight] and
    [weight_was_provided] are the same after any sequence of calls, however
    it ends.  In particular an object that estimated its data weight stays
    adaptive. *)
Theorem weights_configuration_is_fixed :
  forall (C : cctbx) (self : weights.ref) (cs : list call) (m : weights.store),
    let w := weights.objects m self in
    let w' := weights.objects (py.final_state (perform_all self cs m)) self in
    weights.shake_sites w' = weights.shake_sites w
    /\ weights.restraints_weight w' = weights.restraints_weight w
    /\ weights.weight_was_provided w' = weights.weight_was_provided w.
Proof.
  intros C self cs m w w'.
  destruct (perform_all_continues self cs m) as (Hs & Hr & Hp & _).
  repeat split; assumption.
Qed.

(** The histories are append-only and the two R-factor histories grow in
    step: after any sequence of calls, however it ends, [r_frees],
    [r_works] and [restraints_weight_scales] extend what they were, the
    first two by the same number of entries. *)
Theorem weights_histories_grow_in_step :
  forall (C : cctbx) (self : weights.ref) (cs : list call) (m : weights.store),
    let w := weights.objects m self in
    let w' := weights.objects (py.final_state (perform_all self cs m)) self in
    exists (fs ws : list R) (ss : flex.double),
      weights.r_frees w' = weights.r_frees w ++ fs
      /\ weights.r_works w' = weights.r_works w ++ ws
      /\ List.length fs = List.length ws
      /\ weights.restraints_weight_scales w'
         = weights.restraints_weight_scales w ++ ss.
Proof.
  intros C self cs m w w'.
  destruct (perform_all_continues self cs m) as (_ & _ & _ & H).
  exact H.
Qed.

(** [compute_weight] assigns to [data_weight] only: whether it returns or
    raises, the object is the one before the call with at most that
    attribute replaced. *)
Theorem compute_weight_assigns_data_weight_only :
  forall (C : cctbx) (self : weights.ref) (m : weights.store)
         (fmodel : f_model) (rm : restraints),
    let w' := weights.objects
                (py.final_state (weights.compute_weight self fmodel rm m)) self in
    w' = weights.set_data_weight (weights.data_weight w') (weights.objects m self).
Proof.
  intros C self m fmodel rm w'. unfold w'.
  destruct (compute_weight_depends_on_object_only
              C self fmodel rm (weights.objects m self)) as [o H].
  destruct (H m eq_refl) as [m' [Hrun Hobj]].
  rewrite Hrun.
  destruct o as [[v |] | e]; cbn [py.final_state]; rewrite Hobj;
    try reflexivity; now destruct (weights.objects m self).
Qed.

(** The escalation path: [n] calls of [scale_restraints_weight] on an
    adaptive object multiply [restraints_weight_scale] by [4 ^ n] and change
    nothing else. *)
Theorem scale_restraints_weight_repeated :
  forall (C : cctbx) (self : weights.ref) (n : nat) (m : weights.store),
    weights.weight_was_provided (weights.objects m self) = false ->
    exists m' : weights.store,
      perform_all self (repeat call_scale_restraints_weight n) m = Return tt m'
      /\ weights.objects m' self
         = weights.set_restraints_weight_scale
             (weights.restraints_weight_scale (weights.objects m self) * 4 ^ n)
             (weights.objects m self).
Proof.
  intros C self n. induction n as [| n IH]; intros m active.
  - exists m. split; [reflexivity |].
    destruct (weights.objects m self).
    unfold weights.set_restraints_weight_scale; cbn. f_equal. ring.
  - cbn [repeat perform_all perform].
    unfold py.bind at 1.
    unfold weights.scale_restraints_weight, py.bind at 1, weights.deref.
    rewrite active.
    unfold weights.imul_restraints_weight_scale, weights.update.
    match goal with
    | |- context [perform_all self _ ?m1] =>
        destruct (IH m1) as [m' [Hrun Hobj]]
    end.
    { cbn [weights.objects]. rewrite Nat.eqb_refl. exact active. }
    exists m'. split; [exact Hrun |].
    rewrite Hobj. cbn [weights.objects]. rewrite Nat.eqb_refl.
    unfold weights.set_restraints_weight_scale.
    cbn [weights.restraints_weight_scale
         weights.shake_sites weights.restraints_weight weights.data_weight
         weights.weight_was_provided weights.restraints_weight_scales
         weights.r_frees weights.r_works].
    f_equal. cbn [pow]. ring.
Qed.

Lemma scale_restraints_weight_repeated_witness :
  let m := scripted.store_of (weights.__init__ true (Some 1) None 1) in
  weights.weight_was_provided (weights.objects m 0%nat) = false
  /\ exists m' : weights.store,
       perform_all (C := scripted.collaborators) 0%nat
         (repeat call_scale_restraints_weight 3) m = Return tt m'
       /\ weights.restraints_weight_scale (weights.objects m' 0%nat) = 1 * 4 ^ 3.
Proof.
  intros m. split; [reflexivity |].
  destruct (scale_restraints_weight_repeated
              scripted.collaborators 0%nat 3 m eq_refl) as [m' [Hrun Hobj]].
  exists m'. split; [exact Hrun |]. now rewrite Hobj.
Defined.

(** ** Failures of the weight scale controller *)

(** A failing adjustment is atomic.  If [adjust_restraints_weight_scale]
    raises, nothing was assigned and no history entry was written; and the
    exception is either the one of the bond rmsd probe or the
    [ZeroDivisionError] of dividing the scale by a zero factor. *)
Theorem adjust_restraints_weight_scale_fails_atomically :
  forall (C : cctbx) (self : weights.ref) (m m' : weights.store)
         (fmodel : f_model) (grm : geometry_rmsd_manager)
         (max_bond_rmsd scale : R) (e : py.exn),
    weights.adjust_restraints_weight_scale
      self fmodel grm max_bond_rmsd scale m = Raise e m' ->
    m' = m
    /\ (get_bonds_rmsd (geometry grm) (fm_xray_structure fmodel) = Err e
        \/ (scale = 0 /\ e = ZeroDivisionError)).
Proof.
  intros C self m m' fmodel grm max_bond_rmsd scale e.
  unfold weights.adjust_restraints_weight_scale.
  unfold py.bind at 1, weights.deref at 1.
  destruct (weights.weight_was_provided (weights.objects m self));
    [discriminate |].
  unfold py.bind at 1.
  destruct (get_bonds_rmsd (geometry grm) (fm_xray_structure fmodel))
    as [b | e0]; cbn [py.lift py.ret py.raise].
  - run_store.
    decide_comparisons; repeat (cbn; rewrite ?Nat.eqb_refl);
      intros H; try discriminate H;
      injection H as <- <-;
      (split; [reflexivity | right; split; [assumption | reflexivity]]).
  - intros H. injection H as <- <-. split; [reflexivity | left; reflexivity].
Qed.

Lemma adjust_restraints_weight_scale_fails_atomically_witness :
  let fm := scripted.model [scripted.carbon 0 0 0]
                           (scripted.unit_gradients (25 / 100) (21 / 100)) in
  let grm := scripted.rmsd_manager (scripted.with_bond_rmsd (1 / 100)) in
  let m := scripted.store_of (weights.__init__ true (Some 1) None 1) in
  weights.adjust_restraints_weight_scale (C := scripted.collaborators)
    0%nat fm grm (3 / 100) 0 m = Raise ZeroDivisionError m.
Proof.
  intros fm grm m.
  destruct (weights.adjust_restraints_weight_scale (C := scripted.collaborators)
              0%nat fm grm (3 / 100) 0 m) as [v m' | e m'] eqn:Hrun.
  - exfalso. revert Hrun.
    unfold weights.adjust_restraints_weight_scale.
    unfold py.bind at 1, weights.deref at 1.
    change (weights.weight_was_provided (weights.objects m 0%nat)) with false.
    unfold py.bind at 1.
    change (get_bonds_rmsd (geometry grm) (fm_xray_structure fm))
      with (@Ok R (1 / 100)).
    cbn [py.lift py.ret].
    change (r_work fm) with (25 / 100). change (r_free fm) with (21 / 100).
    run_store.
    decide_comparisons; try lra; repeat (cbn; rewrite ?Nat.eqb_refl);
      discriminate.
  - destruct (adjust_restraints_weight_scale_fails_atomically
                scripted.collaborators 0%nat m m' fm grm (3 / 100) 0 e Hrun)
      as [-> [Hprobe | [_ ->]]].
    + discriminate Hprobe.
    + reflexivity.
Defined.

(** ** The value of the estimated data weight *)

(** A call of [compute_weight] that returns on an adaptive object had
    answers from both evaluators at the perturbed configuration, and left
    the ratio of the retained norms (or the fallback) in [data_weight]. *)
Lemma compute_weight_returns_ratio :
  forall (C : cctbx) (self : weights.ref) (m m' : weights.store)
         (fmodel : f_model) (rm : restraints),
    weights.weight_was_provided (weights.objects m self) = false ->
    weights.compute_weight self fmodel rm m = Return tt m' ->
    let xrs := weights.perturbed (weights.objects m self) fmodel in
    exists (tg tc : R) (dg : flex.double) (gx gc : flex.vec3_double)
           (selx selc : flex.bool),
      target_functor (update_xray_structure fmodel xrs) = Ok (tg, dg)
      /\ flex.vec3_double_of dg = Ok gx
      /\ rm_target_and_gradients rm (sites_cart xrs) = Ok (tc, gc)
      /\ weights.large_contributions gx = Ok selx
      /\ weights.large_contributions gc = Ok selc
      /\ weights.data_weight (weights.objects m' self)
         = Some (if Req_dec_T (flex.norm (flex.select gx (flex.not selx))) 0
                 then 1
                 else flex.norm (flex.select gc (flex.not selc))
                      / flex.norm (flex.select gx (flex.not selx))).
Proof.
  intros C self m m' fmodel rm active Hrun xrs.
  destruct (target_functor (update_xray_structure fmodel xrs))
    as [[tg dg] | e] eqn:Hdata.
  2: { exfalso. revert Hrun. unfold weights.compute_weight.
       unfold py.bind at 1, weights.deref at 1. rewrite active.
       unfold weights.random_seed, weights.flex_set_random_seed, deep_copy.
       unfold py.bind at 1. unfold py.bind at 1.
       cbn [weights.objects weights.random weights.flex_random weights.pickles].
       unfold py.bind at 1.
       destruct (shake_after_seeding C (weights.objects m self) fmodel m)
         as [m1 [-> _]].
       unfold py.bind. fold xrs. rewrite Hdata. discriminate. }
  destruct (flex.vec3_double_of dg) as [gx | e] eqn:Hgx.
  2: { exfalso. revert Hrun. unfold weights.compute_weight.
       unfold py.bind at 1, weights.deref at 1. rewrite active.
       unfold weights.random_seed, weights.flex_set_random_seed, deep_copy.
       unfold py.bind at 1. unfold py.bind at 1.
       cbn [weights.objects weights.random weights.flex_random weights.pickles].
       unfold py.bind at 1.
       destruct (shake_after_seeding C (weights.objects m self) fmodel m)
         as [m1 [-> _]].
       unfold py.bind. fold xrs. rewrite Hdata. cbn [py.lift py.ret snd].
       rewrite Hgx. discriminate. }
  destruct (rm_target_and_gradients rm (sites_cart xrs))
    as [[tc gc] | e] eqn:Hrm.
  2: { exfalso. revert Hrun. unfold weights.compute_weight.
       unfold py.bind at 1, weights.deref at 1. rewrite active.
       unfold weights.random_seed, weights.flex_set_random_seed, deep_copy.
       unfold py.bind at 1. unfold py.bind at 1.
       cbn [weights.objects weights.random weights.flex_random weights.pickles].
       unfold py.bind at 1.
       destruct (shake_after_seeding C (weights.objects m self) fmodel m)
         as [m1 [-> _]].
       unfold py.bind. fold xrs. rewrite Hdata. cbn [py.lift py.ret snd].
       rewrite Hgx. cbn [py.lift py.ret]. rewrite Hrm. discriminate. }
  destruct (weights.large_contributions gx) as [selx | e] eqn:Hselx.
  2: { exfalso. revert Hrun. unfold weights.compute_weight.
       unfold py.bind at 1, weights.deref at 1. rewrite active.
       unfold weights.random_seed, weights.flex_set_random_seed, deep_copy.
       unfold py.bind at 1. unfold py.bind at 1.
       cbn [weights.objects weights.random weights.flex_random weights.pickles].
       unfold py.bind at 1.
       destruct (shake_after_seeding C (weights.objects m self) fmodel m)
         as [m1 [-> _]].
       unfold py.bind. fold xrs. rewrite Hdata. cbn [py.lift py.ret snd].
       rewrite Hgx. cbn [py.lift py.ret]. rewrite Hrm. cbn [py.lift py.ret].
       rewrite Hselx. discriminate. }
  destruct (weights.large_contributions gc) as [selc | e] eqn:Hselc.
  2: { exfalso. revert Hrun. unfold weights.compute_weight.
       unfold py.bind at 1, weights.deref at 1. rewrite active.
       unfold weights.random_seed, weights.flex_set_random_seed, deep_copy.
       unfold py.bind at 1. unfold py.bind at 1.
       cbn [weights.objects weights.random weights.flex_random weights.pickles].
       unfold py.bind at 1.
       destruct (shake_after_seeding C (weights.objects m self) fmodel m)
         as [m1 [-> _]].
       unfold py.bind. fold xrs. rewrite Hdata. cbn [py.lift py.ret snd].
       rewrite Hgx. cbn [py.lift py.ret]. rewrite Hrm. cbn [py.lift py.ret].
       rewrite Hselx. cbn [py.lift py.ret]. rewrite Hselc. discriminate. }
  destruct (compute_weight_active C self m fmodel rm tg tc dg gx gc selx selc
              active Hdata Hgx Hrm Hselx Hselc) as [m2 [Hrun2 Hobj]].
  rewrite Hrun2 in Hrun. injection Hrun as Heq. subst m'.
  exists tg, tc, dg, gx, gc, selx, selc.
  split; [reflexivity | split; [exact Hgx | split; [reflexivity |
    split; [exact Hselx | split; [exact Hselc |]]]]].
  rewrite Hobj. reflexivity.
Qed.

Lemma flex_norm_nonneg (g : flex.vec3_double) : 0 <= flex.norm g.
Proof. apply sqrt_pos. Qed.

(** The estimated data weight is never negative: it is a ratio of two norms,
    or the fallback [1.0]. *)
Theorem compute_weight_data_weight_nonnegative :
  forall (C : cctbx) (self : weights.ref) (m m' : weights.store)
         (fmodel : f_model) (rm : restraints),
    weights.weight_was_provided (weights.objects m self) = false ->
    weights.compute_weight self fmodel rm m = Return tt m' ->
    exists v : R,
      weights.data_weight (weights.objects m' self) = Some v /\ 0 <= v.
Proof.
  intros C self m m' fmodel rm active Hrun.
  destruct (compute_weight_returns_ratio C self m m' fmodel rm active Hrun)
    as (tg & tc & dg & gx & gc & selx & selc & _ & _ & _ & _ & _ & Hdw).
  eexists. split; [exact Hdw |].
  destruct (Req_dec_T _ 0) as [_ | Hy]; [lra |].
  pose proof (flex_norm_nonneg (flex.select gx (flex.not selx))) as Hy0.
  pose proof (flex_norm_nonneg (flex.select gc (flex.not selc))) as Hx0.
  apply Rmult_le_pos; [exact Hx0 |].
  apply Rlt_le, Rinv_0_lt_compat. lra.
Qed.

Lemma compute_weight_data_weight_nonnegative_witness :
  let fm := scripted.model [scripted.carbon 0 0 0]
                           (scripted.unit_gradients (21 / 100) (25 / 100)) in
  let rm := scripted.with_bond_rmsd (1 / 100) in
  let m := scripted.store_of (weights.__init__ true (Some 1) None 1) in
  weights.weight_was_provided (weights.objects m 0%nat) = false
  /\ exists (m' : weights.store) (v : R),
       weights.compute_weight (C := scripted.collaborators) 0%nat fm rm m
       = Return tt m'
       /\ weights.data_weight (weights.objects m' 0%nat) = Some v /\ 0 <= v.
Proof.
  intros fm rm m. split; [reflexivity |].
  destruct (compute_weight_active scripted.collaborators 0%nat m fm rm
              0 1 [1; 0; 0] [(1, 0, 0)] [(0, 1, 0)] [false] [false])
    as [m' [Hrun _]];
    try reflexivity; try apply large_contributions_singleton.
  destruct (compute_weight_data_weight_nonnegative
              scripted.collaborators 0%nat m m' fm rm eq_refl Hrun)
    as [v [Hv Hpos]].
  exists m', v. split; [exact Hrun | split; [exact Hv | exact Hpos]].
Defined.


(** ** The site calculator and its structure *)

Lemma set_sites_cart_spec :
  forall (xrs xrs' : xray_structure) (a : flex.vec3_double),
    set_sites_cart xrs a = Ok xrs' ->
    sites_cart xrs' = a
    /\ hd_selection xrs' = hd_selection xrs
    /\ List.length a = List.length xrs.
Proof.
  induction xrs as [| sc xrs IH]; intros xrs' [| v a] H; cbn in H;
    try discriminate.
  - injection H as <-. repeat split.
  - destruct (set_sites_cart xrs a) as [r |] eqn:E; [| discriminate].
    cbn in H. injection H as <-.
    destruct (IH r a E) as (Hs & Hh & Hl).
    unfold sites_cart, hd_selection in *.
    cbn [map List.length site hd]. rewrite Hs, Hh, Hl. repeat split.
Qed.

Lemma set_sites_cart_again :
  forall (xrs xrs' : xray_structure) (a : flex.vec3_double),
    set_sites_cart xrs a = Ok xrs' -> set_sites_cart xrs' a = Ok xrs'.
Proof.
  induction xrs as [| sc xrs IH]; intros xrs' [| v a] H; cbn in H;
    try discriminate.
  - injection H as <-. reflexivity.
  - destruct (set_sites_cart xrs a) as [r |] eqn:E; [| discriminate].
    cbn in H. injection H as <-.
    cbn. now rewrite (IH r a E).
Qed.

Lemma vec3_double_of_size :
  forall (a : flex.vec3_double) (d : flex.double),
    flex.vec3_double_of d = Ok a -> List.length d = (3 * List.length a)%nat.
Proof.
  intros a d H. rewrite <- (vec3_double_of_as_double a d H).
  clear. induction a as [| [[x y] z] a IH]; [reflexivity |].
  change (flex.as_double ((x, y, z) :: a))
    with (x :: y :: z :: flex.as_double a).
  cbn [List.length]. rewrite IH. lia.
Qed.


(** The complete outcome of an evaluation whose evaluators answer: the
    calculator is left at [x], the weights are not touched, and the call
    returns the combination, or (when a dump is requested) raises after the
    three dumps. *)
Lemma sites_target_and_gradients_run :
  forall (C : cctbx) (self : sites.t) (m : weights.store) (x : flex.double)
         (a : flex.vec3_double) (xrs : xray_structure)
         (rt dt dw rw : R) (rg dg3 : flex.vec3_double) (dg : flex.double),
    flex.vec3_double_of x = Ok a ->
    set_sites_cart (fm_xray_structure (sites.fmodel self)) a = Ok xrs ->
    rm_target_and_gradients (sites.restraints_manager self) a = Ok (rt, rg) ->
    target_functor (update_xray_structure (sites.fmodel self) xrs)
    = Ok (dt, dg) ->
    flex.vec3_double_of dg = Ok dg3 ->
    List.length dg3 = List.length rg ->
    weights.data_weight (weights.objects m (sites.weights self)) = Some dw ->
    weights.restraints_weight (weights.objects m (sites.weights self))
    = Some rw ->
    let rws :=
      weights.restraints_weight_scale (weights.objects m (sites.weights self)) in
    exists g : flex.vec3_double,
      flex.add (flex.mul dg3 dw) (flex.mul (flex.rmul rw rg) rws) = Ok g
      /\ sites.target_and_gradients x (self, m)
         = match sites.dump_gradients self with
           | None =>
               Return (dt * dw + rw * rt * rws, flex.as_double g)
                      (evaluated self a xrs, m)
           | Some name =>
               Raise (Foreign "SystemExit")
                     (evaluated self a xrs,
                      {| weights.objects := weights.objects m;
                         weights.random := weights.random m;
                         weights.flex_random := weights.flex_random m;
                         weights.pickles :=
                           ((weights.pickles m
                             ++ [((name ++ "_dg")%string, flex.as_double dg3)])
                            ++ [((name ++ "_rg")%string, flex.as_double rg)])
                           ++ [((name ++ "_g")%string, flex.as_double g)] |})
           end.
Proof.
  intros C self m x a xrs rt dt dw rw rg dg3 dg
    Hx Hset Hrm Hdata Hdg len Hdw Hrw rws.
  destruct (weighted_gradient_sum dw rw rws dg3 rg len) as [g [Hadd _]].
  exists g. split; [exact Hadd |].
  unfold sites.target_and_gradients, sites.update, sites.self_x, sites.this,
    sites.assign, sites.in_store, sites.easy_pickle_dump, weights.deref,
    py.bind.
  rewrite Hx. cbn [py.lift py.ret fst snd sites.fmodel sites.set_x sites.x
                   sites.set_fmodel sites.restraints_manager sites.weights
                   sites.dump_gradients sites.sites_cart_of_x].
  rewrite Hset. cbn [py.lift py.ret fst snd sites.fmodel sites.set_x sites.x
                   sites.set_fmodel sites.restraints_manager sites.weights
                   sites.dump_gradients sites.sites_cart_of_x].
  rewrite Hrm. cbn [py.lift py.ret fst snd sites.fmodel sites.set_x sites.x
                   sites.set_fmodel sites.restraints_manager sites.weights
                   sites.dump_gradients sites.sites_cart_of_x].
  unfold update_xray_structure in *. cbn [fm_xray_structure fm_data] in *.
  rewrite Hdata. cbn [py.lift py.ret fst snd]. rewrite Hdg.
  cbn [py.lift py.ret fst snd]. rewrite Hdw, Hrw.
  cbn [py.float_operand py.lift py.ret fst snd]. fold rws. rewrite Hadd.
  cbn [py.lift py.ret fst snd].
  destruct (sites.dump_gradients self) as [name |]; reflexivity.
Qed.

(** The debug path of the site calculator.  With a dump requested and both
    evaluators answering, [target_and_gradients] never returns: it writes
    three files, [<name>_dg], [<name>_rg] and [<name>_g] in this order,
    holding the data gradient, the restraints gradient and the combined
    gradient, and then ends in [SystemExit] at [STOP()].  The weights are
    not touched. *)
Theorem sites_dump_gradients_then_stops :
  forall (C : cctbx) (self : sites.t) (m : weights.store) (x : flex.double)
         (a : flex.vec3_double) (xrs : xray_structure) (name : string)
         (rt dt dw rw : R) (rg dg3 : flex.vec3_double) (dg : flex.double),
    sites.dump_gradients self = Some name ->
    flex.vec3_double_of x = Ok a ->
    set_sites_cart (fm_xray_structure (sites.fmodel self)) a = Ok xrs ->
    rm_target_and_gradients (sites.restraints_manager self) a = Ok (rt, rg) ->
    target_functor (update_xray_structure (sites.fmodel self) xrs)
    = Ok (dt, dg) ->
    flex.vec3_double_of dg = Ok dg3 ->
    List.length dg3 = List.length rg ->
    weights.data_weight (weights.objects m (sites.weights self)) = Some dw ->
    weights.restraints_weight (weights.objects m (sites.weights self))
    = Some rw ->
    let rws :=
      weights.restraints_weight_scale (weights.objects m (sites.weights self)) in
    exists s' : sites.state,
      sites.target_and_gradients x (self, m) = Raise (Foreign "SystemExit") s'
      /\ weights.pickles (snd s')
         = weights.pickles m
           ++ [((name ++ "_dg")%string, dg);
               ((name ++ "_rg")%string, flex.as_double rg);
               ((name ++ "_g")%string,
                map (fun p : R * R => dw * fst p + rw * rws * snd p)
                    (combine dg (flex.as_double rg)))]
      /\ weights.objects (snd s') = weights.objects m.
Proof.
  intros C self m x a xrs name rt dt dw rw rg dg3 dg
    dump Hx Hset Hrm Hdata Hdg len Hdw Hrw rws.
  destruct (sites_target_and_gradients_run C self m x a xrs rt dt dw rw rg
              dg3 dg Hx Hset Hrm Hdata Hdg len Hdw Hrw) as [g [Hadd Hrun]].
  rewrite dump in Hrun. fold rws in Hadd.
  destruct (weighted_gradient_sum dw rw rws dg3 rg len) as [g' [Hadd' Hflat]].
  rewrite Hadd in Hadd'. injection Hadd' as <-.
  rewrite (vec3_double_of_as_double dg3 dg Hdg) in Hflat.
  eexists. split; [exact Hrun |].
  cbn [snd weights.pickles weights.objects].
  rewrite Hflat, (vec3_double_of_as_double dg3 dg Hdg), <- !app_assoc.
  split; reflexivity.
Qed.

Lemma sites_dump_gradients_then_stops_witness :
  let fm := scripted.model [scripted.carbon 0 0 0]
                           (scripted.unit_gradients (21 / 100) (25 / 100)) in
  let rm := scripted.with_bond_rmsd (1 / 100) in
  let self := scripted.calculator fm rm 0%nat (Some "grads"%string) in
  let m := scripted.store_of (weights.__init__ true (Some 1) (Some 2) 3) in
  sites.dump_gradients self = Some "grads"%string
  /\ exists s' : sites.state,
       sites.target_and_gradients (C := scripted.collaborators)
         [1; 2; 3] (self, m) = Raise (Foreign "SystemExit") s'
       /\ map fst (weights.pickles (snd s'))
          = ["grads_dg"; "grads_rg"; "grads_g"]%string.
Proof.
  intros fm rm self m. split; [reflexivity |].
  destruct (sites_dump_gradients_then_stops
              scripted.collaborators self m [1; 2; 3] [(1, 2, 3)]
              [scripted.carbon 1 2 3] "grads"%string 1 0 2 1
              [(0, 1, 0)] [(1, 0, 0)] [1; 0; 0])
    as [s' [Hrun [Hp _]]]; try reflexivity.
  exists s'. split; [exact Hrun |]. rewrite Hp. reflexivity.
Defined.

(** No hidden state drift.  If an evaluation at [x] returns, evaluating
    again at the same [x] from the state it left returns the same target
    and gradient and leaves that state as it is. *)
Theorem sites_target_and_gradients_twice :
  forall (C : cctbx) (self : sites.t) (m : weights.store) (x : flex.double)
         (t : R) (g : flex.double) (s' : sites.state),
    sites.target_and_gradients x (self, m) = Return (t, g) s' ->
    sites.target_and_gradients x s' = Return (t, g) s'.
Proof.
  intros C self m x t g s' Hrun.
  destruct (sites_target_and_gradients_returns_only_when
              C self m x t g s' Hrun)
    as (nodump & a & xrs & rt & dt & dw & rw & rg & dg3 & dg
        & Hx & Hset & Hrm & Hdata & Hdg & len & Hdw & Hrw & _).
  destruct (sites_target_and_gradients_run C self m x a xrs rt dt dw rw rg
              dg3 dg Hx Hset Hrm Hdata Hdg len Hdw Hrw) as [g3 [Hadd Hrun1]].
  rewrite nodump, Hrun in Hrun1. injection Hrun1 as -> -> ->.
  destruct (sites_target_and_gradients_run C (evaluated self a xrs) m x a xrs
              rt dt dw rw rg dg3 dg Hx) as [g3' [Hadd' Hrun2]];
    try assumption.
  - exact (set_sites_cart_again _ _ _ Hset).
  - change (sites.weights (evaluated self a xrs)) with (sites.weights self)
      in Hadd', Hrun2.
    change (sites.dump_gradients (evaluated self a xrs))
      with (sites.dump_gradients self) in Hrun2.
    rewrite nodump in Hrun2. rewrite Hadd in Hadd'. injection Hadd' as <-.
    exact Hrun2.
Qed.

Lemma sites_target_and_gradients_twice_witness :
  let fm := scripted.model [scripted.carbon 0 0 0]
                           (scripted.unit_gradients (21 / 100) (25 / 100)) in
  let rm := scripted.with_bond_rmsd (1 / 100) in
  let self := scripted.calculator fm rm 0%nat None in
  let m := scripted.store_of (weights.__init__ true (Some 1) (Some 2) 3) in
  exists (v : R * flex.double) (s' : sites.state),
    sites.target_and_gradients (C := scripted.collaborators) [1; 2; 3] (self, m)
    = Return v s'
    /\ sites.target_and_gradients (C := scripted.collaborators) [1; 2; 3] s'
       = Return v s'.
Proof.
  intros fm rm self m.
  destruct (sites_target_and_gradients_run
              scripted.collaborators self m [1; 2; 3] [(1, 2, 3)]
              [scripted.carbon 1 2 3] 1 0 2 1 [(0, 1, 0)] [(1, 0, 0)] [1; 0; 0])
    as [g [_ Hrun]]; try reflexivity.
  change (sites.dump_gradients self) with (@None string) in Hrun.
  eexists (_, _), _. split; [exact Hrun |].
  exact (sites_target_and_gradients_twice _ _ _ _ _ _ _ Hrun).
Defined.

(** An evaluation that returns has written [x] into the structure of the
    fmodel: [x] holds three coordinates for every scatterer, the structure
    after the call is the one [set_sites_cart] makes of the old structure
    and [x], its hydrogen flags are unchanged, and the weights store is
    untouched. *)
Theorem sites_target_and_gradients_moves_structure :
  forall (C : cctbx) (self : sites.t) (m : weights.store) (x : flex.double)
         (t : R) (g : flex.double) (s' : sites.state),
    sites.target_and_gradients x (self, m) = Return (t, g) s' ->
    exists a : flex.vec3_double,
      flex.vec3_double_of x = Ok a
      /\ set_sites_cart (fm_xray_structure (sites.fmodel self)) a
         = Ok (fm_xray_structure (sites.fmodel (fst s')))
      /\ hd_selection (fm_xray_structure (sites.fmodel (fst s')))
         = hd_selection (fm_xray_structure (sites.fmodel self))
      /\ List.length x
         = (3 * List.length (fm_xray_structure (sites.fmodel self)))%nat
      /\ snd s' = m.
Proof.
  intros C self m x t g s' Hrun.
  destruct (sites_target_and_gradients_returns_only_when
              C self m x t g s' Hrun)
    as (nodump & a & xrs & rt & dt & dw & rw & rg & dg3 & dg
        & Hx & Hset & Hrm & Hdata & Hdg & len & Hdw & Hrw & Hm).
  destruct (sites_target_and_gradients_run C self m x a xrs rt dt dw rw rg
              dg3 dg Hx Hset Hrm Hdata Hdg len Hdw Hrw) as [g3 [_ Hrun1]].
  rewrite nodump, Hrun in Hrun1. injection Hrun1 as _ _ ->.
  destruct (set_sites_cart_spec _ _ _ Hset) as (Hs & Hh & Hl).
  exists a. split; [exact Hx |].
  cbn [fst snd evaluated sites.fmodel sites.set_fmodel sites.set_x
       update_xray_structure fm_xray_structure].
  split; [exact Hset |]. split; [exact Hh |].
  rewrite (vec3_double_of_size a x Hx), Hl. split; reflexivity.
Qed.

Lemma sites_target_and_gradients_moves_structure_witness :
  let fm := scripted.model [scripted.carbon 0 0 0]
                           (scripted.unit_gradients (21 / 100) (25 / 100)) in
  let rm := scripted.with_bond_rmsd (1 / 100) in
  let self := scripted.calculator fm rm 0%nat None in
  let m := scripted.store_of (weights.__init__ true (Some 1) (Some 2) 3) in
  exists (v : R * flex.double) (s' : sites.state),
    sites.target_and_gradients (C := scripted.collaborators) [1; 2; 3] (self, m)
    = Return v s'
    /\ snd s' = m.
Proof.
  intros fm rm self m.
  destruct (sites_target_and_gradients_run
              scripted.collaborators self m [1; 2; 3] [(1, 2, 3)]
              [scripted.carbon 1 2 3] 1 0 2 1 [(0, 1, 0)] [(1, 0, 0)] [1; 0; 0])
    as [g [_ Hrun]]; try reflexivity.
  change (sites.dump_gradients self) with (@None string) in Hrun.
  eexists (_, _), _. split; [exact Hrun |].
  destruct (sites_target_and_gradients_moves_structure _ _ _ _ _ _ _ Hrun)
    as (a & _ & _ & _ & _ & Hm).
  exact Hm.
Defined.

(** Without a data weight there is no target.  When the weights object
    holds no [data_weight] (none was provided and [calculate_weight] was not
    called), an evaluation whose evaluators answer raises [TypeError] at the
    first product, after the structure was moved to [x]; nothing is
    returned. *)
Theorem sites_target_and_gradients_needs_data_weight :
  forall (C : cctbx) (self : sites.t) (m : weights.store) (x : flex.double)
         (a : flex.vec3_double) (xrs : xray_structure)
         (rt dt : R) (rg dg3 : flex.vec3_double) (dg : flex.double),
    flex.vec3_double_of x = Ok a ->
    set_sites_cart (fm_xray_structure (sites.fmodel self)) a = Ok xrs ->
    rm_target_and_gradients (sites.restraints_manager self) a = Ok (rt, rg) ->
    target_functor (update_xray_structure (sites.fmodel self) xrs)
    = Ok (dt, dg) ->
    flex.vec3_double_of dg = Ok dg3 ->
    weights.data_weight (weights.objects m (sites.weights self)) = None ->
    sites.target_and_gradients x (self, m)
    = Raise (TypeError "unsupported operand type(s) for *")
            (evaluated self a xrs, m).
Proof.
  intros C self m x a xrs rt dt rg dg3 dg Hx Hset Hrm Hdata Hdg Hdw.
  unfold sites.target_and_gradients, sites.update, sites.self_x, sites.this,
    sites.assign, sites.in_store, sites.easy_pickle_dump, weights.deref,
    py.bind.
  rewrite Hx. cbn [py.lift py.ret fst snd sites.fmodel sites.set_x sites.x
                   sites.set_fmodel sites.restraints_manager sites.weights
                   sites.dump_gradients sites.sites_cart_of_x].
  rewrite Hset. cbn [py.lift py.ret fst snd sites.fmodel sites.set_x sites.x
                   sites.set_fmodel sites.restraints_manager sites.weights
                   sites.dump_gradients sites.sites_cart_of_x].
  rewrite Hrm. cbn [py.lift py.ret fst snd sites.fmodel sites.set_x sites.x
                   sites.set_fmodel sites.restraints_manager sites.weights
                   sites.dump_gradients sites.sites_cart_of_x].
  unfold update_xray_structure in *. cbn [fm_xray_structure fm_data] in *.
  rewrite Hdata. cbn [py.lift py.ret fst snd]. rewrite Hdg.
  cbn [py.lift py.ret fst snd]. rewrite Hdw. reflexivity.
Qed.

Lemma sites_target_and_gradients_needs_data_weight_witness :
  let fm := scripted.model [scripted.carbon 0 0 0]
                           (scripted.unit_gradients (21 / 100) (25 / 100)) in
  let rm := scripted.with_bond_rmsd (1 / 100) in
  let self := scripted.calculator fm rm 0%nat None in
  let m := scripted.store_of (weights.__init__ true (Some 1) None 3) in
  weights.data_weight (weights.objects m 0%nat) = None
  /\ py.raised (sites.target_and_gradients (C := scripted.collaborators)
                  [1; 2; 3] (self, m))
     = Some (TypeError "unsupported operand type(s) for *").
Proof.
  intros fm rm self m. split; [reflexivity |].
  rewrite (sites_target_and_gradients_needs_data_weight
             scripted.collaborators self m [1; 2; 3] [(1, 2, 3)]
             [scripted.carbon 1 2 3] 1 0 [(0, 1, 0)] [(1, 0, 0)] [1; 0; 0]);
    reflexivity.
Defined.

(** A parameter vector of the wrong size is refused before any evaluation:
    when [x] does not hold three coordinates per scatterer, the call raises
    and leaves the fmodel and the weights store as they were. *)
Theorem sites_target_and_gradients_wrong_size :
  forall (C : cctbx) (self : sites.t) (m : weights.store) (x : flex.double),
    List.length x
    <> (3 * List.length (fm_xray_structure (sites.fmodel self)))%nat ->
    exists (e : py.exn) (s' : sites.state),
      sites.target_and_gradients x (self, m) = Raise e s'
      /\ sites.fmodel (fst s') = sites.fmodel self
      /\ snd s' = m.
Proof.
  intros C self m x Hsize.
  unfold sites.target_and_gradients, sites.update, sites.self_x, sites.this,
    sites.assign, sites.in_store, py.bind.
  destruct (flex.vec3_double_of x) as [a | e] eqn:Hx;
    cbn [py.lift py.ret py.raise fst snd sites.fmodel sites.set_x sites.x
         sites.set_fmodel].
  - destruct (set_sites_cart (fm_xray_structure (sites.fmodel self)) a)
      as [xrs | e] eqn:Hset;
      cbn [py.lift py.ret py.raise fst snd sites.fmodel sites.set_x sites.x
           sites.set_fmodel].
    + exfalso. apply Hsize.
      rewrite (vec3_double_of_size a x Hx).
      now destruct (set_sites_cart_spec _ _ _ Hset) as (_ & _ & ->).
    + do 2 eexists. repeat split.
  - do 2 eexists. repeat split.
Qed.

Lemma sites_target_and_gradients_wrong_size_witness :
  let fm := scripted.model [scripted.carbon 0 0 0]
                           (scripted.unit_gradients (21 / 100) (25 / 100)) in
  let rm := scripted.with_bond_rmsd (1 / 100) in
  let self := scripted.calculator fm rm 0%nat None in
  let m := scripted.store_of (weights.__init__ true (Some 1) (Some 2) 3) in
  List.length [1; 2; 3; 4; 5; 6]
  <> (3 * List.length (fm_xray_structure (sites.fmodel self)))%nat
  /\ exists (e : py.exn) (s' : sites.state),
       sites.target_and_gradients (C := scripted.collaborators)
         [1; 2; 3; 4; 5; 6] (self, m) = Raise e s'
       /\ sites.fmodel (fst s') = sites.fmodel self
       /\ snd s' = m.
Proof.
  intros fm rm self m.
  assert (H : List.length [1; 2; 3; 4; 5; 6]
              <> (3 * List.length (fm_xray_structure (sites.fmodel self)))%nat)
    by (cbn; lia).
  split; [exact H |].
  exact (sites_target_and_gradients_wrong_size
           scripted.collaborators self m [1; 2; 3; 4; 5; 6] H).
Defined.

(** ** The coordinate-only calculator *)

Lemma set_sites_cart_total :
  forall (xrs : xray_structure) (a : flex.vec3_double),
    List.length a = List.length xrs ->
    exists xrs' : xray_structure, set_sites_cart xrs a = Ok xrs'.
Proof.
  induction xrs as [| sc xrs IH]; intros [| v a] H; try discriminate H.
  - exists []. reflexivity.
  - injection H as H. destruct (IH a H) as [r Hr].
    eexists. cbn. rewrite Hr. reflexivity.
Qed.

(** The coordinate-only target is the restraints target alone, and an
    evaluation does not move the structure: [target_and_gradients] returns
    what the restraints manager answers at [x] and only records [x];
    [update_xray_structure] afterwards writes [x] into the structure, whose
    hydrogen flags are kept. *)
Theorem sites_opt_evaluate_then_update :
  forall (C : cctbx) (self : sites_opt.t) (m : weights.store)
         (x : flex.double) (a g : flex.vec3_double) (f : R),
    sites_opt.dump_gradients self = None ->
    flex.vec3_double_of x = Ok a ->
    rm_target_and_gradients (sites_opt.restraints_manager self) a = Ok (f, g) ->
    List.length a = List.length (sites_opt.xray_structure self) ->
    exists s1 s2 : sites_opt.state,
      sites_opt.target_and_gradients x (self, m)
      = Return (f, flex.as_double g) s1
      /\ sites_opt.xray_structure (fst s1) = sites_opt.xray_structure self
      /\ snd s1 = m
      /\ sites_opt.update_xray_structure s1 = Return tt s2
      /\ flex.as_double (sites_cart (sites_opt.xray_structure (fst s2))) = x
      /\ hd_selection (sites_opt.xray_structure (fst s2))
         = hd_selection (sites_opt.xray_structure self)
      /\ snd s2 = m.
Proof.
  intros C self m x a g f nodump Hx Hrm len.
  destruct (set_sites_cart_total _ _ len) as [xrs Hset].
  destruct (set_sites_cart_spec _ _ _ Hset) as (Hs & Hh & _).
  exists (sites_opt.set_x (Some x) self, m).
  exists (sites_opt.set_xray_structure xrs (sites_opt.set_x (Some x) self), m).
  split; [| split; [reflexivity | split; [reflexivity | split]]].
  - unfold sites_opt.target_and_gradients, sites_opt.update,
      sites_opt.self_sites, sites_opt.this, sites_opt.assign, py.bind.
    cbn [fst snd sites_opt.x sites_opt.set_x sites_opt.vec3_double_of_x
         sites_opt.restraints_manager sites_opt.dump_gradients].
    rewrite Hx.
    cbn [py.lift py.ret fst snd sites_opt.x sites_opt.set_x
         sites_opt.restraints_manager sites_opt.dump_gradients].
    rewrite Hrm.
    cbn [py.lift py.ret fst snd sites_opt.x sites_opt.set_x
         sites_opt.restraints_manager sites_opt.dump_gradients].
    now rewrite nodump.
  - unfold sites_opt.update_xray_structure, sites_opt.self_sites,
      sites_opt.this, sites_opt.assign, py.bind.
    cbn [fst snd sites_opt.x sites_opt.set_x sites_opt.vec3_double_of_x
         sites_opt.xray_structure].
    rewrite Hx.
    cbn [py.lift py.ret fst snd sites_opt.x sites_opt.set_x
         sites_opt.xray_structure].
    rewrite Hset. reflexivity.
  - cbn [fst snd sites_opt.xray_structure sites_opt.set_xray_structure].
    rewrite Hs, Hh, (vec3_double_of_as_double a x Hx). repeat split.
Qed.

Lemma sites_opt_evaluate_then_update_witness :
  let self := @sites_opt.Build_t scripted.collaborators None
                (scripted.with_bond_rmsd (1 / 100)) None
                [scripted.carbon 0 0 0; scripted.hydrogen 1 0 0] None in
  let m := scripted.store_of (weights.__init__ true (Some 1) None 1) in
  let x := [1; 2; 3; 4; 5; 6] in
  sites_opt.dump_gradients self = None
  /\ exists s1 s2 : sites_opt.state,
       sites_opt.target_and_gradients (C := scripted.collaborators) x (self, m)
       = Return (1, [0; 1; 0; 0; 1; 0]) s1
       /\ sites_opt.update_xray_structure s1 = Return tt s2
       /\ flex.as_double (sites_cart (sites_opt.xray_structure (fst s2))) = x.
Proof.
  intros self m x. split; [reflexivity |].
  destruct (sites_opt_evaluate_then_update
              scripted.collaborators self m x [(1, 2, 3); (4, 5, 6)]
              [(0, 1, 0); (0, 1, 0)] 1)
    as (s1 & s2 & H1 & _ & _ & H2 & H3 & _); try reflexivity.
  exists s1, s2. split; [exact H1 | split; [exact H2 | exact H3]].
Defined.

(** ** qr.create_calculator *)

(** A data weight given in the parameters freezes the weights of the
    calculator.  With [refine.data_weight] set, no weights passed in, site
    refinement in mode [refine] and an fmodel, [create_calculator] returns a
    site calculator whose new [weights] object holds the user's data weight,
    the restraints weight [1.0] and [weight_was_provided]; on it
    [calculate_weight] and [adjust_restraints_weight_scale] change
    nothing. *)
Theorem create_calculator_user_data_weight_is_kept :
  forall (C : cctbx) (fresh : weights.ref) (params : qr.params)
         (rm : restraints) (fm : f_model) (model : option xray_structure)
         (m : weights.store) (dw : R),
    qr.data_weight (qr.refine params) = Some dw ->
    qr.refine_sites (qr.refine params) = true ->
    qr.mode (qr.refine params) = "refine"%string ->
    exists (self : sites.t) (m' : weights.store),
      qr.create_calculator fresh None params rm (Some fm) model m
      = Return (Some (qr.Sites self)) m'
      /\ weights.objects m' (sites.weights self)
         = weights.__init__ (qr.shake_sites (qr.refine params)) (Some 1)
             (Some dw) (qr.restraints_weight_scale (qr.refine params))
      /\ sites.calculate_weight (self, m') = Return tt (self, m')
      /\ (forall (fmodel : f_model) (grm : geometry_rmsd_manager)
                 (max_bond_rmsd scale : R),
             weights.adjust_restraints_weight_scale
               (sites.weights self) fmodel grm max_bond_rmsd scale m'
             = Return None m').
Proof.
  intros C fresh params rm fm model m dw Hdw Hsites Hmode.
  unfold qr.create_calculator, qr.new_weights, qr.new_sites, sites.__init__,
    weights.update, py.bind, py.ret.
  rewrite Hdw, Hsites, Hmode. cbn [String.eqb Ascii.eqb Bool.eqb].
  cbn [sites.initialize].
  do 2 eexists. split; [reflexivity |].
  cbn [fst snd sites.weights sites.set_x sites.set_fmodel
       sites.set_not_hd_selection weights.objects].
  rewrite Nat.eqb_refl.
  split; [reflexivity |].
  split.
  - apply sites_calculate_weight_frozen.
    cbn [sites.weights weights.objects]. now rewrite Nat.eqb_refl.
  - intros fmodel grm max_bond_rmsd scale.
    apply adjust_restraints_weight_scale_frozen.
    cbn [weights.objects]. now rewrite Nat.eqb_refl.
Qed.

Lemma create_calculator_user_data_weight_is_kept_witness :
  let params :=
    {| qr.refine :=
         {| qr.shake_sites := false; qr.data_weight := Some 7;
            qr.restraints_weight_scale := 1; qr.refine_sites := true;
            qr.refine_adp := false; qr.mode := "refine" |};
       qr.dump_gradients := None |} in
  let fm := scripted.model [scripted.carbon 0 0 0]
                           (scripted.unit_gradients (21 / 100) (25 / 100)) in
  let m := scripted.store_of (weights.__init__ true None None 1) in
  qr.data_weight (qr.refine params) = Some 7
  /\ exists (self : sites.t) (m' : weights.store),
       qr.create_calculator (C := scripted.collaborators) 5%nat None params
         (scripted.with_bond_rmsd (1 / 100)) (Some fm) None m
       = Return (Some (qr.Sites self)) m'
       /\ weights.data_weight (weights.objects m' (sites.weights self)) = Some 7
       /\ sites.calculate_weight (self, m') = Return tt (self, m').
Proof.
  intros params fm m. split; [reflexivity |].
  destruct (create_calculator_user_data_weight_is_kept
              scripted.collaborators 5%nat params
              (scripted.with_bond_rmsd (1 / 100)) fm None m 7
              eq_refl eq_refl eq_refl)
    as (self & m' & Hrun & Hobj & Hcw & _).
  exists self, m'. split; [exact Hrun |]. split; [now rewrite Hobj | exact Hcw].
Defined.

(** Weights passed in (a restart) are reused: [create_calculator] then makes
    no [weights] object and leaves the store as it was, however it ends, and
    a site calculator it returns refers to the weights passed in. *)
Theorem create_calculator_reuses_weights :
  forall (C : cctbx) (fresh w : weights.ref) (params : qr.params)
         (rm : restraints) (fmodel : option f_model)
         (model : option xray_structure) (m : weights.store),
    let o := qr.create_calculator fresh (Some w) params rm fmodel model m in
    py.final_state o = m
    /\ (forall self : sites.t,
           py.returned o = Some (Some (qr.Sites self)) ->
           sites.weights self = w).
Proof.
  intros C fresh w params rm fmodel model m o. unfold o.
  unfold qr.create_calculator, qr.new_sites, qr.new_adp_with_weights,
    sites.__init__, sites_opt.__init__, py.bind, py.ret, py.raise.
  destruct (qr.refine_sites (qr.refine params)).
  - destruct (String.eqb (qr.mode (qr.refine params)) "refine").
    + destruct fmodel as [fm |]; cbn; split; try reflexivity; intros self H;
        [injection H as <-; reflexivity | discriminate H].
    + destruct model as [xrs |]; cbn; split; try reflexivity; intros self H;
        discriminate H.
  - destruct (qr.refine_adp (qr.refine params)); cbn; split;
      try reflexivity; intros self H; discriminate H.
Qed.

(** Without [refine_sites] no calculator is made.  If [refine_adp] is set
    the call of [calculator.adp] passes a keyword [weights] that
    [adp.__init__] does not have, and [create_calculator] raises
    [TypeError]; otherwise it returns [None]. *)
Theorem create_calculator_without_refine_sites :
  forall (C : cctbx) (fresh : weights.ref) (weights : option weights.ref)
         (params : qr.params) (rm : restraints) (fmodel : option f_model)
         (model : option xray_structure) (m : weights.store),
    qr.refine_sites (qr.refine params) = false ->
    let o := qr.create_calculator fresh weights params rm fmodel model m in
    if qr.refine_adp (qr.refine params)
    then py.raised o
         = Some (TypeError "__init__() got an unexpected keyword argument 'weights'")
    else py.returned o = Some None.
Proof.
  intros C fresh weights params rm fmodel model m Hsites o. unfold o.
  unfold qr.create_calculator, qr.new_weights, qr.new_adp_with_weights,
    weights.update, py.bind, py.ret, py.raise.
  rewrite Hsites.
  destruct (qr.refine_adp (qr.refine params)), weights; reflexivity.
Qed.

Lemma create_calculator_without_refine_sites_witness :
  let params :=
    {| qr.refine :=
         {| qr.shake_sites := false; qr.data_weight := None;
            qr.restraints_weight_scale := 1; qr.refine_sites := false;
            qr.refine_adp := true; qr.mode := "refine" |};
       qr.dump_gradients := None |} in
  let fm := scripted.model [scripted.carbon 0 0 0]
                           (scripted.unit_gradients (21 / 100) (25 / 100)) in
  let m := scripted.store_of (weights.__init__ true None None 1) in
  qr.refine_sites (qr.refine params) = false
  /\ py.raised
       (qr.create_calculator (C := scripted.collaborators) 5%nat None params
          (scripted.with_bond_rmsd (1 / 100)) (Some fm) None m)
     = Some (TypeError "__init__() got an unexpected keyword argument 'weights'").
Proof.
  intros params fm m. split; [reflexivity |].
  exact (create_calculator_without_refine_sites
           scripted.collaborators 5%nat None params
           (scripted.with_bond_rmsd (1 / 100)) (Some fm) None m eq_refl).
Defined.

(** ** restraints.from_cctbx *)

Lemma mul_each_spec :
  forall (g : flex.vec3_double) (scales : list R),
    List.length g = List.length scales ->
    exists r : flex.vec3_double,
      from_cctbx.mul_each g scales = Ok r
      /\ List.length r = List.length g
      /\ forall (i : nat) (v : flex.vec3) (c : R),
           nth_error g i = Some v ->
           nth_error scales i = Some c ->
           nth_error r i
           = Some (let '(x, y, z) := v in (x * c, y * c, z * c)).
Proof.
  induction g as [| v g IH]; intros [| c scales] len; try discriminate len.
  - exists []. repeat split. intros [| i] v c H; discriminate H.
  - injection len as len. destruct (IH scales len) as (r & Hr & Hl & Hn).
    eexists. cbn [from_cctbx.mul_each]. rewrite Hr. cbn [py.rbind].
    split; [reflexivity |]. split; [cbn; now rewrite Hl |].
    intros [| i] v' c' Hv Hc; cbn in *.
    + injection Hv as <-. injection Hc as <-. reflexivity.
    + exact (Hn i v' c' Hv Hc).
Qed.

Lemma mul_each_sizes :
  forall (g r : flex.vec3_double) (scales : list R),
    from_cctbx.mul_each g scales = Ok r ->
    List.length g = List.length scales.
Proof.
  induction g as [| v g IH]; intros r [| c scales] H; cbn in H;
    try discriminate; [reflexivity |].
  destruct (from_cctbx.mul_each g scales) as [r' |] eqn:E; [| discriminate].
  cbn. f_equal. exact (IH r' scales E).
Qed.

(** The gradients of a cluster.  In the clustering path the returned
    gradients are the first [selection.count(True)] gradients of the super
    sphere, each multiplied by the scale of its atom: one gradient per
    selected atom, when the super sphere has at least that many atoms and
    the fragment has one scale per selected atom.  The target is the one of
    the super sphere. *)
Theorem from_cctbx_cluster_gradients :
  forall (G : from_cctbx.geometry) (self : from_cctbx.t)
         (sites_cart : flex.vec3_double) (selection : flex.bool) (index : nat)
         (fe : from_cctbx.fragment_extracts_t) (super_selection : flex.bool)
         (target : R) (gradients : flex.vec3_double) (scales : list R),
    from_cctbx.fragment_extracts self = Some fe ->
    nth_error (from_cctbx.fragment_super_selections fe) index
    = Some super_selection ->
    from_cctbx.energies_sites
      (from_cctbx.select
         (from_cctbx.super_sphere_geometry_restraints_manager fe)
         super_selection)
      (flex.select sites_cart super_selection) = Ok (target, gradients) ->
    nth_error (from_cctbx.fragment_scales fe) index = Some scales ->
    (from_cctbx.count_true selection <= List.length gradients)%nat ->
    List.length scales = from_cctbx.count_true selection ->
    exists g : flex.vec3_double,
      from_cctbx.target_and_gradients self sites_cart (Some selection)
        (Some index) = Ok (target, g)
      /\ List.length g = from_cctbx.count_true selection
      /\ forall (i : nat) (v : flex.vec3) (c : R),
           (i < from_cctbx.count_true selection)%nat ->
           nth_error gradients i = Some v ->
           nth_error scales i = Some c ->
           nth_error g i
           = Some (let '(x, y, z) := v in (x * c, y * c, z * c)).
Proof.
  intros G self sites_cart selection index fe super_selection target gradients
    scales Hfe Hsuper Hes Hscales Hcount Hlen.
  unfold from_cctbx.target_and_gradients, from_cctbx.getitem.
  rewrite Hfe, Hsuper. cbn [py.rbind]. rewrite Hes. cbn [py.rbind snd fst].
  rewrite Hscales. cbn [py.rbind].
  destruct (mul_each_spec
              (firstn (from_cctbx.count_true selection) gradients) scales)
    as (g & Hg & Hl & Hn).
  { rewrite length_firstn, Hlen. lia. }
  exists g. rewrite Hg. cbn [py.rbind]. split; [reflexivity |].
  split.
  - rewrite Hl, length_firstn. lia.
  - intros i v c Hi Hv Hc. apply Hn; [| exact Hc].
    rewrite nth_error_firstn.
    destruct (Nat.ltb_spec i (from_cctbx.count_true selection)); [exact Hv | lia].
Qed.

Lemma from_cctbx_cluster_gradients_witness :
  let grm : from_cctbx.manager (geometry := scripted_geometry) :=
    fun sites => Ok (5, map (fun _ => (1, 2, 3)) sites) in
  let fe := @from_cctbx.Build_fragment_extracts_t scripted_geometry
              [[true; true; true]] grm [[2; 1 / 2]] in
  let self := from_cctbx.__init__ grm (Some fe) "tmp.pdb" in
  let sites := [(0, 0, 0); (1, 0, 0); (2, 0, 0)] in
  from_cctbx.fragment_extracts self = Some fe
  /\ List.length [2; 1 / 2] = from_cctbx.count_true [true; true; false]
  /\ exists g : flex.vec3_double,
       from_cctbx.target_and_gradients self sites (Some [true; true; false])
         (Some 0%nat) = Ok (5, g)
       /\ List.length g = 2%nat.
Proof.
  intros grm fe self sites.
  split; [reflexivity | split; [reflexivity |]].
  destruct (from_cctbx_cluster_gradients scripted_geometry self sites
              [true; true; false] 0%nat fe [true; true; true] 5
              [(1, 2, 3); (1, 2, 3); (1, 2, 3)] [2; 1 / 2])
    as (g & Hrun & Hlen & _); try reflexivity.
  - cbn. lia.
  - exists g. split; [exact Hrun | exact Hlen].
Defined.

(** A cluster never gets more gradients than it has selected atoms: when
    the clustering path returns, the gradients are as many as the scales of
    the fragment and at most [selection.count(True)]. *)
Theorem from_cctbx_cluster_returns_at_most_selected :
  forall (G : from_cctbx.geometry) (self : from_cctbx.t)
         (sites_cart : flex.vec3_double) (selection : flex.bool)
         (index : option nat) (target : R) (g : flex.vec3_double),
    from_cctbx.target_and_gradients self sites_cart (Some selection) index
    = Ok (target, g) ->
    (List.length g <= from_cctbx.count_true selection)%nat
    /\ exists (fe : from_cctbx.fragment_extracts_t) (scales : list R),
         from_cctbx.fragment_extracts self = Some fe
         /\ from_cctbx.getitem (from_cctbx.fragment_scales fe) index = Ok scales
         /\ List.length g = List.length scales.
Proof.
  intros G self sites_cart selection index target g.
  unfold from_cctbx.target_and_gradients.
  destruct (from_cctbx.fragment_extracts self) as [fe |]; [| discriminate].
  destruct (from_cctbx.getitem (from_cctbx.fragment_super_selections fe) index)
    as [super |]; cbn [py.rbind]; [| discriminate].
  destruct (from_cctbx.energies_sites _ _) as [[t gradients] |];
    cbn [py.rbind fst snd]; [| discriminate].
  destruct (from_cctbx.getitem (from_cctbx.fragment_scales fe) index)
    as [scales |] eqn:Hscales; cbn [py.rbind]; [| discriminate].
  destruct (from_cctbx.mul_each _ scales) as [r |] eqn:Hmul;
    cbn [py.rbind]; [| discriminate].
  intros H. injection H as _ Hg. subst r.
  pose proof (mul_each_sizes _ _ _ Hmul) as Hsize.
  destruct (mul_each_spec _ _ Hsize) as (r' & Hr' & Hl & _).
  rewrite Hmul in Hr'. injection Hr' as Hg. subst r'.
  split.
  - rewrite Hl, length_firstn. lia.
  - exists fe, scales.
    split; [reflexivity | split; [exact Hscales | now rewrite Hl]].
Qed.

Lemma from_cctbx_cluster_returns_at_most_selected_witness :
  let grm : from_cctbx.manager (geometry := scripted_geometry) :=
    fun sites => Ok (5, map (fun _ => (1, 2, 3)) sites) in
  let fe := @from_cctbx.Build_fragment_extracts_t scripted_geometry
              [[true; true; true]] grm [[2; 1 / 2]] in
  let self := from_cctbx.__init__ grm (Some fe) "tmp.pdb" in
  let sites := [(0, 0, 0); (1, 0, 0); (2, 0, 0)] in
  exists (t : R) (g : flex.vec3_double),
    from_cctbx.target_and_gradients self sites (Some [true; true; false])
      (Some 0%nat) = Ok (t, g)
    /\ (List.length g <= from_cctbx.count_true [true; true; false])%nat.
Proof.
  intros grm fe self sites.
  eexists _, _. split; [reflexivity |].
  refine (proj1 (from_cctbx_cluster_returns_at_most_selected
                   scripted_geometry self sites [true; true; false]
                   (Some 0%nat) _ _ eq_refl)).
Defined.

(** ** completion.py: distances and bond vectors *)

Lemma d_squared_unfold (p q : flex.vec3) :
  completion.d_squared p q
  = let '(x, y, z) := p in
    let '(x', y', z') := q in
    (x' - x) ^ 2 + (y' - y) ^ 2 + (z' - z) ^ 2.
Proof.
  destruct p as [[x y] z], q as [[x' y'] z'].
  unfold completion.d_squared. cbn [seq fold_left completion.component]. ring.
Qed.

Lemma square_zero (a : R) : a ^ 2 = 0 -> a = 0.
Proof.
  intros H. replace (a ^ 2) with (a * a) in H by ring.
  destruct (Rmult_integral a a H); assumption.
Qed.

Lemma three_squares_nonneg (a b c : R) : 0 <= a ^ 2 + b ^ 2 + c ^ 2.
Proof.
  pose proof (pow2_ge_0 a). pose proof (pow2_ge_0 b). pose proof (pow2_ge_0 c).
  lra.
Qed.

Lemma three_squares_zero (a b c : R) :
  a ^ 2 + b ^ 2 + c ^ 2 = 0 -> a = 0 /\ b = 0 /\ c = 0.
Proof.
  intros H.
  pose proof (pow2_ge_0 a). pose proof (pow2_ge_0 b). pose proof (pow2_ge_0 c).
  repeat split; apply square_zero; lra.
Qed.

(** [d_squared] is a squared distance: symmetric, never negative, and zero
    exactly for equal positions. *)
Theorem d_squared_is_a_squared_distance :
  forall p q : flex.vec3,
    completion.d_squared p q = completion.d_squared q p
    /\ 0 <= completion.d_squared p q
    /\ (completion.d_squared p q = 0 <-> p = q).
Proof.
  intros p q. rewrite !d_squared_unfold.
  destruct p as [[x y] z], q as [[x' y'] z'].
  split; [ring | split; [apply three_squares_nonneg | split]].
  - intros H. destruct (three_squares_zero _ _ _ H) as (Hx & Hy & Hz).
    f_equal; [f_equal |]; lra.
  - intros H. injection H as -> -> ->. ring.
Qed.

Lemma get_bond_vector_plain (a1 a2 : completion.atom) :
  completion.get_bond_vector a1 a2 false
  = Ok (matrix.sub (completion.xyz a1) (completion.xyz a2)).
Proof.
  unfold completion.get_bond_vector.
  destruct (completion.xyz a1) as [[x y] z], (completion.xyz a2) as [[x' y'] z'].
  reflexivity.
Qed.

(** The unit bond vector.  For atoms at different positions
    [get_bond_vector(a1, a2, unit=True)] returns the vector from [a2] to
    [a1] divided by the distance of the atoms, a vector of length one; for
    atoms at the same position the division raises [ZeroDivisionError].
    Without [unit] the difference of the positions is returned. *)
Theorem get_bond_vector_unit :
  forall a1 a2 : completion.atom,
    let d := R_sqrt.sqrt
               (completion.d_squared (completion.xyz a2) (completion.xyz a1)) in
    completion.get_bond_vector a1 a2 false
    = Ok (matrix.sub (completion.xyz a1) (completion.xyz a2))
    /\ (completion.xyz a1 = completion.xyz a2 ->
        completion.get_bond_vector a1 a2 true = Err ZeroDivisionError)
    /\ (completion.xyz a1 <> completion.xyz a2 ->
        exists v : flex.vec3,
          completion.get_bond_vector a1 a2 true = Ok v
          /\ matrix.rmul d v
             = matrix.sub (completion.xyz a1) (completion.xyz a2)
          /\ matrix.norm_sq v = 1).
Proof.
  intros a1 a2 d. split; [apply get_bond_vector_plain |].
  unfold d. rewrite d_squared_unfold.
  unfold completion.get_bond_vector.
  destruct (completion.xyz a1) as [[x y] z], (completion.xyz a2) as [[x' y'] z'].
  cbn [seq map fold_left completion.component nth].
  replace (0 + (x - x') ^ 2 + (y - y') ^ 2 + (z - z') ^ 2)
    with ((x - x') ^ 2 + (y - y') ^ 2 + (z - z') ^ 2) by ring.
  set (l2 := (x - x') ^ 2 + (y - y') ^ 2 + (z - z') ^ 2).
  assert (Hl2 : 0 <= l2) by apply three_squares_nonneg.
  split.
  - intros H. injection H as -> -> ->.
    assert (Hz : l2 = 0) by (unfold l2; ring).
    rewrite Hz, sqrt_0. unfold py.div.
    destruct (Req_dec_T 0 0) as [_ | N]; [reflexivity | contradiction].
  - intros Hne.
    assert (Hpos : 0 < l2).
    { destruct (Rle_lt_or_eq_dec 0 l2 Hl2) as [H | H]; [exact H |].
      exfalso. apply Hne. unfold l2 in H. symmetry in H.
      destruct (three_squares_zero _ _ _ H) as (Hx & Hy & Hz).
      f_equal; [f_equal |]; lra. }
    pose proof (sqrt_lt_R0 l2 Hpos) as Hs.
    pose proof (sqrt_sqrt l2 Hl2) as Hss.
    unfold py.div.
    destruct (Req_dec_T (R_sqrt.sqrt l2) 0) as [E | _]; [lra |].
    cbn [py.rbind app].
    eexists. split; [reflexivity |].
    unfold matrix.rmul, matrix.sub, matrix.norm_sq, matrix.dot.
    split.
    + f_equal; [f_equal |]; field; lra.
    + transitivity (((x - x') ^ 2 + (y - y') ^ 2 + (z - z') ^ 2)
                    / (R_sqrt.sqrt l2 * R_sqrt.sqrt l2)); [field; lra |].
      rewrite Hss. change (l2 / l2 = 1). field. lra.
Qed.

(** ** completion.py: the positions of added atoms *)











Lemma normalize_fails_by_division (v : matrix.col) (e : py.exn) :
  matrix.normalize v = Err e -> e = ZeroDivisionError.
Proof.
  destruct v as [[x y] z].
  unfold matrix.normalize, matrix.div, py.div.
  destruct (Req_dec_T (matrix.abs (x, y, z)) 0); cbn [py.rbind];
    [| discriminate].
  intros H. now injection H.
Qed.

Lemma normalize_zero : matrix.normalize (0, 0, 0) = Err ZeroDivisionError.
Proof.
  unfold matrix.normalize, matrix.div, py.div, matrix.abs, matrix.norm_sq,
    matrix.dot.
  replace (0 * 0 + 0 * 0 + 0 * 0) with 0 by ring. rewrite sqrt_0.
  destruct (Req_dec_T 0 0) as [_ | H]; [reflexivity | contradiction].
Qed.

(** [construct_xyz] and coinciding atoms.  When the atom [aa] has the
    position of [ba] or of [da], a bond vector is zero, its normalisation
    divides by zero, and the function raises [ZeroDivisionError]; it returns
    no position. *)
Theorem construct_xyz_coinciding_atoms :
  forall (ba aa da : completion.atom) (bv av dv : R) (period : nat),
    completion.xyz ba = completion.xyz aa
    \/ completion.xyz da = completion.xyz aa ->
    completion.construct_xyz (Some ba) bv (Some aa) av (Some da) dv period
    = Err ZeroDivisionError.
Proof.
  intros ba aa da bv av dv period H.
  unfold completion.construct_xyz.
  destruct (matrix.normalize
              (matrix.sub (completion.xyz ba) (completion.xyz aa)))
    as [e0 | e] eqn:H0; cbn [py.rbind].
  - destruct H as [H | H].
    + exfalso. rewrite H in H0.
      destruct (completion.xyz aa) as [[x y] z].
      unfold matrix.sub in H0.
      replace (x - x) with 0 in H0 by ring.
      replace (y - y) with 0 in H0 by ring.
      replace (z - z) with 0 in H0 by ring.
      rewrite normalize_zero in H0. discriminate.
    + rewrite H.
      destruct (completion.xyz aa) as [[x y] z], e0 as [[a0 b0] c0].
      unfold matrix.sub, matrix.dot, matrix.rmul.
      replace (x - x) with 0 by ring.
      replace (y - y) with 0 by ring.
      replace (z - z) with 0 by ring.
      replace (0 - (0 * a0 + 0 * b0 + 0 * c0) * a0) with 0 by ring.
      replace (0 - (0 * a0 + 0 * b0 + 0 * c0) * b0) with 0 by ring.
      replace (0 - (0 * a0 + 0 * b0 + 0 * c0) * c0) with 0 by ring.
      rewrite normalize_zero. reflexivity.
  - now rewrite (normalize_fails_by_division _ _ H0).
Qed.

Lemma construct_xyz_coinciding_atoms_witness :
  let ba := {| completion.name := " N  "; completion.element := "N";
               completion.xyz := (0, 0, 0); completion.occ := 1;
               completion.b := 20; completion.tmp := 0%Z |} in
  let aa := {| completion.name := " CA "; completion.element := "C";
               completion.xyz := (1, 0, 0); completion.occ := 1;
               completion.b := 20; completion.tmp := 0%Z |} in
  let da := {| completion.name := " C  "; completion.element := "C";
               completion.xyz := (1, 0, 0); completion.occ := 1;
               completion.b := 20; completion.tmp := 0%Z |} in
  completion.construct_xyz (Some ba) (9 / 10) (Some aa) (219 / 2) (Some da)
    120 3 = Err ZeroDivisionError.
Proof.
  intros ba aa da.
  apply (construct_xyz_coinciding_atoms ba aa da (9 / 10) (219 / 2) 120 3).
  right. reflexivity.
Defined.


(* --------------------------------------------------------------------- *)
(** ** completion.py: the HG of a cysteine *)
(* --------------------------------------------------------------------- *)

Lemma strip_HG : completion.strip " HG " = "HG"%string.
Proof. reflexivity. Qed.


(** Atom groups that are no cysteine, or have an HG already, are passed
    over. *)
Lemma add_cys_hg_to_atom_groups_passes
  {H : completion.iotbx} (letters : string) (append : Datatypes.bool)
  (pre rest : list completion.atom_group) :
  Forall (fun g => completion.resname g <> "CYS"%string
                   \/ completion.get_atom g "HG" <> None) pre ->
  forall rc,
    completion.add_cys_hg_to_atom_groups letters (pre ++ rest) append rc
    = (pre ++ fst (completion.add_cys_hg_to_atom_groups letters rest append rc),
       snd (completion.add_cys_hg_to_atom_groups letters rest append rc)).
Proof.
  induction 1 as [| g pre Hg Hpre IH]; intros rc.
  - cbn [app]. now destruct (completion.add_cys_hg_to_atom_groups _ _ _ _).
  - cbn [app completion.add_cys_hg_to_atom_groups].
    destruct (String.eqb (completion.resname g) "CYS") eqn:Hres; cbn [negb].
    + apply String.eqb_eq in Hres.
      destruct Hg as [Hg | Hg]; [contradiction |].
      unfold completion.add_cys_hg_to_atom_group. rewrite strip_HG.
      destruct (completion.get_atom g "HG"); [| contradiction].
      rewrite app_nil_r, IH. reflexivity.
    + rewrite IH. reflexivity.
Qed.

(** A cysteine without HG that lacks SG, CB or CA: the atom-group function
    returns [None], which the loop over the residue group cannot add to its
    list, and [add_cys_hg_to_residue_group] raises [TypeError]; no atom
    group has changed. *)
Theorem add_cys_hg_to_residue_group_incomplete_cys :
  forall {H : completion.iotbx} (letters : string)
         (pre post : list completion.atom_group) (ag : completion.atom_group)
         (append_to_end_of_model : Datatypes.bool),
    Forall (fun g => completion.resname g <> "CYS"%string
                     \/ completion.get_atom g "HG" <> None) pre ->
    completion.resname ag = "CYS"%string ->
    completion.get_atom ag "HG" = None ->
    completion.get_atom ag "SG" = None
    \/ completion.get_atom ag "CB" = None
    \/ completion.get_atom ag "CA" = None ->
    completion.add_cys_hg_to_residue_group letters (pre ++ ag :: post)
      append_to_end_of_model
    = (pre ++ ag :: post,
       Err (TypeError "'NoneType' object is not iterable")).
Proof.
  intros H letters pre post ag append Hpre Hres Hhg Hmissing.
  unfold completion.add_cys_hg_to_residue_group.
  rewrite (add_cys_hg_to_atom_groups_passes letters append pre _ Hpre).
  cbn [completion.add_cys_hg_to_atom_groups].
  rewrite Hres. cbn [String.eqb Ascii.eqb Bool.eqb negb].
  assert (Hnone : completion.add_cys_hg_to_atom_group letters ag append
                  = (ag, Ok None)).
  { unfold completion.add_cys_hg_to_atom_group. rewrite strip_HG, Hhg.
    destruct Hmissing as [Hsg | [Hcb | Hca]].
    - now rewrite Hsg.
    - rewrite Hcb. now destruct (completion.get_atom ag "SG").
    - rewrite Hca.
      now destruct (completion.get_atom ag "SG"),
                   (completion.get_atom ag "CB"). }
  rewrite Hnone. reflexivity.
Qed.

Lemma add_cys_hg_to_residue_group_incomplete_cys_witness :
  let n := {| completion.name := " N  "; completion.element := "N";
              completion.xyz := (0, 0, 0); completion.occ := 1;
              completion.b := 20; completion.tmp := 0%Z |} in
  let gly := {| sag_resname := "GLY"; sag_atoms := [n];
                sag_resseq := "   1"; sag_chain := "A" |} in
  let cys := {| sag_resname := "CYS"; sag_atoms := [n];
                sag_resseq := "   2"; sag_chain := "A" |} in
  @completion.add_cys_hg_to_residue_group scripted_hierarchy
    "abcdefghijklmnopqrstuvwxyzABCDEFGHIJKLMNOPQRSTUVWXYZ" [gly; cys] false
  = ([gly; cys], Err (TypeError "'NoneType' object is not iterable")).
Proof.
  intros n gly cys.
  apply (@add_cys_hg_to_residue_group_incomplete_cys scripted_hierarchy
           "abcdefghijklmnopqrstuvwxyzABCDEFGHIJKLMNOPQRSTUVWXYZ"
           [gly] [] cys false).
  - constructor; [| constructor]. left. cbn. discriminate.
  - reflexivity.
  - reflexivity.
  - left. reflexivity.
Defined.



(* --------------------------------------------------------------------- *)
(** ** completion.py: the chain of an atom added at the end of the model *)
(* --------------------------------------------------------------------- *)

(** The index the loop over the letters leaves. *)
Lemma enumerate_until_spec (id : string) :
  forall (cs : list Ascii.ascii) (i : nat) (bound : option nat) (k : nat),
    cs <> [] ->
    completion.enumerate_until cs i id bound = Some k ->
    (i <= k < i + List.length cs)%nat
    /\ ((exists c, id = String c EmptyString /\ In c cs) ->
        exists c, id = String c EmptyString
                  /\ nth_error cs (k - i) = Some c)
    /\ (~ (exists c, id = String c EmptyString /\ In c cs) ->
        k = (i + List.length cs - 1)%nat).
Proof.
  induction cs as [| c cs IH]; intros i bound k Hne Hrun; [contradiction |].
  cbn [completion.enumerate_until] in Hrun.
  destruct (String.eqb (String c EmptyString) id) eqn:Hc.
  - apply String.eqb_eq in Hc. injection Hrun as <-.
    cbn [List.length]. split; [lia |]. split.
    + intros _. exists c. rewrite Nat.sub_diag. split; [now symmetry |].
      reflexivity.
    + intros Hno. exfalso. apply Hno. exists c. split; [now symmetry |].
      now left.
  - apply String.eqb_neq in Hc.
    destruct cs as [| c' cs].
    + cbn in Hrun. injection Hrun as <-. cbn [List.length].
      split; [lia |]. split; [| intros _; lia].
      intros [d [Hid [Hd | []]]]. subst d. now subst id.
    + assert (Hne' : c' :: cs <> []) by discriminate.
      destruct (IH (S i) (Some i) k Hne' Hrun) as (Hk & Hin & Hout).
      cbn [List.length] in *. split; [lia |]. split.
      * intros [d [Hid Hd]].
        destruct Hd as [Hd | Hd]; [subst d; now subst id |].
        destruct Hin as [e [He Hnth]]; [now exists d |].
        exists e. split; [exact He |].
        replace (k - i)%nat with (S (k - S i)) by lia. exact Hnth.
      * intros Hno.
        rewrite Hout; [lia |].
        intros [d [Hid Hd]]. apply Hno. exists d. split; [exact Hid |].
        now right.
Qed.

(** The chain an added atom remembers.  The residue group
    [_add_atom_to_residue_group] builds holds the atom alone, with [tmp] set
    to an index into the letters: where the chain id of the atom group is a
    letter, [letters[tmp]] (the id [_add_atoms_to_end_of_hierarchy] gives
    the new chain) is that chain id; for every other chain id the index is
    that of the last letter. *)
Theorem added_atom_remembers_chain_letter :
  forall {H : completion.iotbx} (letters : string) (atom : completion.atom)
         (ag : completion.atom_group) (rg : completion.new_residue_group),
    completion._add_atom_to_residue_group letters atom ag = Ok rg ->
    exists (id : string) (i : Z),
      completion.chain_id ag = Ok id
      /\ completion.rg_atoms rg = [completion.set_tmp atom i]
      /\ ((exists c, id = String c EmptyString
                     /\ In c (list_ascii_of_string letters)) ->
          completion.getitem letters i = Ok id)
      /\ (~ (exists c, id = String c EmptyString
                       /\ In c (list_ascii_of_string letters)) ->
          completion.getitem letters i = completion.getitem letters (-1)).
Proof.
  intros H letters atom ag rg Hrun.
  unfold completion._add_atom_to_residue_group in Hrun.
  destruct (completion.parent_resseq ag) as [resseq | e];
    cbn [py.rbind] in Hrun; [| discriminate].
  destruct (list_ascii_of_string letters) as [| c cs] eqn:Hcs;
    [discriminate |].
  destruct (completion.chain_id ag) as [id | e];
    cbn [py.rbind] in Hrun; [| discriminate].
  destruct (completion.enumerate_until (c :: cs) 0 id None) as [k |] eqn:Hk;
    [| discriminate].
  injection Hrun as <-.
  assert (Hne : c :: cs <> []) by discriminate.
  destruct (enumerate_until_spec id (c :: cs) 0 None k Hne Hk)
    as (Hrange & Hin & Hout).
  exists id, (Z.of_nat k). split; [reflexivity |].
  split; [reflexivity |].
  unfold completion.getitem. rewrite Hcs.
  assert (Hlt : (Z.of_nat k <? 0)%Z = false) by (apply Z.ltb_ge; lia).
  assert (Hge : (0 <=? Z.of_nat k)%Z = true) by (apply Z.leb_le; lia).
  assert (Hlen : (Z.of_nat k <? Z.of_nat (List.length (c :: cs)))%Z = true)
    by (apply Z.ltb_lt; lia).
  rewrite Hlt, Hge, Hlen, Nat2Z.id. cbn [andb].
  split.
  - intros Hocc. destruct (Hin Hocc) as [d [Hid Hnth]].
    rewrite Nat.sub_0_r in Hnth. rewrite Hnth. now subst id.
  - intros Hno. rewrite (Hout Hno).
    assert (Hneg : (-1 <? 0)%Z = true) by reflexivity.
    rewrite Hneg.
    assert (Hge' : (0 <=? -1 + Z.of_nat (List.length (c :: cs)))%Z = true)
      by (apply Z.leb_le; cbn [List.length]; lia).
    assert (Hlen' : (-1 + Z.of_nat (List.length (c :: cs))
                     <? Z.of_nat (List.length (c :: cs)))%Z = true)
      by (apply Z.ltb_lt; lia).
    rewrite Hge', Hlen'. cbn [andb].
    replace (Z.to_nat (-1 + Z.of_nat (List.length (c :: cs))))
      with (0 + List.length (c :: cs) - 1)%nat by (cbn [List.length]; lia).
    reflexivity.
Qed.

Lemma added_atom_remembers_chain_letter_witness :
  let letters := "abcdefghijklmnopqrstuvwxyzABCDEFGHIJKLMNOPQRSTUVWXYZ"%string in
  let hg := {| completion.name := " HG "; completion.element := "H";
               completion.xyz := (0, 0, 0); completion.occ := 1;
               completion.b := 20; completion.tmp := 0%Z |} in
  let cys := {| sag_resname := "CYS"; sag_atoms := [];
                sag_resseq := "   2"; sag_chain := "B" |} in
  exists (id : string) (i : Z),
    @completion.chain_id scripted_hierarchy cys = Ok id
    /\ completion.getitem letters i = Ok id.
Proof.
  intros letters hg cys.
  destruct (@added_atom_remembers_chain_letter scripted_hierarchy letters hg
              cys
              {| completion.rg_resseq := "   2";
                 completion.rg_atom_groups :=
                   [{| completion.tag_resname := "CYS";
                       completion.tag_atoms :=
                         [completion.set_tmp hg 27%Z] |}] |})
    as (id & i & Hid & _ & Hin & _).
  - reflexivity.
  - exists id, i. split; [exact Hid |]. apply Hin.
    cbn in Hid. injection Hid as <-.
    eexists. split; [reflexivity |]. cbn. tauto.
Defined.

(* --------------------------------------------------------------------- *)
(** ** restraints.from_qm *)
(* --------------------------------------------------------------------- *)

Lemma name_is_outside
  {A : from_qm.ase} (self : from_qm.t) (names : list string) (name : string) :
  ~ In (from_qm.qm_engine_name self) (map Some names) ->
  In name names ->
  from_qm.name_is self name = false.
Proof.
  intros Hout Hin. unfold from_qm.name_is.
  destruct (from_qm.qm_engine_name self) as [n |]; [| reflexivity].
  destruct (String.eqb n name) eqn:E; [| reflexivity].
  apply String.eqb_eq in E. subst n. exfalso. apply Hout.
  now apply in_map.
Qed.

(** The engines [target_and_gradients] works with.  For an engine name other
    than terachem, mopac, gaussian, orca and turbomole (pyscf, which
    [create_qm_engine] makes a calculator for, is such a name) the method
    raises, and the calculator is as it was: no QM program has run.  Without
    clustering it raises [AssertionError], after the sites of the hierarchy
    were set and the pdb file was written. *)
Theorem from_qm_target_and_gradients_other_engines :
  forall {A : from_qm.ase} (self : from_qm.t) (sites_cart : flex.vec3_double)
         (selection : option flex.bool) (index : option nat)
         (s : from_qm.state),
    ~ In (from_qm.qm_engine_name self)
         (map Some ["terachem"; "mopac"; "gaussian"; "orca"; "turbomole"]%string) ->
    (exists (e : exn) (s' : from_qm.state),
       from_qm.target_and_gradients self sites_cart selection index s
       = Raise e s'
       /\ from_qm.qm_engine s' = from_qm.qm_engine s)
    /\ (from_qm.clustering self = false ->
        forall (ph : from_qm.hierarchy) (w1 w2 : from_qm.world),
          from_qm.atoms_set_xyz (from_qm.pdb_hierarchy s) sites_cart
            (from_qm.the_world s) = Return ph w1 ->
          from_qm.write_pdb_file ph (from_qm.file_name self) w1
          = Return tt w2 ->
          from_qm.target_and_gradients self sites_cart selection index s
          = Raise AssertionError
              {| from_qm.pdb_hierarchy := ph;
                 from_qm.qm_engine := from_qm.qm_engine s;
                 from_qm.the_world := w2 |}).
Proof.
  intros A self sites_cart selection index s Hout.
  assert (Hn : forall name,
             In name ["terachem"; "mopac"; "gaussian"; "orca"; "turbomole"]%string ->
             from_qm.name_is self name = false)
    by (intros name; apply name_is_outside; exact Hout).
  assert (H1 : from_qm.name_is self "terachem" = false)
    by (apply Hn; cbn; tauto).
  assert (H2 : from_qm.name_is self "mopac" = false)
    by (apply Hn; cbn; tauto).
  assert (H3 : from_qm.name_is self "gaussian" = false)
    by (apply Hn; cbn; tauto).
  assert (H4 : from_qm.name_is self "orca" = false)
    by (apply Hn; cbn; tauto).
  assert (H5 : from_qm.name_is self "turbomole" = false)
    by (apply Hn; cbn; tauto).
  unfold from_qm.target_and_gradients.
  rewrite H1, H2, H3, H4, H5.
  unfold py.bind, py.get, py.modify, py.ret, py.lift, py.raise,
    from_qm.in_world.
  split.
  - destruct (from_qm.clustering self).
    + destruct (from_qm.get_qm_file_name_and_pdb_hierarchy _ _ _)
        as [[qm_pdb_file ph] w1 | e w1];
        [| eexists; eexists; split; reflexivity].
      cbn [from_qm.the_world from_qm.set_the_world from_qm.pdb_hierarchy
           from_qm.qm_engine].
      destruct (from_qm.charge_of_fragment _ _ _) as [qm_charge w2 | e w2];
        [| eexists; eexists; split; reflexivity].
      cbn [from_qm.the_world from_qm.set_the_world from_qm.pdb_hierarchy
           from_qm.qm_engine].
      destruct (from_qm.write_mm_charge_file _ _ _) as [charge_file w3 | e w3];
        [| eexists; eexists; split; reflexivity].
      cbn [from_qm.the_world from_qm.set_the_world from_qm.pdb_hierarchy
           from_qm.qm_engine].
      destruct (match from_qm.fragment_extracts self with
                | Some fe => _
                | None => _
                end) as [scale | e];
        eexists; eexists; split; reflexivity.
    + destruct (from_qm.atoms_set_xyz _ _ _) as [ph w1 | e w1];
        [| eexists; eexists; split; reflexivity].
      cbn [from_qm.the_world from_qm.set_the_world from_qm.pdb_hierarchy
           from_qm.qm_engine from_qm.set_pdb_hierarchy].
      destruct (from_qm.write_pdb_file _ _ _) as [[] w2 | e w2];
        eexists; eexists; split; reflexivity.
  - intros Hcl ph w1 w2 Hset Hwrite. rewrite Hcl, Hset.
    cbn [from_qm.the_world from_qm.set_the_world from_qm.pdb_hierarchy
         from_qm.qm_engine from_qm.set_pdb_hierarchy].
    rewrite Hwrite. reflexivity.
Qed.

Lemma from_qm_target_and_gradients_other_engines_witness :
  let self := @from_qm.Build_t scripted_ase None (Some "pyscf"%string)
                "./ase/tmp_ase.pdb" 0%Z false 1 in
  let h := {| completion.name := " H  "; completion.element := " H";
              completion.xyz := (0, 0, 0); completion.occ := 1;
              completion.b := 20; completion.tmp := 0%Z |} in
  let engine := {| sc_label := "tmp"; sc_energy := None;
                   sc_forces := None |} in
  let s := @from_qm.Build_state scripted_ase [[[h]]] engine [] in
  from_qm.target_and_gradients self [(1, 2, 3)] None None s
  = Raise AssertionError
      (@from_qm.Build_state scripted_ase
         [[[completion.set_xyz h (1, 2, 3)]]] engine
         ["./ase/tmp_ase.pdb"%string]).
Proof.
  intros self h engine s.
  refine (proj2 (@from_qm_target_and_gradients_other_engines scripted_ase
                   self [(1, 2, 3)] None None s _) _ _ _ _ _ _).
  - cbn. intros [E | [E | [E | [E | [E | []]]]]]; discriminate E.
  - reflexivity.
  - reflexivity.
  - reflexivity.
Defined.

(** Multiplying by ones. *)
Lemma mul_each_ones :
  forall (g r : flex.vec3_double) (n : nat),
    from_cctbx.mul_each g (repeat 1 n) = Ok r ->
    List.length g = n
    /\ List.length r = n
    /\ forall (i : nat) (v : flex.vec3),
         nth_error r i = Some v ->
         exists w : flex.vec3,
           nth_error g i = Some w
           /\ v = (let '(x, y, z) := w in (x * 1, y * 1, z * 1)).
Proof.
  induction g as [| w g IH]; intros r [| n] H; cbn in H; try discriminate.
  - injection H as <-. repeat split. intros [| i] v Hv; discriminate Hv.
  - destruct (from_cctbx.mul_each g (repeat 1 n)) as [r' |] eqn:E;
      [| discriminate].
    cbn in H. injection H as <-.
    destruct (IH r' n E) as (Hg & Hr & Hn).
    split; [cbn; now rewrite Hg |]. split; [cbn; now rewrite Hr |].
    intros [| i] v Hv; cbn in Hv.
    + injection Hv as <-. exists w. split; reflexivity.
    + exact (Hn i v Hv).
Qed.

Lemma count_true_repeat (n : nat) :
  from_cctbx.count_true (repeat true n) = n.
Proof.
  unfold from_cctbx.count_true. induction n as [| n IH]; [reflexivity |].
  cbn. now rewrite IH.
Qed.

(** What [target_and_gradients] returns without clustering.  The energy is
    the free energy of the calculator after the run, times mol/kcal; there
    is one gradient for each of the [system_size] atoms, minus the force on
    the atom times mol/kcal. *)
Theorem from_qm_target_and_gradients_value :
  forall {A : from_qm.ase} (self : from_qm.t) (sites_cart : flex.vec3_double)
         (selection : option flex.bool) (index : option nat)
         (s s' : from_qm.state) (energy : R) (gradients : flex.vec3_double),
    from_qm.clustering self = false ->
    from_qm.target_and_gradients self sites_cart selection index s
    = Return (energy, gradients) s' ->
    exists (ef : R) (fs : list flex.vec3),
      from_qm.energy_free (from_qm.qm_engine s') = Ok ef
      /\ from_qm.forces (from_qm.qm_engine s') = Ok fs
      /\ from_qm.kcal <> 0
      /\ energy = ef * (from_qm.mol / from_qm.kcal)
      /\ List.length gradients = from_qm.system_size self
      /\ forall (i : nat) (g : flex.vec3),
           nth_error gradients i = Some g ->
           exists f : flex.vec3,
             nth_error fs i = Some f
             /\ g = (let '(x, y, z) := f in
                     (- x * (from_qm.mol / from_qm.kcal),
                      - y * (from_qm.mol / from_qm.kcal),
                      - z * (from_qm.mol / from_qm.kcal))).
Proof.
  intros A self sites_cart selection index s s' energy gradients Hcl Hrun.
  unfold from_qm.target_and_gradients in Hrun. rewrite Hcl in Hrun.
  set (dispatch := (if from_qm.name_is self "terachem" then _ else _))
    in Hrun.
  unfold py.bind, py.get, py.modify, py.ret, py.lift, from_qm.in_world
    in Hrun.
  destruct (from_qm.atoms_set_xyz _ _ _) as [ph w1 | e w1];
    [| discriminate].
  cbn [from_qm.the_world from_qm.set_the_world from_qm.pdb_hierarchy
       from_qm.qm_engine from_qm.set_pdb_hierarchy] in Hrun.
  destruct (from_qm.write_pdb_file _ _ _) as [[] w2 | e w2];
    [| discriminate].
  destruct (dispatch _) as [command s2 | e s2]; [| discriminate].
  destruct (from_qm.ase_atoms_from_pdb_hierarchy _ _) as [atoms w3 | e w3];
    [| discriminate].
  cbn [from_qm.the_world from_qm.set_the_world from_qm.pdb_hierarchy
       from_qm.qm_engine from_qm.set_pdb_hierarchy from_qm.set_qm_engine]
    in Hrun.
  destruct (from_qm.set_label _ _ _) as [engine w4 | e w4];
    [| discriminate].
  cbn [from_qm.the_world from_qm.set_the_world from_qm.pdb_hierarchy
       from_qm.qm_engine from_qm.set_pdb_hierarchy from_qm.set_qm_engine]
    in Hrun.
  destruct (from_qm.run_qr _ _ _ _ _ _ _ _) as [engine' w5 | e w5];
    [| discriminate].
  cbn [from_qm.the_world from_qm.set_the_world from_qm.pdb_hierarchy
       from_qm.qm_engine from_qm.set_pdb_hierarchy from_qm.set_qm_engine]
    in Hrun.
  unfold py.div in Hrun.
  destruct (Req_dec_T from_qm.kcal 0) as [| Hkcal]; [discriminate |].
  destruct (from_qm.energy_free engine') as [ef | e] eqn:Hef;
    [| discriminate].
  destruct (from_qm.forces engine') as [fs | e] eqn:Hfs; [| discriminate].
  cbv beta iota delta [py.ret py.raise] in Hrun.
  rewrite count_true_repeat in Hrun.
  destruct (from_cctbx.mul_each _ _) as [r | e] eqn:Hmul; [| discriminate].
  injection Hrun as <- <- <-.
  cbn [from_qm.qm_engine].
  exists ef, fs.
  split; [exact Hef |]. split; [exact Hfs |]. split; [exact Hkcal |].
  split; [reflexivity |].
  destruct (mul_each_ones _ _ _ Hmul) as (Hg & Hr & Hn).
  split; [exact Hr |].
  intros i g Hi. destruct (Hn i g Hi) as (w & Hw & ->).
  rewrite nth_error_firstn in Hw.
  destruct (i <? from_qm.system_size self)%nat; [| discriminate].
  rewrite nth_error_map in Hw.
  destruct (nth_error fs i) as [f |]; [| discriminate].
  cbn [option_map] in Hw. injection Hw as <-.
  exists f. split; [reflexivity |].
  destruct f as [[x y] z]. f_equal; [f_equal |]; ring.
Qed.

Lemma from_qm_target_and_gradients_value_witness :
  let self := @from_qm.Build_t scripted_ase None (Some "mopac"%string)
                "./ase/tmp_ase.pdb" 0%Z false 1 in
  let h := {| completion.name := " H  "; completion.element := " H";
              completion.xyz := (0, 0, 0); completion.occ := 1;
              completion.b := 20; completion.tmp := 0%Z |} in
  let engine := {| sc_label := "tmp"; sc_energy := None;
                   sc_forces := None |} in
  let s := @from_qm.Build_state scripted_ase [[[h]]] engine [] in
  exists (energy : R) (gradients : flex.vec3_double) (s' : from_qm.state),
    from_qm.target_and_gradients self [(1, 2, 3)] None None s
    = Return (energy, gradients) s'
    /\ List.length gradients = 1%nat.
Proof.
  intros self h engine s.
  assert (Hrun : exists energy gradients s',
             from_qm.target_and_gradients self [(1, 2, 3)] None None s
             = Return (energy, gradients) s').
  { unfold from_qm.target_and_gradients, py.bind, py.lift, py.div.
    cbn.
    destruct (Req_dec_T 2 0) as [E | _]; [lra |].
    do 3 eexists. reflexivity. }
  destruct Hrun as (energy & gradients & s' & Hrun).
  exists energy, gradients, s'. split; [exact Hrun |].
  destruct (@from_qm_target_and_gradients_value scripted_ase self
              [(1, 2, 3)] None None s s' energy gradients eq_refl Hrun)
    as (ef & fs & _ & _ & _ & _ & Hlen & _).
  exact Hlen.
Defined.
